(** * KODEX: the session cache and auth facade of [src/lib/supabase.ts]

    A shallow embedding of [sessionManager] and [authService] and the
    properties of their behaviour.

    Modelling decisions, valid for the whole file:
    - a JavaScript value is [undefined] or a JSON value ([value := option json]);
      numbers are integers (epoch seconds and milliseconds), so NaN,
      infinities and fractions are outside the model;
    - strings are byte strings (UTF-8);
    - [localStorage] is a finite map from keys to strings whose operations
      do not fail (no quota, no security error);
    - [Date.now()] reads an arbitrary clock, one reading per call;
    - a call to the identity service either resolves with a result envelope
      [{ data, error }] or rejects; every call issued is recorded in the
      world; what the client library itself keeps in the storage, and the
      listener the module installs for its notifications, are outside the
      operations modelled here;
    - each operation runs to completion without interleaving; console
      output is not part of the model. *)

From Stdlib Require Import ZArith String Ascii List Lia DecimalFacts DecimalZ.
From stdpp Require Import base option list gmap strings.

Local Open Scope string_scope.
Local Open Scope Z_scope.

(** ** JSON values *)

#[warnings="-register-all"]
Inductive json : Type :=
| JNull
| JBool (b : bool)
| JNum (n : Z)
| JStr (s : string)
| JArr (items : list json)
| JObj (members : list (string * json)).

(** A JavaScript value as this file meets them: [None] is [undefined]. *)
Definition value : Type := option json.
Definition undefined : value := None.
Definition null : value := Some JNull.

(** Induction over [json] that reaches inside arrays and objects. *)
Section json_induction.
Variable P : json -> Prop.
Hypothesis Hnull : P JNull.
Hypothesis Hbool : forall b, P (JBool b).
Hypothesis Hnum : forall n, P (JNum n).
Hypothesis Hstr : forall s, P (JStr s).
Hypothesis Harr : forall items, Forall P items -> P (JArr items).
Hypothesis Hobj : forall members, Forall (fun kv => P (snd kv)) members -> P (JObj members).

Fixpoint json_nested_ind (v : json) : P v :=
  match v with
  | JNull => Hnull
  | JBool b => Hbool b
  | JNum n => Hnum n
  | JStr s => Hstr s
  | JArr items =>
      Harr items
        ((fix go (l : list json) : Forall P l :=
            match l with
            | [] => @Lists.List.Forall_nil _ P
            | x :: l' => @Lists.List.Forall_cons _ P x l' (json_nested_ind x) (go l')
            end) items)
  | JObj members =>
      Hobj members
        ((fix go (l : list (string * json)) : Forall (fun kv => P (snd kv)) l :=
            match l with
            | [] => @Lists.List.Forall_nil _ _
            | kv :: l' => @Lists.List.Forall_cons _ _ kv l' (json_nested_ind (snd kv)) (go l')
            end) members)
  end.
End json_induction.

(** ** The JSON text of a value and its reader

    [JSON.stringify] and [JSON.parse] are primitives of the platform.  The
    codec below is their reference implementation on the values of the
    model: the writer gives the compact text of [JSON.stringify] with its
    escapes; the reader takes the JSON grammar with integers for numbers
    (a fraction or an exponent is outside the model, as is an escape of a
    lone surrogate); the recogniser [valid] takes the grammar in full, so
    that the texts the reader leaves out are told apart from the texts that
    are not JSON.  Printers take the text that follows as a second
    argument. *)
Module JSONText.

Definition dquote : ascii := "034"%char.
Definition backslash : ascii := "092"%char.

(** *** Numbers *)

Fixpoint emit_digits (u : Decimal.uint) (k : string) : string :=
  match u with
  | Decimal.Nil => k
  | Decimal.D0 u => String "0" (emit_digits u k)
  | Decimal.D1 u => String "1" (emit_digits u k)
  | Decimal.D2 u => String "2" (emit_digits u k)
  | Decimal.D3 u => String "3" (emit_digits u k)
  | Decimal.D4 u => String "4" (emit_digits u k)
  | Decimal.D5 u => String "5" (emit_digits u k)
  | Decimal.D6 u => String "6" (emit_digits u k)
  | Decimal.D7 u => String "7" (emit_digits u k)
  | Decimal.D8 u => String "8" (emit_digits u k)
  | Decimal.D9 u => String "9" (emit_digits u k)
  end.

Definition emit_Z (n : Z) (k : string) : string :=
  match Z.to_int n with
  | Decimal.Pos u => emit_digits u k
  | Decimal.Neg u => String "-" (emit_digits u k)
  end.

Definition digit_of (c : ascii) : option (Decimal.uint -> Decimal.uint) :=
  if (c =? "0")%char then Some Decimal.D0
  else if (c =? "1")%char then Some Decimal.D1
  else if (c =? "2")%char then Some Decimal.D2
  else if (c =? "3")%char then Some Decimal.D3
  else if (c =? "4")%char then Some Decimal.D4
  else if (c =? "5")%char then Some Decimal.D5
  else if (c =? "6")%char then Some Decimal.D6
  else if (c =? "7")%char then Some Decimal.D7
  else if (c =? "8")%char then Some Decimal.D8
  else if (c =? "9")%char then Some Decimal.D9
  else None.

(** The longest run of digits at the head of [s], and what follows it. *)
Fixpoint read_digits (s : string) : Decimal.uint * string :=
  match s with
  | EmptyString => (Decimal.Nil, s)
  | String c r =>
      match digit_of c with
      | Some d => let '(u, r') := read_digits r in (d u, r')
      | None => (Decimal.Nil, s)
      end
  end.

(** A JSON integer: an optional minus sign, then digits with no leading
    zero (a lone [0] is allowed). *)
Definition parse_number (s : string) : option (Z * string) :=
  let '(negative, s1) :=
    match s with
    | String c r => if (c =? "-")%char then (true, r) else (false, s)
    | EmptyString => (false, s)
    end in
  let '(u, r) := read_digits s1 in
  if Decimal.uint_beq (Decimal.unorm u) u
  then Some (Z.of_int (if negative then Decimal.Neg u else Decimal.Pos u), r)
  else None.

(** *** Strings *)

Definition hex_char (n : N) : ascii :=
  ascii_of_N (if (n <? 10)%N then 48 + n else 87 + n).

Definition hex_value (c : ascii) : option N :=
  let n := N_of_ascii c in
  if ((48 <=? n) && (n <=? 57))%N then Some (n - 48)%N
  else if ((97 <=? n) && (n <=? 102))%N then Some (n - 87)%N
  else if ((65 <=? n) && (n <=? 70))%N then Some (n - 55)%N
  else None.

(** What [JSON.stringify] writes for one character of a string. *)
Definition emit_char (c : ascii) (k : string) : string :=
  let n := N_of_ascii c in
  if (n =? 34)%N then String backslash (String dquote k)
  else if (n =? 92)%N then String backslash (String backslash k)
  else if (n =? 8)%N then String backslash (String "b" k)
  else if (n =? 9)%N then String backslash (String "t" k)
  else if (n =? 10)%N then String backslash (String "n" k)
  else if (n =? 12)%N then String backslash (String "f" k)
  else if (n =? 13)%N then String backslash (String "r" k)
  else if (n <? 32)%N then
    String backslash (String "u" (String "0" (String "0"
      (String (hex_char (n / 16)) (String (hex_char (n mod 16)) k)))))
  else String c k.

Fixpoint emit_chars (s : string) (k : string) : string :=
  match s with
  | EmptyString => k
  | String c s' => emit_char c (emit_chars s' k)
  end.

Definition emit_quoted (s : string) (k : string) : string :=
  String dquote (emit_chars s (String dquote k)).

(** The UTF-8 bytes of a code point; a surrogate has none. *)
Definition utf8_of_code (n : N) : option string :=
  if (n <? 128)%N then Some (String (ascii_of_N n) EmptyString)
  else if (n <? 2048)%N then
    Some (String (ascii_of_N (192 + n / 64))
         (String (ascii_of_N (128 + n mod 64)) EmptyString))
  else if ((55296 <=? n) && (n <=? 57343))%N then None
  else if (n <? 65536)%N then
    Some (String (ascii_of_N (224 + n / 4096))
         (String (ascii_of_N (128 + (n / 64) mod 64))
         (String (ascii_of_N (128 + n mod 64)) EmptyString)))
  else
    Some (String (ascii_of_N (240 + n / 262144))
         (String (ascii_of_N (128 + (n / 4096) mod 64))
         (String (ascii_of_N (128 + (n / 64) mod 64))
         (String (ascii_of_N (128 + n mod 64)) EmptyString)))).

(** The code point of a pair of surrogates. *)
Definition code_of_pair (high low : N) : option N :=
  if ((55296 <=? high) && (high <=? 56319) && (56320 <=? low) && (low <=? 57343))%N
  then Some (65536 + (high - 55296) * 1024 + (low - 56320))%N
  else None.

Definition code_of_hex (a b c d : ascii) : option N :=
  match hex_value a, hex_value b, hex_value c, hex_value d with
  | Some x, Some y, Some z, Some t => Some (((x * 16 + y) * 16 + z) * 16 + t)%N
  | _, _, _, _ => None
  end.

Definition prepend (p : string) (res : option (string * string)) : option (string * string) :=
  match res with
  | Some (s, r) => Some (p +:+ s, r)
  | None => None
  end.

(** The body of a string literal up to its closing quote. *)
Fixpoint parse_chars (s : string) : option (string * string) :=
  match s with
  | EmptyString => None
  | String c r =>
      if (c =? dquote)%char then Some (EmptyString, r)
      else if (c =? backslash)%char then
        match r with
        | String e r1 =>
            if (e =? dquote)%char then prepend (String dquote EmptyString) (parse_chars r1)
            else if (e =? backslash)%char then prepend (String backslash EmptyString) (parse_chars r1)
            else if (e =? "/")%char then prepend "/" (parse_chars r1)
            else if (e =? "b")%char then prepend (String "008" EmptyString) (parse_chars r1)
            else if (e =? "t")%char then prepend (String "009" EmptyString) (parse_chars r1)
            else if (e =? "n")%char then prepend (String "010" EmptyString) (parse_chars r1)
            else if (e =? "f")%char then prepend (String "012" EmptyString) (parse_chars r1)
            else if (e =? "r")%char then prepend (String "013" EmptyString) (parse_chars r1)
            else if (e =? "u")%char then
              match r1 with
              | String h1 (String h2 (String h3 (String h4 r2))) =>
                  match code_of_hex h1 h2 h3 h4 with
                  | Some n =>
                      match utf8_of_code n with
                      | Some p => prepend p (parse_chars r2)
                      | None =>
                          match r2 with
                          | String b (String u (String l1 (String l2 (String l3 (String l4 r3))))) =>
                              if ((b =? backslash) && (u =? "u"))%char then
                                match code_of_hex l1 l2 l3 l4 with
                                | Some m =>
                                    match code_of_pair n m with
                                    | Some code =>
                                        match utf8_of_code code with
                                        | Some p => prepend p (parse_chars r3)
                                        | None => None
                                        end
                                    | None => None
                                    end
                                | None => None
                                end
                              else None
                          | _ => None
                          end
                      end
                  | None => None
                  end
              | _ => None
              end
            else None
        | EmptyString => None
        end
      else if (N_of_ascii c <? 32)%N then None
      else prepend (String c EmptyString) (parse_chars r)
  end.

(** *** Values *)

Section sequences.
Context {A : Type} (emit_one : A -> string -> string) (close : ascii).

Fixpoint emit_more (xs : list A) (k : string) : string :=
  match xs with
  | [] => String close k
  | x :: xs' => String "," (emit_one x (emit_more xs' k))
  end.

Definition emit_seq (xs : list A) (k : string) : string :=
  match xs with
  | [] => String close k
  | x :: xs' => emit_one x (emit_more xs' k)
  end.
End sequences.

Fixpoint emit (v : json) (k : string) : string :=
  match v with
  | JNull => String "n" (String "u" (String "l" (String "l" k)))
  | JBool true => String "t" (String "r" (String "u" (String "e" k)))
  | JBool false => String "f" (String "a" (String "l" (String "s" (String "e" k))))
  | JNum n => emit_Z n k
  | JStr s => emit_quoted s k
  | JArr items => String "[" (emit_seq emit "]" items k)
  | JObj members =>
      String "{"
        (emit_seq (fun kv k' => emit_quoted (fst kv) (String ":" (emit (snd kv) k')))
                  "}" members k)
  end.

Fixpoint strip_prefix (p s : string) : option string :=
  match p with
  | EmptyString => Some s
  | String a p' =>
      match s with
      | String b s' => if (a =? b)%char then strip_prefix p' s' else None
      | EmptyString => None
      end
  end.

Definition literal (p : string) (v : json) (s : string) : option (json * string) :=
  match strip_prefix p s with
  | Some r => Some (v, r)
  | None => None
  end.

(** Insignificant white space: space, tab, line feed, carriage return. *)
Definition is_space (c : ascii) : bool :=
  ((c =? " ") || (c =? "009") || (c =? "010") || (c =? "013"))%char.

Fixpoint skip_space (s : string) : string :=
  match s with
  | EmptyString => s
  | String c r => if is_space c then skip_space r else s
  end.

Fixpoint parse_value (fuel : nat) (s : string) : option (json * string) :=
  match fuel with
  | O => None
  | S fuel =>
      match parse_number (skip_space s) with
      | Some (n, r) => Some (JNum n, r)
      | None =>
          match skip_space s with
          | EmptyString => None
          | String c r =>
              if (c =? dquote)%char then
                match parse_chars r with
                | Some (str, r1) => Some (JStr str, r1)
                | None => None
                end
              else if (c =? "[")%char then
                match parse_value fuel r with
                | Some (x, r1) =>
                    match parse_items fuel r1 with
                    | Some (xs, r2) => Some (JArr (x :: xs), r2)
                    | None => None
                    end
                | None =>
                    match skip_space r with
                    | String c' r1 => if (c' =? "]")%char then Some (JArr [], r1) else None
                    | EmptyString => None
                    end
                end
              else if (c =? "{")%char then
                match parse_member fuel r with
                | Some (m, r1) =>
                    match parse_members fuel r1 with
                    | Some (ms, r2) => Some (JObj (m :: ms), r2)
                    | None => None
                    end
                | None =>
                    match skip_space r with
                    | String c' r1 => if (c' =? "}")%char then Some (JObj [], r1) else None
                    | EmptyString => None
                    end
                end
              else if (c =? "t")%char then literal "rue" (JBool true) r
              else if (c =? "f")%char then literal "alse" (JBool false) r
              else if (c =? "n")%char then literal "ull" JNull r
              else None
          end
      end
  end
with parse_items (fuel : nat) (s : string) : option (list json * string) :=
  match fuel with
  | O => None
  | S fuel =>
      match skip_space s with
      | EmptyString => None
      | String c r =>
          if (c =? "]")%char then Some ([], r)
          else if (c =? ",")%char then
            match parse_value fuel r with
            | Some (x, r1) =>
                match parse_items fuel r1 with
                | Some (xs, r2) => Some (x :: xs, r2)
                | None => None
                end
            | None => None
            end
          else None
      end
  end
with parse_member (fuel : nat) (s : string) : option ((string * json) * string) :=
  match fuel with
  | O => None
  | S fuel =>
      match skip_space s with
      | EmptyString => None
      | String c r =>
          if (c =? dquote)%char then
            match parse_chars r with
            | Some (key, r1) =>
                match skip_space r1 with
                | String c' r2 =>
                    if (c' =? ":")%char then
                      match parse_value fuel r2 with
                      | Some (x, r3) => Some ((key, x), r3)
                      | None => None
                      end
                    else None
                | EmptyString => None
                end
            | None => None
            end
          else None
      end
  end
with parse_members (fuel : nat) (s : string) : option (list (string * json) * string) :=
  match fuel with
  | O => None
  | S fuel =>
      match skip_space s with
      | EmptyString => None
      | String c r =>
          if (c =? "}")%char then Some ([], r)
          else if (c =? ",")%char then
            match parse_member fuel r with
            | Some (m, r1) =>
                match parse_members fuel r1 with
                | Some (ms, r2) => Some (m :: ms, r2)
                | None => None
                end
            | None => None
            end
          else None
      end
  end.

(** The nesting and breadth of a value: the reader needs more fuel than
    this. *)
Fixpoint size (v : json) : nat :=
  match v with
  | JArr items => S (list_sum (map (fun x => S (size x)) items))
  | JObj members => S (list_sum (map (fun kv => S (S (size (snd kv)))) members))
  | _ => O
  end.

(** What may follow a number for its digits to be read back. *)
Definition no_digit_head (k : string) : Prop :=
  match k with
  | EmptyString => True
  | String c _ => digit_of c = None
  end.

(** Reading the text of [v] gives [v] and what follows. *)
Definition reads_back (v : json) : Prop :=
  forall fuel k, (size v < fuel)%nat -> no_digit_head k ->
    parse_value fuel (emit v k) = Some (v, k).

(** The text of [v] is at least as long as [v] is large. *)
Definition grows (v : json) : Prop :=
  forall k, (String.length k + size v <= String.length (emit v k))%nat.

(** [JSON.stringify] on a JSON value. *)
Definition stringify (v : json) : string := emit v EmptyString.

(** [JSON.parse]: [None] stands for the [SyntaxError] it throws. *)
Definition parse (s : string) : option json :=
  match parse_value (S (S (String.length s))) s with
  | Some (v, rest) =>
      match skip_space rest with
      | EmptyString => Some v
      | String _ _ => None
      end
  | None => None
  end.

(** *** The grammar in full

    [JSON.parse] accepts texts that [parse] does not read: a number may have
    a fraction and an exponent, and a string an escape of a lone surrogate.
    [valid] recognises the whole grammar, without building a value, so that
    a statement can tell a text that is not JSON from a JSON text that is
    outside the model. *)

Definition is_digit (c : ascii) : bool :=
  match digit_of c with
  | Some _ => true
  | None => false
  end.

Definition is_hex (c : ascii) : bool :=
  match hex_value c with
  | Some _ => true
  | None => false
  end.

Fixpoint skip_digits (s : string) : string :=
  match s with
  | EmptyString => s
  | String c r => if is_digit c then skip_digits r else s
  end.

(** The fraction at the head of [s], a point and at least one digit, if
    there is one. *)
Definition skip_fraction (s : string) : string :=
  match s with
  | String c (String d r) => if ((c =? ".")%char && is_digit d)%bool then skip_digits r else s
  | _ => s
  end.

(** The exponent at the head of [s], [e] or [E], an optional sign and at
    least one digit, if there is one. *)
Definition skip_exponent (s : string) : string :=
  match s with
  | String e (String c r) =>
      if ((e =? "e") || (e =? "E"))%char then
        if is_digit c then skip_digits r
        else if ((c =? "+") || (c =? "-"))%char then
          match r with
          | String d r' => if is_digit d then skip_digits r' else s
          | EmptyString => s
          end
        else s
      else s
  | _ => s
  end.

(** A JSON number: an integer, then an optional fraction, then an optional
    exponent. *)
Definition skip_number (s : string) : option string :=
  match parse_number s with
  | Some (_, r) => Some (skip_exponent (skip_fraction r))
  | None => None
  end.

(** The body of a string literal up to its closing quote; [\u] takes any
    four hexadecimal digits. *)
Fixpoint skip_chars (s : string) : option string :=
  match s with
  | EmptyString => None
  | String c r =>
      if (c =? dquote)%char then Some r
      else if (c =? backslash)%char then
        match r with
        | String e r1 =>
            if ((e =? dquote) || (e =? backslash) || (e =? "/") || (e =? "b") || (e =? "t")
                || (e =? "n") || (e =? "f") || (e =? "r"))%char
            then skip_chars r1
            else if (e =? "u")%char then
              match r1 with
              | String h1 (String h2 (String h3 (String h4 r2))) =>
                  if (is_hex h1 && is_hex h2 && is_hex h3 && is_hex h4)%bool
                  then skip_chars r2
                  else None
              | _ => None
              end
            else None
        | EmptyString => None
        end
      else if (N_of_ascii c <? 32)%N then None
      else skip_chars r
  end.

Fixpoint accept_value (fuel : nat) (s : string) : option string :=
  match fuel with
  | O => None
  | S fuel =>
      match skip_number (skip_space s) with
      | Some r => Some r
      | None =>
          match skip_space s with
          | EmptyString => None
          | String c r =>
              if (c =? dquote)%char then skip_chars r
              else if (c =? "[")%char then
                match skip_space r with
                | EmptyString => None
                | String c' r' =>
                    if (c' =? "]")%char then Some r'
                    else match accept_value fuel r with
                         | Some r1 => accept_items fuel r1
                         | None => None
                         end
                end
              else if (c =? "{")%char then
                match skip_space r with
                | EmptyString => None
                | String c' r' =>
                    if (c' =? "}")%char then Some r'
                    else match accept_member fuel r with
                         | Some r1 => accept_members fuel r1
                         | None => None
                         end
                end
              else if (c =? "t")%char then strip_prefix "rue" r
              else if (c =? "f")%char then strip_prefix "alse" r
              else if (c =? "n")%char then strip_prefix "ull" r
              else None
          end
      end
  end
with accept_items (fuel : nat) (s : string) : option string :=
  match fuel with
  | O => None
  | S fuel =>
      match skip_space s with
      | EmptyString => None
      | String c r =>
          if (c =? "]")%char then Some r
          else if (c =? ",")%char then
            match accept_value fuel r with
            | Some r1 => accept_items fuel r1
            | None => None
            end
          else None
      end
  end
with accept_member (fuel : nat) (s : string) : option string :=
  match fuel with
  | O => None
  | S fuel =>
      match skip_space s with
      | EmptyString => None
      | String c r =>
          if (c =? dquote)%char then
            match skip_chars r with
            | Some r1 =>
                match skip_space r1 with
                | String c' r2 => if (c' =? ":")%char then accept_value fuel r2 else None
                | EmptyString => None
                end
            | None => None
            end
          else None
      end
  end
with accept_members (fuel : nat) (s : string) : option string :=
  match fuel with
  | O => None
  | S fuel =>
      match skip_space s with
      | EmptyString => None
      | String c r =>
          if (c =? "}")%char then Some r
          else if (c =? ",")%char then
            match accept_member fuel r with
            | Some r1 => accept_members fuel r1
            | None => None
            end
          else None
      end
  end.

(** Whether [s] is a JSON text: one value, with white space around it. *)
Definition valid (s : string) : bool :=
  match accept_value (S (S (String.length s))) s with
  | Some rest =>
      match skip_space rest with
      | EmptyString => true
      | String _ _ => false
      end
  | None => false
  end.

(** What follows a number that [parse_number] and [skip_number] read
    alike: no fraction and no exponent. *)
Definition no_fraction_head (r : string) : Prop := skip_exponent (skip_fraction r) = r.

End JSONText.

(** [JSON.stringify], [JSON.parse] and [Number.prototype.toString] as the
    source calls them.  [JSON_valid] tells whether [JSON.parse] accepts a
    text; [JSON_parse] reads the accepted texts whose numbers are integers
    and whose escapes are of whole characters. *)
Definition JSON_stringify (v : json) : string := JSONText.stringify v.
Definition JSON_parse (text : string) : option json := JSONText.parse text.
Definition JSON_valid (text : string) : bool := JSONText.valid text.
Definition Z_toString (n : Z) : string := JSONText.emit_Z n EmptyString.

(** ** JavaScript semantics used by the source *)

(** Truthiness, as [if (v)], [!v], [a && b] and [a || b] test it. *)
Definition truthy (v : value) : bool :=
  match v with
  | None => false
  | Some JNull => false
  | Some (JBool b) => b
  | Some (JNum n) => negb (n =? 0)%Z
  | Some (JStr EmptyString) => false
  | Some (JStr (String _ _)) => true
  | Some (JArr _) => true
  | Some (JObj _) => true
  end.

(** Truthiness of what [localStorage.getItem] returns: [null] and the empty
    string are falsy. *)
Definition truthy_item (item : option string) : bool :=
  match item with
  | None => false
  | Some EmptyString => false
  | Some (String _ _) => true
  end.

(** The value of a property that was parsed from JSON text: of two members
    with the same key the later one counts. *)
Fixpoint obj_lookup (key : string) (members : list (string * json)) : value :=
  match members with
  | [] => undefined
  | (k, v) :: rest =>
      match obj_lookup key rest with
      | Some later => Some later
      | None => if String.eqb k key then Some v else undefined
      end
  end.

(** An object literal that is only ever read by name or serialized: a
    property whose value is [undefined] reads as [undefined] and is left out
    by [JSON.stringify], so it is left out here. *)
Fixpoint object_literal (props : list (string * value)) : list (string * json) :=
  match props with
  | [] => []
  | (k, Some v) :: rest => (k, v) :: object_literal rest
  | (_, None) :: rest => object_literal rest
  end.

(** [obj.key = v] on a parsed object. *)
Fixpoint replace_member (key : string) (v : json) (members : list (string * json)) :
    list (string * json) :=
  match members with
  | [] => []
  | (k, old) :: rest =>
      (k, if String.eqb k key then v else old) :: replace_member key v rest
  end.

Definition without_member (key : string) (members : list (string * json)) :
    list (string * json) :=
  filter (fun kv => fst kv <> key) members.

Definition assign_member (key : string) (v : value) (members : list (string * json)) :
    list (string * json) :=
  match v with
  | None => without_member key members
  | Some j =>
      match obj_lookup key members with
      | Some _ => replace_member key j members
      | None => members ++ [(key, j)]
      end
  end.

(** [String(v)] for the values of the model; inside [Array.prototype.join]
    [null] prints as the empty string. *)
Fixpoint ToString (v : json) : string :=
  match v with
  | JNull => "null"
  | JBool true => "true"
  | JBool false => "false"
  | JNum n => Z_toString n
  | JStr s => s
  | JArr items =>
      (fix join (xs : list json) : string :=
         match xs with
         | [] => EmptyString
         | [x] => match x with JNull => EmptyString | _ => ToString x end
         | x :: rest =>
             (match x with JNull => EmptyString | _ => ToString x end) +:+ "," +:+ join rest
         end) items
  | JObj _ => "[object Object]"
  end.

(** The enumerable own properties that [{...v}] copies. *)
Fixpoint indexed {A : Type} (f : A -> json) (i : nat) (xs : list A) : list (string * json) :=
  match xs with
  | [] => []
  | x :: rest => (Z_toString (Z.of_nat i), f x) :: indexed f (S i) rest
  end.

Definition spread (v : value) : list (string * json) :=
  match v with
  | Some (JObj members) => members
  | Some (JArr items) => indexed (fun x => x) 0 items
  | Some (JStr s) => indexed (fun c => JStr (String c EmptyString)) 0 (list_ascii_of_string s)
  | _ => []
  end.

(** [email.split('@')[0]] *)
Fixpoint before_at (s : string) : string :=
  match s with
  | EmptyString => EmptyString
  | String c rest => if (c =? "@")%char then EmptyString else String c (before_at rest)
  end.

(** [encodeURIComponent] on a string of UTF-8 bytes. *)
Definition unreserved (c : ascii) : bool :=
  let n := N_of_ascii c in
  ((65 <=? n) && (n <=? 90))%N || ((97 <=? n) && (n <=? 122))%N
  || ((48 <=? n) && (n <=? 57))%N
  || existsb (Ascii.eqb c) (list_ascii_of_string "-_.!~*'()").

Definition upper_hex (n : N) : ascii :=
  ascii_of_N (if (n <? 10)%N then 48 + n else 55 + n).

Fixpoint encodeURIComponent (s : string) : string :=
  match s with
  | EmptyString => EmptyString
  | String c rest =>
      if unreserved c then String c (encodeURIComponent rest)
      else String "%" (String (upper_hex (N_of_ascii c / 16))
                      (String (upper_hex (N_of_ascii c mod 16)) (encodeURIComponent rest)))
  end.

(** ** The identity service *)

Inductive AuthError : Type := MkAuthError (message : string).

(** The [data] member of a result envelope. *)
Record AuthData : Type := { data_user : value; data_session : value }.

(** The calls of [supabase.auth] the source makes, with their arguments. *)
Inductive call : Type :=
| GetSession
| RefreshSession (refresh_token : value)
| SignUp (email password : string) (metadata : list (string * json))
| SignOut
| GetUser
| UpdateUser (attributes : list (string * json)).

(** What awaiting a call gives: an envelope [{ data, error }], whose [data]
    is always an object as the types of the client library say, or a
    rejection. *)
Inductive reply : Type :=
| Resolved (data : AuthData) (error : option AuthError)
| Rejected (reason : string).

(** ** The world the code runs in *)

Record World : Type := {
  window_defined : bool;                 (* typeof window !== 'undefined' *)
  localStorage : gmap string string;
  clock : nat -> Z;                      (* successive readings of the clock, in ms *)
  ticks : nat;                           (* readings taken so far *)
  timeZone : string;                     (* Intl.DateTimeFormat().resolvedOptions().timeZone *)
  StringToNumber : string -> option Z;   (* Number(s); None is NaN *)
  toISOString : Z -> string;             (* Date.prototype.toISOString *)
  auth : call -> reply;                  (* the behaviour of the identity service *)
  issued : list call                     (* calls sent so far, oldest first *)
}.

Definition with_storage (st : gmap string string) (w : World) : World :=
  {| window_defined := window_defined w; localStorage := st; clock := clock w;
     ticks := ticks w; timeZone := timeZone w; StringToNumber := StringToNumber w;
     toISOString := toISOString w; auth := auth w; issued := issued w |}.

Definition tick (w : World) : World :=
  {| window_defined := window_defined w; localStorage := localStorage w; clock := clock w;
     ticks := S (ticks w); timeZone := timeZone w; StringToNumber := StringToNumber w;
     toISOString := toISOString w; auth := auth w; issued := issued w |}.

Definition record_call (c : call) (w : World) : World :=
  {| window_defined := window_defined w; localStorage := localStorage w; clock := clock w;
     ticks := ticks w; timeZone := timeZone w; StringToNumber := StringToNumber w;
     toISOString := toISOString w; auth := auth w; issued := issued w ++ [c] |}.

(** ** Operations: state passing with exceptions *)

Inductive thrown : Type :=
| SyntaxError                      (* JSON.parse on text that is not JSON *)
| TypeError                        (* a property read on null or undefined *)
| ServiceError (e : AuthError)     (* the error of an envelope, rethrown *)
| Rejection (reason : string).     (* a rejected call *)

Inductive completion (A : Type) : Type :=
| Normal (a : A)
| Throws (e : thrown).
Arguments Normal {A} a.
Arguments Throws {A} e.

Definition Op (A : Type) : Type := World -> completion A * World.

Definition ret {A : Type} (a : A) : Op A := fun w => (Normal a, w).

Definition throw {A : Type} (e : thrown) : Op A := fun w => (Throws e, w).

Definition bind {A B : Type} (m : Op A) (f : A -> Op B) : Op B :=
  fun w =>
    match m w with
    | (Normal a, w') => f a w'
    | (Throws e, w') => (Throws e, w')
    end.

(** [try { body } catch (e) { handler }] *)
Definition try_catch {A : Type} (body : Op A) (handler : thrown -> Op A) : Op A :=
  fun w =>
    match body w with
    | (Normal a, w') => (Normal a, w')
    | (Throws e, w') => handler e w'
    end.

Declare Scope op_scope.
Delimit Scope op_scope with op.
Bind Scope op_scope with Op.
Notation "x ← y ; z" := (bind y (fun x => z))
  (at level 20, y at level 100, z at level 200, only parsing) : op_scope.
Notation "' x ← y ; z" := (bind y (fun x => z))
  (at level 20, x pattern, y at level 100, z at level 200, only parsing) : op_scope.
Notation "x ;; z" := (bind x (fun _ => z))
  (at level 100, z at level 200, only parsing, right associativity) : op_scope.
Local Open Scope op_scope.

(** Reading the world. *)
Definition ask {A : Type} (f : World -> A) : Op A := fun w => (Normal (f w), w).

Definition has_window : Op bool := ask window_defined.

Definition getItem (key : string) : Op (option string) :=
  ask (fun w => localStorage w !! key).

Definition setItem (key text : string) : Op unit :=
  fun w => (Normal tt, with_storage (<[key := text]> (localStorage w)) w).

Definition removeItem (key : string) : Op unit :=
  fun w => (Normal tt, with_storage (delete key (localStorage w)) w).

Definition Date_now : Op Z := fun w => (Normal (clock w (ticks w)), tick w).

Definition resolved_timeZone : Op string := ask timeZone.

(** [new Date().toISOString()] *)
Definition new_Date_toISOString : Op string :=
  now ← Date_now;
  format ← ask toISOString;
  ret (format now).

(** [await supabase.auth.<call>]: the envelope, or the rejection thrown. *)
Definition await (c : call) : Op (AuthData * option AuthError) :=
  fun w =>
    match auth w c with
    | Resolved data error => (Normal (data, error), record_call c w)
    | Rejected reason => (Throws (Rejection reason), record_call c w)
    end.

(** [JSON.parse(text)] as a step that may throw. *)
Definition parse_json (text : string) : Op json :=
  match JSON_parse text with
  | Some v => ret v
  | None => throw SyntaxError
  end.

(** [v.key] for a key that is no built-in member of strings, arrays or
    numbers (none of the names the source reads is one). *)
Definition prop (v : value) (key : string) : Op value :=
  match v with
  | None => throw TypeError
  | Some JNull => throw TypeError
  | Some (JObj members) => ret (obj_lookup key members)
  | Some _ => ret undefined
  end.

(** What [v.key] evaluates to when the read does not throw. *)
Definition field (v : value) (key : string) : value :=
  match v with
  | Some (JObj members) => obj_lookup key members
  | _ => undefined
  end.

(** [v] as a number, for a comparison. *)
Definition ToNumber (v : json) : Op (option Z) :=
  match v with
  | JNull => ret (Some 0)
  | JBool b => ret (Some (if b then 1 else 0))
  | JNum n => ret (Some n)
  | JStr s => number_of ← ask StringToNumber; ret (number_of s)
  | JArr _ | JObj _ => number_of ← ask StringToNumber; ret (number_of (ToString v))
  end.

(** [now / 1000 > v] for a clock reading [now] in milliseconds. *)
Definition seconds_greater (now : Z) (v : value) : Op bool :=
  match v with
  | None => ret false
  | Some j =>
      n ← ToNumber j;
      ret match n with
           | Some seconds => (1000 * seconds <? now)%Z
           | None => false
           end
  end.

(** ** [sessionManager] *)

(** [clearSession()] *)
Definition clearSession : Op unit :=
  window ← has_window;
  if window then
    try_catch
      (removeItem "kodex-session";;
       removeItem "kodex-auth";;
       removeItem "kodex-auth-timestamp";;
       removeItem "kodex-session-active")
      (fun _ => ret tt)
  else ret tt.

(** [saveSession(session)] *)
Definition saveSession (session : value) : Op unit :=
  window ← has_window;
  if window && truthy session then
    try_catch
      (user ← prop session "user";
       access_token ← prop session "access_token";
       refresh_token ← prop session "refresh_token";
       expires_at ← prop session "expires_at";
       expires_in ← prop session "expires_in";
       token_type ← prop session "token_type";
       saved_at ← Date_now;
       let sessionData :=
         JObj (object_literal
                 [("user", user);
                  ("access_token", access_token);
                  ("refresh_token", refresh_token);
                  ("expires_at", expires_at);
                  ("expires_in", expires_in);
                  ("token_type", token_type);
                  ("saved_at", Some (JNum saved_at))]) in
       setItem "kodex-session" (JSON_stringify sessionData);;
       now ← Date_now;
       setItem "kodex-auth-timestamp" (Z_toString now);;
       setItem "kodex-session-active" "true")
      (fun _ => ret tt)
  else ret tt.

(** [getStoredSession()] *)
Definition getStoredSession : Op value :=
  window ← has_window;
  if negb window then ret null
  else
    try_catch
      (stored ← getItem "kodex-session";
       match stored with
       | None => ret null
       | Some EmptyString => ret null
       | Some text =>
           session ← parse_json text;
           user ← prop (Some session) "user";
           invalid ← (if negb (truthy user) then ret true
                      else access_token ← prop (Some session) "access_token";
                           ret (negb (truthy access_token)));
           if invalid then clearSession;; ret null
           else
             expires_at ← prop (Some session) "expires_at";
             expired ← (if truthy expires_at
                        then now ← Date_now; seconds_greater now expires_at
                        else ret false);
             if expired then clearSession;; ret null
             else ret (Some session)
       end)
      (fun _ => clearSession;; ret null).

(** [isFreshSession()] *)
Definition isFreshSession : Op bool :=
  window ← has_window;
  if negb window then ret false
  else
    isActive ← getItem "kodex-session-active";
    ret (negb (truthy_item isActive)).

(** [markSessionActive()] *)
Definition markSessionActive : Op unit :=
  window ← has_window;
  if window then setItem "kodex-session-active" "true" else ret tt.

(** [initializeSession()].  The inner [try] either returns from the
    function ([Some]) or falls through to the code after it ([None]). *)
Definition initializeSession : Op value :=
  try_catch
    ('(data, error) ← await GetSession;
     let session := data_session data in
     match error with
     | Some _ =>
         storedSession ← getStoredSession;
         if truthy storedSession then ret storedSession else ret null
     | None =>
         if truthy session then saveSession session;; ret session
         else
           storedSession ← getStoredSession;
           returned ←
             (refresh_token ← (if truthy storedSession
                               then prop storedSession "refresh_token"
                               else ret undefined);
              if truthy storedSession && truthy refresh_token then
                try_catch
                  ('(refreshed, refreshError) ← await (RefreshSession refresh_token);
                   let refreshedSession := data_session refreshed in
                   match refreshError with
                   | Some _ => clearSession;; ret (Some null)
                   | None =>
                       if truthy refreshedSession
                       then saveSession refreshedSession;; ret (Some refreshedSession)
                       else ret None
                   end)
                  (fun _ => ret (Some storedSession))
              else ret None);
           match returned with
           | Some result => ret result
           | None => ret null
           end
     end)
    (fun _ =>
       storedSession ← getStoredSession;
       if truthy storedSession then ret storedSession
       else clearSession;; ret null).

(** ** [authService] *)

(** The metadata [signUp] sends with the credentials. *)
Definition signUp_metadata (email : string) (fullName : option string)
    (timezone created_at : string) : list (string * json) :=
  let name := match fullName with
              | Some (String _ _ as given) => given
              | _ => before_at email
              end in
  [("full_name", JStr name);
   ("avatar_url",
    JStr ("https://ui-avatars.com/api/?name=" +:+ encodeURIComponent name
          +:+ "&size=200&background=random"));
   ("bio", JStr "");
   ("location", JStr "");
   ("website", JStr "");
   ("company", JStr "");
   ("twitter_username", JStr "");
   ("github_username", JStr "");
   ("email_notifications", JBool true);
   ("marketing_emails", JBool false);
   ("security_alerts", JBool true);
   ("two_factor_enabled", JBool false);
   ("theme", JStr "system");
   ("language", JStr "en");
   ("timezone", JStr timezone);
   ("date_format", JStr "MM/DD/YYYY");
   ("created_at", JStr created_at)].

(** [signUp(email, password, fullName?)]; the result is the [data] of
    [{ data }]. *)
Definition signUp (email password : string) (fullName : option string) : Op AuthData :=
  try_catch
    (timezone ← resolved_timeZone;
     created_at ← new_Date_toISOString;
     '(data, error) ← await (SignUp email password
                               (signUp_metadata email fullName timezone created_at));
     match error with
     | Some e => throw (ServiceError e)
     | None =>
         (if truthy (data_session data) then saveSession (data_session data) else ret tt);;
         ret data
     end)
    (fun error => throw error).

(** [signOut()] *)
Definition signOut : Op unit :=
  try_catch
    ('(_, error) ← await SignOut;
     clearSession;;
     ret tt)
    (fun _ => clearSession).

(** [getCurrentUser()] *)
Definition getCurrentUser : Op value :=
  try_catch
    ('(data, error) ← await GetUser;
     match error with
     | Some _ =>
         storedSession ← getStoredSession;
         user ← (if truthy storedSession then prop storedSession "user" else ret undefined);
         ret (if truthy user then user else null)
     | None => ret (data_user data)
     end)
    (fun _ =>
       storedSession ← getStoredSession;
       user ← (if truthy storedSession then prop storedSession "user" else ret undefined);
       ret (if truthy user then user else null)).

(** [storedSession] after [storedSession.user = user].  It is only applied
    to a session that [getStoredSession] returned, which is an object. *)
Definition with_user (storedSession : value) (user : value) : value :=
  match storedSession with
  | Some (JObj members) => Some (JObj (assign_member "user" user members))
  | other => other
  end.

(** The branch of [updateProfile] for an update of the password: the body
    of [if (updates.password) { ... }]. *)
Definition updateProfile_password_branch (updates : value) : Op AuthData :=
  password ← prop updates "password";
  '(data, error) ← await (UpdateUser (object_literal [("password", password)]));
  match error with
  | Some e => throw (ServiceError e)
  | None =>
      (if truthy (data_user data) then
         storedSession ← getStoredSession;
         if truthy storedSession
         then saveSession (with_user storedSession (data_user data))
         else ret tt
       else ret tt);;
      ret data
  end.

(** The rest of [updateProfile]: an update of the user's metadata. *)
Definition updateProfile_metadata_branch (updates : value) : Op AuthData :=
  nested ← prop updates "data";
  let updateData := if truthy nested then nested else updates in
  updated_at ← new_Date_toISOString;
  '(data, error) ← await (UpdateUser
                            [("data",
                              JObj (assign_member "updated_at" (Some (JStr updated_at))
                                      (spread updateData)))]);
  match error with
  | Some e => throw (ServiceError e)
  | None =>
      (if truthy (data_user data) then
         storedSession ← getStoredSession;
         if truthy storedSession
         then saveSession (with_user storedSession (data_user data))
         else ret tt
       else ret tt);;
      ret data
  end.

(** [updateProfile(updates)] *)
Definition updateProfile (updates : value) : Op AuthData :=
  try_catch
    (password ← prop updates "password";
     if truthy password
     then updateProfile_password_branch updates
     else updateProfile_metadata_branch updates)
    (fun error => throw error).

(** [updatePassword(newPassword)] *)
Definition updatePassword (newPassword : string) : Op AuthData :=
  try_catch
    ('(data, error) ← await (UpdateUser (object_literal [("password", Some (JStr newPassword))]));
     match error with
     | Some e => throw (ServiceError e)
     | None =>
         (if truthy (data_user data) then
            storedSession ← getStoredSession;
            if truthy storedSession
            then saveSession (with_user storedSession (data_user data))
            else ret tt
          else ret tt);;
         ret data
     end)
    (fun error => throw error).

(** ** The rest of the module *)

(** [v == null], the test behind [v?.key]. *)
Definition nullish (v : value) : bool :=
  match v with
  | None => true
  | Some JNull => true
  | Some _ => false
  end.

(** [v?.key] *)
Definition optional_prop (v : value) (key : string) : Op value :=
  if nullish v then ret undefined else prop v key.

(** [sessionManager.isAuthenticated()] *)
Definition isAuthenticated : Op bool :=
  try_catch
    ('(data, error) ← await GetSession;
     match error with
     | Some _ => ret false
     | None =>
         user ← optional_prop (data_session data) "user";
         ret (truthy user)
     end)
    (fun _ =>
       storedSession ← getStoredSession;
       user ← optional_prop storedSession "user";
       ret (truthy user)).

(** [authService.testConnection()]; the result is the object it returns. *)
Definition testConnection : Op json :=
  try_catch
    ('(data, error) ← await GetSession;
     match error with
     | Some (MkAuthError message) =>
         ret (JObj (object_literal [("success", Some (JBool false));
                                    ("error", Some (JStr message))]))
     | None =>
         ret (JObj (object_literal [("success", Some (JBool true));
                                    ("session", data_session data)]))
     end)
    (fun _ =>
       ret (JObj (object_literal [("success", Some (JBool false));
                                  ("error", Some (JStr "Network error"))]))).

(** The callback the module passes to [supabase.auth.onAuthStateChange]. *)
Definition authStateListener (event : string) (session : value) : Op unit :=
  try_catch
    (if String.eqb event "SIGNED_IN" && truthy session then saveSession session
     else if String.eqb event "SIGNED_OUT" then clearSession
     else if String.eqb event "TOKEN_REFRESHED" && truthy session then saveSession session
     else if String.eqb event "USER_UPDATED" && truthy session then saveSession session
     else ret tt)
    (fun _ => ret tt).

(** ** Vocabulary of the statements *)

(** The record [saveSession] serializes for [session] at clock reading
    [saved_at]. *)
Definition session_record (session : value) (saved_at : Z) : json :=
  JObj (object_literal
          [("user", field session "user");
           ("access_token", field session "access_token");
           ("refresh_token", field session "refresh_token");
           ("expires_at", field session "expires_at");
           ("expires_in", field session "expires_in");
           ("token_type", field session "token_type");
           ("saved_at", Some (JNum saved_at))]).

(** The storage with the four slots of the cache removed. *)
Definition without_cache (st : gmap string string) : gmap string string :=
  delete "kodex-session-active"
    (delete "kodex-auth-timestamp" (delete "kodex-auth" (delete "kodex-session" st))).

(** No slot of the cache is present. *)
Definition cache_cleared (w : World) : Prop :=
  localStorage w !! "kodex-session" = None /\
  localStorage w !! "kodex-auth" = None /\
  localStorage w !! "kodex-auth-timestamp" = None /\
  localStorage w !! "kodex-session-active" = None.

(** The world after [clearSession] in a browser. *)
Definition cleared (w : World) : World := with_storage (without_cache (localStorage w)) w.

(** [now / 1000 > v], given the platform's reading of strings as numbers. *)
Definition is_past (number_of : string -> option Z) (now : Z) (v : value) : bool :=
  match v with
  | Some (JNum n) => (1000 * n <? now)%Z
  | Some JNull => (0 <? now)%Z
  | Some (JBool b) => (1000 * (if b then 1 else 0) <? now)%Z
  | Some (JStr s) =>
      match number_of s with Some n => (1000 * n <? now)%Z | None => false end
  | Some (JArr items) =>
      match number_of (ToString (JArr items)) with Some n => (1000 * n <? now)%Z | None => false end
  | Some (JObj members) =>
      match number_of (ToString (JObj members)) with Some n => (1000 * n <? now)%Z | None => false end
  | None => false
  end.

(** What [getStoredSession] does once the stored text has been parsed. *)
Definition checked (session : json) (w : World) : completion value * World :=
  if truthy (field (Some session) "user") && truthy (field (Some session) "access_token") then
    if truthy (field (Some session) "expires_at") then
      if is_past (StringToNumber w) (clock w (ticks w)) (field (Some session) "expires_at")
      then (Normal null, cleared (tick w))
      else (Normal (Some session), tick w)
    else (Normal (Some session), w)
  else (Normal null, cleared w).

(** The steps the three update paths of [authService] share once the
    call has resolved without error: merge the returned user into the
    cached session, then return the data. *)
Definition merge_user (data : AuthData) : Op AuthData :=
  (if truthy (data_user data) then
     storedSession ← getStoredSession;
     if truthy storedSession
     then saveSession (with_user storedSession (data_user data))
     else ret tt
   else ret tt);;
  ret data.

(** The attributes of the two kinds of update. *)
Definition password_update (password : string) : list (string * json) :=
  [("password", JStr password)].

Definition metadata_update (updates : value) (updated_at : string) : list (string * json) :=
  [("data",
    JObj (assign_member "updated_at" (Some (JStr updated_at))
            (spread (if truthy (field updates "data") then field updates "data" else updates))))].

(** An update that ran in [w] returned [data] and wrote no session: the
    storage is as in [w], or has lost the four slots of the cache. *)
Definition returns_without_write (w : World) (run : completion AuthData * World)
    (data : AuthData) : Prop :=
  fst run = Normal data /\
  (localStorage (snd run) = localStorage w \/
   localStorage (snd run) = without_cache (localStorage w)) /\
  (truthy_item (localStorage w !! "kodex-session") = false ->
   localStorage (snd run) = localStorage w).

(** The flag is absent or holds ["true"]: the only text the code writes
    to it. *)
Definition flag_written_by_code (w : World) : Prop :=
  localStorage w !! "kodex-session-active" = None \/
  localStorage w !! "kodex-session-active" = Some "true".

(** A session [saveSession] keeps usable: a truthy [user] and a truthy
    [access_token]. *)
Definition well_formed (session : value) : Prop :=
  truthy (field session "user") = true /\ truthy (field session "access_token") = true.

(** The session does not count as expired at clock reading [now]: its
    [expires_at] is falsy, or a number of seconds not before [now]. *)
Definition unexpired_at (now : Z) (session : value) : Prop :=
  truthy (field session "expires_at") = false \/
  exists n, field session "expires_at" = Some (JNum n) /\ now <= 1000 * n.

(** [record] carries the six fields of [session]. *)
Definition same_session (record : json) (session : value) : Prop :=
  field (Some record) "user" = field session "user" /\
  field (Some record) "access_token" = field session "access_token" /\
  field (Some record) "refresh_token" = field session "refresh_token" /\
  field (Some record) "expires_at" = field session "expires_at" /\
  field (Some record) "expires_in" = field session "expires_in" /\
  field (Some record) "token_type" = field session "token_type".

(** A load in [w] returns a record with the fields of [session]. *)
Definition loads_back (w : World) (session : value) : Prop :=
  exists record : json,
    fst (getStoredSession w) = Normal (Some record) /\ same_session record session.

(** The call [signUp] issues in [w]. *)
Definition signUp_call (email password : string) (fullName : option string) (w : World) : call :=
  SignUp email password
    (signUp_metadata email fullName (timeZone w) (toISOString w (clock w (ticks w)))).

(** The call [updateProfile] issues in [w] for updates that are neither
    [null] nor [undefined], and the world in which its envelope arrives. *)
Definition updateProfile_call (updates : value) (w : World) : call :=
  if truthy (field updates "password")
  then UpdateUser (object_literal [("password", field updates "password")])
  else UpdateUser (metadata_update updates (toISOString w (clock w (ticks w)))).

Definition updateProfile_moment (updates : value) (w : World) : World :=
  record_call (updateProfile_call updates w)
    (if truthy (field updates "password") then w else tick w).

(** The session slot of [w] holds a record with [user] as its user and
    the tokens and expiry of [members]. *)
Definition merged (w : World) (user : json) (members : list (string * json)) : Prop :=
  exists record : json,
    localStorage w !! "kodex-session" = Some (JSON_stringify record) /\
    field (Some record) "user" = Some user /\
    field (Some record) "access_token" = obj_lookup "access_token" members /\
    field (Some record) "refresh_token" = obj_lookup "refresh_token" members /\
    field (Some record) "expires_at" = obj_lookup "expires_at" members /\
    field (Some record) "expires_in" = obj_lookup "expires_in" members /\
    field (Some record) "token_type" = obj_lookup "token_type" members.

(** The integers of [v] are ones a double holds exactly, at most [2^53]
    in magnitude: [JSON.parse] and [JSON.stringify] keep them as they are. *)
Fixpoint exact_integers (v : json) : bool :=
  match v with
  | JNum n => Z.abs n <=? 2 ^ 53
  | JArr items => forallb exact_integers items
  | JObj members => forallb (fun kv => exact_integers (snd kv)) members
  | _ => true
  end.

(** The model reads the text as the platform does: the text is not JSON,
    which [JSON.parse] rejects with a [SyntaxError], or it is JSON that
    [JSON_parse] reads into a value of exact integers. *)
Definition read_faithfully (text : string) : bool :=
  if JSON_valid text then
    match JSON_parse text with
    | Some v => exact_integers v
    | None => false
    end
  else true.

(** The session slot of [w] is absent or holds such a text. *)
Definition cache_read_faithfully (w : World) : bool :=
  match localStorage w !! "kodex-session" with
  | Some text => read_faithfully text
  | None => true
  end.

(** Calls of the session cache, and the world after a sequence of them. *)
Inductive cache_call : Type :=
| Save (session : value)
| Load
| Clear
| IsFresh
| MarkActive.

Definition after_call (w : World) (c : cache_call) : World :=
  match c with
  | Save session => snd (saveSession session w)
  | Load => snd (getStoredSession w)
  | Clear => snd (clearSession w)
  | IsFresh => snd (isFreshSession w)
  | MarkActive => snd (markSessionActive w)
  end.

Definition after_calls (w : World) (cs : list cache_call) : World :=
  fold_left after_call cs w.

(** Does the call set the session-active flag? *)
Definition marks_active (c : cache_call) : bool :=
  match c with
  | Save session => truthy session
  | MarkActive => true
  | _ => false
  end.

(** ** A browser and a service to run examples in *)

Definition example_user : json := JObj [("id", JStr "u-1"); ("email", JStr "a@example.com")].

Definition example_session : value :=
  Some (JObj [("user", example_user);
              ("access_token", JStr "access-1");
              ("refresh_token", JStr "refresh-1");
              ("expires_at", JNum 1800000000);
              ("expires_in", JNum 3600);
              ("token_type", JStr "bearer")]).

Definition refreshed_session : value :=
  Some (JObj [("user", example_user);
              ("access_token", JStr "access-2");
              ("refresh_token", JStr "refresh-2");
              ("expires_at", JNum 1800003600);
              ("expires_in", JNum 3600);
              ("token_type", JStr "bearer")]).


(** A record that expired in 2020. *)
Definition expired_record : json :=
  JObj [("user", example_user); ("access_token", JStr "access-1"); ("expires_at", JNum 1600000000)].

(** A browser with an empty storage, talking to [service]. *)
Definition browser (service : call -> reply) : World :=
  {| window_defined := true;
     localStorage := ∅;
     clock := fun n => 1700000000000 + Z.of_nat n;
     ticks := 0;
     timeZone := "Europe/Paris";
     StringToNumber := fun _ => None;
     toISOString := fun _ => "2023-11-14T22:13:20.000Z";
     auth := service;
     issued := [] |}.

(** No network: every call rejects. *)
Definition offline : call -> reply := fun _ => Rejected "Failed to fetch".

Definition no_session : AuthData := {| data_user := null; data_session := null |}.

(** The service has no session of its own and refreshes on request;
    every other call rejects. *)
Definition refreshing : call -> reply :=
  fun c =>
    match c with
    | GetSession => Resolved no_session None
    | RefreshSession _ =>
        Resolved {| data_user := Some example_user; data_session := refreshed_session |} None
    | _ => Rejected "Failed to fetch"
    end.

(** The service updates the user and returns it. *)
Definition updated_user : json := JObj [("id", JStr "u-1"); ("email", JStr "b@example.com")].

Definition updating : call -> reply :=
  fun c =>
    match c with
    | UpdateUser _ => Resolved {| data_user := Some updated_user; data_session := undefined |} None
    | _ => Rejected "Failed to fetch"
    end.

(** The service holds a session of its own. *)
Definition signed_in : call -> reply :=
  fun c =>
    match c with
    | GetSession => Resolved {| data_user := Some example_user; data_session := example_session |} None
    | _ => Rejected "Failed to fetch"
    end.

(** The service answers every call with an error. *)
Definition failing : call -> reply :=
  fun _ => Resolved no_session (Some (MkAuthError "Service unavailable")).

(** A valid cached record that has no refresh token. *)
Definition unrefreshable_session : value :=
  Some (JObj [("user", example_user); ("access_token", JStr "access-1")]).

(** A record that expires at the very second of the first clock reading. *)
Definition boundary_record : json :=
  JObj [("user", example_user); ("access_token", JStr "access-1"); ("expires_at", JNum 1700000000)].

(** The service signs up and signs in at once. *)
Definition registering : call -> reply :=
  fun c =>
    match c with
    | SignUp _ _ _ =>
        Resolved {| data_user := Some example_user; data_session := example_session |} None
    | _ => Rejected "Failed to fetch"
    end.

(** * Properties *)

(** ** The JSON codec reads back what it writes *)
Module JSONTextFacts.
Import JSONText.

Lemma read_digits_emit (u : Decimal.uint) (k : string) :
  no_digit_head k -> read_digits (emit_digits u k) = (u, k).
Proof.
  intros Hk. induction u as [|u IH|u IH|u IH|u IH|u IH|u IH|u IH|u IH|u IH|u IH];
    try (cbn; rewrite IH; reflexivity).
  cbn. destruct k as [|c k']; [reflexivity|].
  cbn in Hk |- *. rewrite Hk. reflexivity.
Qed.

Lemma to_int_normal (n : Z) :
  match Z.to_int n with
  | Decimal.Pos u | Decimal.Neg u => Decimal.unorm u = u
  end.
Proof.
  pose proof (DecimalZ.to_of (Z.to_int n)) as H.
  rewrite DecimalZ.of_to in H.
  destruct (Z.to_int n) as [u|u]; cbn in H.
  - congruence.
  - unfold Decimal.unorm. destruct (Decimal.nzhead u); congruence.
Qed.

Lemma uint_beq_refl (u : Decimal.uint) : Decimal.uint_beq u u = true.
Proof. induction u; cbn; auto. Qed.

Lemma parse_number_emit (n : Z) (k : string) :
  no_digit_head k -> parse_number (emit_Z n k) = Some (n, k).
Proof.
  intros Hk. unfold emit_Z, parse_number.
  pose proof (to_int_normal n) as Hnorm.
  pose proof (DecimalZ.of_to n) as Hback.
  destruct (Z.to_int n) as [u|u].
  - assert (Hhead : match emit_digits u k with
                    | String c r => if (c =? "-")%char then (true, r) else (false, emit_digits u k)
                    | EmptyString => (false, emit_digits u k)
                    end = (false, emit_digits u k)).
    { destruct u; try reflexivity. cbn in Hnorm. discriminate. }
    rewrite Hhead, (read_digits_emit u k Hk), Hnorm, uint_beq_refl, Hback.
    reflexivity.
  - replace (if ("-" =? "-")%char
             then (true, emit_digits u k)
             else (false, String "-" (emit_digits u k)))
      with (true, emit_digits u k) by reflexivity.
    rewrite (read_digits_emit u k Hk), Hnorm, uint_beq_refl, Hback.
    reflexivity.
Qed.

Lemma parse_chars_emit_char (c : ascii) (t : string) :
  parse_chars (emit_char c t) = prepend (String c EmptyString) (parse_chars t).
Proof.
  destruct c as [[] [] [] [] [] [] [] []]; reflexivity.
Qed.

Lemma parse_chars_emit (s k : string) :
  parse_chars (emit_chars s (String dquote k)) = Some (s, k).
Proof.
  induction s as [|c s IH]; [reflexivity|].
  cbn [emit_chars]. rewrite parse_chars_emit_char, IH. reflexivity.
Qed.

(** One step of the reader on each kind of head. *)
Lemma parse_value_string fuel r :
  parse_value (S fuel) (String dquote r) =
  match parse_chars r with Some (str, r1) => Some (JStr str, r1) | None => None end.
Proof. reflexivity. Qed.

Lemma parse_value_array fuel r :
  parse_value (S fuel) (String "[" r) =
  match parse_value fuel r with
  | Some (x, r1) =>
      match parse_items fuel r1 with
      | Some (xs, r2) => Some (JArr (x :: xs), r2)
      | None => None
      end
  | None =>
      match skip_space r with
      | String c' r1 => if (c' =? "]")%char then Some (JArr [], r1) else None
      | EmptyString => None
      end
  end.
Proof. reflexivity. Qed.

Lemma parse_value_object fuel r :
  parse_value (S fuel) (String "{" r) =
  match parse_member fuel r with
  | Some (m, r1) =>
      match parse_members fuel r1 with
      | Some (ms, r2) => Some (JObj (m :: ms), r2)
      | None => None
      end
  | None =>
      match skip_space r with
      | String c' r1 => if (c' =? "}")%char then Some (JObj [], r1) else None
      | EmptyString => None
      end
  end.
Proof. reflexivity. Qed.

(** The text of a number starts with a digit or a minus sign. *)
Lemma skip_space_emit_Z (n : Z) (k : string) : skip_space (emit_Z n k) = emit_Z n k.
Proof.
  unfold emit_Z. pose proof (to_int_normal n) as Hnorm.
  destruct (Z.to_int n) as [u|u]; [|reflexivity].
  destruct u; try reflexivity. cbn in Hnorm. discriminate.
Qed.

Lemma parse_value_close fuel k : parse_value fuel (String "]" k) = None.
Proof. destruct fuel; reflexivity. Qed.

Lemma parse_member_close fuel k : parse_member fuel (String "}" k) = None.
Proof. destruct fuel; reflexivity. Qed.

Lemma parse_items_comma fuel r :
  parse_items (S fuel) (String "," r) =
  match parse_value fuel r with
  | Some (x, r1) =>
      match parse_items fuel r1 with
      | Some (xs, r2) => Some (x :: xs, r2)
      | None => None
      end
  | None => None
  end.
Proof. reflexivity. Qed.

Lemma parse_members_comma fuel r :
  parse_members (S fuel) (String "," r) =
  match parse_member fuel r with
  | Some (m, r1) =>
      match parse_members fuel r1 with
      | Some (ms, r2) => Some (m :: ms, r2)
      | None => None
      end
  | None => None
  end.
Proof. reflexivity. Qed.

Lemma parse_member_key fuel r :
  parse_member (S fuel) (String dquote r) =
  match parse_chars r with
  | Some (key, r1) =>
      match skip_space r1 with
      | String c' r2 =>
          if (c' =? ":")%char then
            match parse_value fuel r2 with
            | Some (x, r3) => Some ((key, x), r3)
            | None => None
            end
          else None
      | EmptyString => None
      end
  | None => None
  end.
Proof. reflexivity. Qed.

Lemma parse_member_quoted fuel key r :
  parse_member (S fuel) (emit_quoted key (String ":" r)) =
  match parse_value fuel r with
  | Some (x, r2) => Some ((key, x), r2)
  | None => None
  end.
Proof.
  unfold emit_quoted. rewrite parse_member_key, parse_chars_emit. reflexivity.
Qed.

Lemma parse_items_emit (xs : list json) :
  Forall reads_back xs ->
  forall fuel k, (list_sum (map (fun x => S (size x)) xs) < fuel)%nat ->
    parse_items fuel (emit_more emit "]" xs k) = Some (xs, k).
Proof.
  induction 1 as [|x xs Hx _ IH]; intros fuel k Hfuel.
  - destruct fuel; [lia|]. reflexivity.
  - cbn in Hfuel. destruct fuel; [lia|].
    cbn [emit_more]. rewrite parse_items_comma.
    rewrite Hx by (lia || (destruct xs; exact eq_refl)).
    rewrite IH by (unfold list_sum; lia). reflexivity.
Qed.

Lemma parse_members_emit (ms : list (string * json)) :
  Forall (fun kv => reads_back (snd kv)) ms ->
  forall fuel k, (list_sum (map (fun kv => S (S (size (snd kv)))) ms) < fuel)%nat ->
    parse_members fuel
      (emit_more (fun kv k' => emit_quoted (fst kv) (String ":" (emit (snd kv) k'))) "}" ms k)
    = Some (ms, k).
Proof.
  induction 1 as [|[key x] ms Hx _ IH]; intros fuel k Hfuel.
  - destruct fuel; [lia|]. reflexivity.
  - cbn in Hfuel. destruct fuel; [lia|].
    cbn [emit_more fst snd]. rewrite parse_members_comma.
    destruct fuel; [lia|]. rewrite parse_member_quoted.
    cbn [snd] in Hx.
    rewrite Hx by (lia || (destruct ms; exact eq_refl)).
    rewrite IH by (unfold list_sum; lia). reflexivity.
Qed.

Lemma emit_reads_back (v : json) : reads_back v.
Proof.
  induction v as [ | b | n | s | items IH | members IH ] using json_nested_ind;
    intros fuel k Hfuel Hk; (destruct fuel; [cbn in Hfuel; lia|]).
  - reflexivity.
  - destruct b; reflexivity.
  - cbn [parse_value emit]. rewrite skip_space_emit_Z, parse_number_emit by assumption.
    reflexivity.
  - cbn [emit]. unfold emit_quoted. rewrite parse_value_string, parse_chars_emit. reflexivity.
  - cbn [emit size] in *. rewrite parse_value_array.
    destruct IH as [|x xs Hx Hxs]; cbn [emit_seq].
    + rewrite parse_value_close. reflexivity.
    + cbn in Hfuel.
      rewrite Hx by (lia || (destruct xs; exact eq_refl)).
      rewrite (parse_items_emit xs Hxs) by (unfold list_sum; lia). reflexivity.
  - cbn [emit size] in *. rewrite parse_value_object.
    destruct IH as [|[key x] ms Hx Hms]; cbn [emit_seq].
    + rewrite parse_member_close. reflexivity.
    + cbn in Hfuel. cbn [fst snd] in Hx |- *.
      destruct fuel; [lia|]. rewrite parse_member_quoted.
      rewrite Hx by (lia || (destruct ms; exact eq_refl)).
      rewrite (parse_members_emit ms Hms) by (unfold list_sum; lia). reflexivity.
Qed.

(** The text of a value is at least as long as the fuel its reading
    takes. *)
Lemma emit_digits_length u k : (String.length k <= String.length (emit_digits u k))%nat.
Proof. induction u; cbn; lia. Qed.

Lemma emit_Z_length n k : (String.length k <= String.length (emit_Z n k))%nat.
Proof.
  unfold emit_Z. destruct (Z.to_int n) as [u|u]; cbn;
    pose proof (emit_digits_length u k); lia.
Qed.

Lemma emit_char_length c k : (String.length k <= String.length (emit_char c k))%nat.
Proof. unfold emit_char. repeat case_match; cbn; lia. Qed.

Lemma emit_chars_length s k : (String.length k <= String.length (emit_chars s k))%nat.
Proof.
  induction s as [|c s IH]; cbn; [lia|].
  pose proof (emit_char_length c (emit_chars s k)). lia.
Qed.

Lemma emit_quoted_length s k : (2 + String.length k <= String.length (emit_quoted s k))%nat.
Proof.
  unfold emit_quoted. cbn.
  pose proof (emit_chars_length s (String dquote k)) as H. cbn in H. lia.
Qed.

Lemma emit_more_items_length (xs : list json) :
  Forall grows xs ->
  forall k, (String.length k + list_sum (map (fun x => S (size x)) xs) + 1
             <= String.length (emit_more emit "]" xs k))%nat.
Proof.
  induction 1 as [|x xs Hx _ IH]; intros k; cbn; [lia|].
  specialize (IH k). specialize (Hx (emit_more emit "]" xs k)).
  unfold list_sum in IH. lia.
Qed.

Lemma emit_more_members_length (ms : list (string * json)) :
  Forall (fun kv => grows (snd kv)) ms ->
  forall k, (String.length k + list_sum (map (fun kv => S (S (size (snd kv)))) ms) + 1
             <= String.length
                  (emit_more (fun kv k' => emit_quoted (fst kv) (String ":" (emit (snd kv) k')))
                             "}" ms k))%nat.
Proof.
  induction 1 as [|[key x] ms Hx _ IH]; intros k; cbn [emit_more map]; [cbn; lia|].
  specialize (IH k). cbn [fst snd] in *.
  set (rest := emit_more _ "}" ms k) in *.
  specialize (Hx rest).
  pose proof (emit_quoted_length key (String ":" (emit x rest))) as Hq.
  cbn [String.length] in *. unfold list_sum in *. cbn [foldr]. lia.
Qed.

Lemma emit_grows (v : json) : grows v.
Proof.
  induction v as [ | b | n | s | items IH | members IH ] using json_nested_ind; intros k.
  - cbn. lia.
  - destruct b; cbn; lia.
  - cbn. pose proof (emit_Z_length n k). lia.
  - cbn [emit size]. pose proof (emit_quoted_length s k). lia.
  - cbn [emit size String.length].
    destruct IH as [|x xs Hx Hxs]; cbn [emit_seq]; [cbn; lia|].
    pose proof (emit_more_items_length xs Hxs k) as Hm.
    specialize (Hx (emit_more emit "]" xs k)).
    cbn [map]. unfold list_sum in *. cbn [foldr]. lia.
  - cbn [emit size String.length].
    destruct IH as [|[key x] ms Hx Hms]; cbn [emit_seq]; [cbn; lia|].
    pose proof (emit_more_members_length ms Hms k) as Hm.
    cbn [fst snd] in *.
    set (rest := emit_more _ "}" ms k) in *.
    specialize (Hx rest).
    pose proof (emit_quoted_length key (String ":" (emit x rest))) as Hq.
    cbn [map String.length snd] in *. unfold list_sum in *. cbn [foldr]. lia.
Qed.

(** [JSON.parse (JSON.stringify v)] is [v]. *)
Theorem parse_stringify (v : json) : parse (stringify v) = Some v.
Proof.
  unfold parse, stringify.
  rewrite emit_reads_back; [reflexivity| |exact I].
  pose proof (emit_grows v EmptyString) as H. cbn [String.length] in H. lia.
Qed.

Lemma parse_empty : parse EmptyString = None.
Proof. reflexivity. Qed.

Lemma stringify_nonempty (v : json) : stringify v <> EmptyString.
Proof.
  intros H. pose proof (parse_stringify v) as Hp.
  rewrite H, parse_empty in Hp. discriminate.
Qed.


(** *** The reader reads JSON only *)

Lemma prepend_some (p : string) (res : option (string * string)) (str r : string) :
  prepend p res = Some (str, r) -> exists str', res = Some (str', r).
Proof.
  destruct res as [[s' r']|]; cbn; intros H; [|discriminate].
  injection H as _ <-. eauto.
Qed.

Lemma code_of_hex_is_hex (a b c d : ascii) (n : N) :
  code_of_hex a b c d = Some n -> (is_hex a && is_hex b && is_hex c && is_hex d)%bool = true.
Proof.
  unfold code_of_hex, is_hex.
  destruct (hex_value a), (hex_value b), (hex_value c), (hex_value d);
    (reflexivity || discriminate).
Qed.

Lemma skip_chars_escape_u (h1 h2 h3 h4 : ascii) (r : string) :
  (is_hex h1 && is_hex h2 && is_hex h3 && is_hex h4)%bool = true ->
  skip_chars (String backslash (String "u" (String h1 (String h2 (String h3 (String h4 r))))))
  = skip_chars r.
Proof. intros H. cbn. rewrite H. reflexivity. Qed.

Lemma parse_chars_skip_bounded (n : nat) :
  forall s str r, (String.length s <= n)%nat ->
    parse_chars s = Some (str, r) -> skip_chars s = Some r.
Proof.
  induction n as [|n IH]; intros s str r Hlen H.
  - destruct s; [discriminate | cbn in Hlen; lia].
  - destruct s as [|c s]; [discriminate|]. cbn [parse_chars skip_chars] in *.
    destruct (c =? dquote)%char; [injection H as _ <-; reflexivity|].
    destruct (c =? backslash)%char.
    + destruct s as [|e r1]; [discriminate|]. cbn [String.length] in Hlen.
      repeat match type of H with
             | (if (e =? ?x)%char then prepend _ _ else _) = _ =>
                 destruct (e =? x)%char;
                 [apply prepend_some in H as [str' H]; cbn [orb];
                  apply (IH r1 str' r); [lia | exact H]|]
             end.
      cbn [orb].
      destruct (e =? "u")%char; [|discriminate].
      destruct r1 as [|h1 [|h2 [|h3 [|h4 r2]]]]; try discriminate.
      cbn [String.length] in Hlen.
      destruct (code_of_hex h1 h2 h3 h4) as [code|] eqn:Hhex; [|discriminate].
      rewrite (code_of_hex_is_hex _ _ _ _ _ Hhex).
      destruct (utf8_of_code code) as [p|].
      * apply prepend_some in H as [str' H]. apply (IH r2 str' r); [lia | exact H].
      * destruct r2 as [|b [|u [|l1 [|l2 [|l3 [|l4 r3]]]]]]; try discriminate.
        cbn [String.length] in Hlen.
        destruct ((b =? backslash) && (u =? "u"))%char eqn:Hbu; [|discriminate].
        apply andb_true_iff in Hbu as [Hb Hu].
        apply Ascii.eqb_eq in Hb, Hu. subst b u.
        destruct (code_of_hex l1 l2 l3 l4) as [low|] eqn:Hlow; [|discriminate].
        destruct (code_of_pair code low) as [pair|]; [|discriminate].
        destruct (utf8_of_code pair) as [p|]; [|discriminate].
        apply prepend_some in H as [str' H].
        rewrite (skip_chars_escape_u _ _ _ _ _ (code_of_hex_is_hex _ _ _ _ _ Hlow)).
        apply (IH r3 str' r); [lia | exact H].
    + destruct (N_of_ascii c <? 32)%N; [discriminate|].
      apply prepend_some in H as [str' H]. cbn [String.length] in Hlen.
      apply (IH s str' r); [lia | exact H].
Qed.

Lemma parse_chars_skip (s str r : string) :
  parse_chars s = Some (str, r) -> skip_chars s = Some r.
Proof. apply (parse_chars_skip_bounded (String.length s)). lia. Qed.

Lemma is_space_no_fraction (c : ascii) :
  is_space c = true ->
  (c =? ".")%char = false /\ (c =? "e")%char = false /\ (c =? "E")%char = false.
Proof. destruct c as [[] [] [] [] [] [] [] []]; cbn; intros H; (discriminate || auto). Qed.

Lemma no_fraction_head_intro (r : string) :
  match r with
  | EmptyString => True
  | String c _ => (c =? ".")%char = false /\ (c =? "e")%char = false /\ (c =? "E")%char = false
  end -> no_fraction_head r.
Proof.
  unfold no_fraction_head, skip_fraction, skip_exponent.
  destruct r as [|c [|d r]]; [reflexivity | reflexivity |].
  intros (Hp & He & HE). rewrite Hp. cbn [andb]. rewrite He, HE. reflexivity.
Qed.

(** After white space, a character that starts neither a fraction nor an
    exponent. *)
Lemma no_fraction_head_space (r : string) :
  match skip_space r with
  | EmptyString => True
  | String c _ => (c =? ".")%char = false /\ (c =? "e")%char = false /\ (c =? "E")%char = false
  end -> no_fraction_head r.
Proof.
  intros H. apply no_fraction_head_intro. destruct r as [|c r]; [exact I|].
  cbn [skip_space] in H. destruct (is_space c) eqn:Hs; [apply is_space_no_fraction | ]; assumption.
Qed.

Lemma no_fraction_head_end (r : string) : skip_space r = EmptyString -> no_fraction_head r.
Proof. intros H. apply no_fraction_head_space. rewrite H. exact I. Qed.

Lemma parse_number_close (c : ascii) (r : string) :
  (c =? "]")%char = true \/ (c =? "}")%char = true -> parse_number (String c r) = None.
Proof. intros [H | H]; apply Ascii.eqb_eq in H; subst c; reflexivity. Qed.

Lemma parse_value_head (fuel : nat) (s : string) (v : json) (r : string) :
  parse_value fuel s = Some (v, r) ->
  exists c r0, skip_space s = String c r0 /\ (c =? "]")%char = false /\ (c =? "}")%char = false.
Proof.
  destruct fuel as [|fuel]; [discriminate|]. cbn [parse_value].
  destruct (skip_space s) as [|c r0]; [discriminate|]. intros H.
  exists c, r0. split; [reflexivity|].
  destruct (c =? "]")%char eqn:H1.
  { apply Ascii.eqb_eq in H1. subst c. discriminate. }
  destruct (c =? "}")%char eqn:H2.
  { apply Ascii.eqb_eq in H2. subst c. discriminate. }
  split; reflexivity.
Qed.

Lemma parse_member_head (fuel : nat) (s : string) (m : string * json) (r : string) :
  parse_member fuel s = Some (m, r) ->
  exists c r0, skip_space s = String c r0 /\ (c =? "}")%char = false.
Proof.
  destruct fuel as [|fuel]; [discriminate|]. cbn [parse_member].
  destruct (skip_space s) as [|c r0]; [discriminate|]. intros H.
  exists c, r0. split; [reflexivity|].
  destruct (c =? "}")%char eqn:H2; [|reflexivity].
  apply Ascii.eqb_eq in H2. subst c. discriminate.
Qed.

Lemma parse_items_follow (fuel : nat) (s : string) (xs : list json) (r : string) :
  parse_items fuel s = Some (xs, r) -> no_fraction_head s.
Proof.
  destruct fuel as [|fuel]; [discriminate|]. cbn [parse_items]. intros H.
  apply no_fraction_head_space. destruct (skip_space s) as [|c r0]; [exact I|].
  destruct (c =? "]")%char eqn:H1.
  { apply Ascii.eqb_eq in H1. subst c. repeat split; reflexivity. }
  destruct (c =? ",")%char eqn:H2; [|discriminate].
  apply Ascii.eqb_eq in H2. subst c. repeat split; reflexivity.
Qed.

Lemma parse_members_follow (fuel : nat) (s : string) (ms : list (string * json)) (r : string) :
  parse_members fuel s = Some (ms, r) -> no_fraction_head s.
Proof.
  destruct fuel as [|fuel]; [discriminate|]. cbn [parse_members]. intros H.
  apply no_fraction_head_space. destruct (skip_space s) as [|c r0]; [exact I|].
  destruct (c =? "}")%char eqn:H1.
  { apply Ascii.eqb_eq in H1. subst c. repeat split; reflexivity. }
  destruct (c =? ",")%char eqn:H2; [|discriminate].
  apply Ascii.eqb_eq in H2. subst c. repeat split; reflexivity.
Qed.

Lemma literal_strip (p : string) (v v' : json) (s r : string) :
  literal p v s = Some (v', r) -> strip_prefix p s = Some r.
Proof.
  unfold literal. destruct (strip_prefix p s); [|discriminate].
  intros H. injection H as _ <-. reflexivity.
Qed.

(** Where the reader succeeds, followed by no fraction and no exponent,
    the recogniser does, with the same fuel and the same rest. *)
Lemma parse_accept (fuel : nat) :
  (forall s v r, parse_value fuel s = Some (v, r) -> no_fraction_head r ->
                 accept_value fuel s = Some r) /\
  (forall s xs r, parse_items fuel s = Some (xs, r) -> accept_items fuel s = Some r) /\
  (forall s m r, parse_member fuel s = Some (m, r) -> no_fraction_head r ->
                 accept_member fuel s = Some r) /\
  (forall s ms r, parse_members fuel s = Some (ms, r) -> accept_members fuel s = Some r).
Proof.
  induction fuel as [|fuel (IHv & IHi & IHm & IHms)]; [repeat split; intros; discriminate|].
  split; [|split; [|split]].
  - intros s v r H Hr. cbn [parse_value] in H. cbn [accept_value]. unfold skip_number.
    destruct (parse_number (skip_space s)) as [[n r0]|].
    { injection H as _ <-. rewrite Hr. reflexivity. }
    destruct (skip_space s) as [|c r0]; [discriminate|].
    destruct (c =? dquote)%char.
    { destruct (parse_chars r0) as [[str r1]|] eqn:Hc; [|discriminate].
      injection H as _ <-. exact (parse_chars_skip _ _ _ Hc). }
    destruct (c =? "[")%char.
    { destruct (parse_value fuel r0) as [[x r1]|] eqn:Hx.
      - destruct (parse_items fuel r1) as [[xs r2]|] eqn:Hxs; [|discriminate].
        injection H as _ <-.
        destruct (parse_value_head _ _ _ _ Hx) as (c' & r' & -> & -> & _).
        rewrite (IHv _ _ _ Hx (parse_items_follow _ _ _ _ Hxs)). exact (IHi _ _ _ Hxs).
      - destruct (skip_space r0) as [|c' r']; [discriminate|].
        destruct (c' =? "]")%char; [|discriminate]. injection H as _ <-. reflexivity. }
    destruct (c =? "{")%char.
    { destruct (parse_member fuel r0) as [[m r1]|] eqn:Hm.
      - destruct (parse_members fuel r1) as [[ms r2]|] eqn:Hms; [|discriminate].
        injection H as _ <-.
        destruct (parse_member_head _ _ _ _ Hm) as (c' & r' & -> & ->).
        rewrite (IHm _ _ _ Hm (parse_members_follow _ _ _ _ Hms)). exact (IHms _ _ _ Hms).
      - destruct (skip_space r0) as [|c' r']; [discriminate|].
        destruct (c' =? "}")%char; [|discriminate]. injection H as _ <-. reflexivity. }
    destruct (c =? "t")%char; [exact (literal_strip _ _ _ _ _ H)|].
    destruct (c =? "f")%char; [exact (literal_strip _ _ _ _ _ H)|].
    destruct (c =? "n")%char; [exact (literal_strip _ _ _ _ _ H) | discriminate].
  - intros s xs r H. cbn [parse_items] in H. cbn [accept_items].
    destruct (skip_space s) as [|c r0]; [discriminate|].
    destruct (c =? "]")%char; [injection H as _ <-; reflexivity|].
    destruct (c =? ",")%char; [|discriminate].
    destruct (parse_value fuel r0) as [[x r1]|] eqn:Hx; [|discriminate].
    destruct (parse_items fuel r1) as [[xs' r2]|] eqn:Hxs; [|discriminate].
    injection H as _ <-.
    rewrite (IHv _ _ _ Hx (parse_items_follow _ _ _ _ Hxs)). exact (IHi _ _ _ Hxs).
  - intros s m r H Hr. cbn [parse_member] in H. cbn [accept_member].
    destruct (skip_space s) as [|c r0]; [discriminate|].
    destruct (c =? dquote)%char; [|discriminate].
    destruct (parse_chars r0) as [[key r1]|] eqn:Hc; [|discriminate].
    rewrite (parse_chars_skip _ _ _ Hc).
    destruct (skip_space r1) as [|c' r2]; [discriminate|].
    destruct (c' =? ":")%char; [|discriminate].
    destruct (parse_value fuel r2) as [[x r3]|] eqn:Hx; [|discriminate].
    injection H as _ <-. exact (IHv _ _ _ Hx Hr).
  - intros s ms r H. cbn [parse_members] in H. cbn [accept_members].
    destruct (skip_space s) as [|c r0]; [discriminate|].
    destruct (c =? "}")%char; [injection H as _ <-; reflexivity|].
    destruct (c =? ",")%char; [|discriminate].
    destruct (parse_member fuel r0) as [[m r1]|] eqn:Hm; [|discriminate].
    destruct (parse_members fuel r1) as [[ms' r2]|] eqn:Hms; [|discriminate].
    injection H as _ <-.
    rewrite (IHm _ _ _ Hm (parse_members_follow _ _ _ _ Hms)). exact (IHms _ _ _ Hms).
Qed.

(** What the reader reads is JSON. *)
Theorem parse_valid (s : string) (v : json) : parse s = Some v -> valid s = true.
Proof.
  unfold parse, valid.
  destruct (parse_value (S (S (String.length s))) s) as [[v' rest]|] eqn:Hv; [|discriminate].
  destruct (skip_space rest) eqn:Hrest; [|discriminate]. intros _.
  rewrite (proj1 (parse_accept _) _ _ _ Hv (no_fraction_head_end _ Hrest)), Hrest.
  reflexivity.
Qed.


(** The text of a value is JSON. *)
Corollary stringify_valid (v : json) : valid (stringify v) = true.
Proof. apply (parse_valid _ v), parse_stringify. Qed.

(** *** The fuel of the recogniser is enough *)

Lemma skip_space_length (s : string) : (String.length (skip_space s) <= String.length s)%nat.
Proof.
  induction s as [|c s IH]; [reflexivity|]. cbn [skip_space].
  destruct (is_space c); cbn [String.length] in *; lia.
Qed.

Lemma skip_digits_length (s : string) : (String.length (skip_digits s) <= String.length s)%nat.
Proof.
  induction s as [|c s IH]; [reflexivity|]. cbn [skip_digits].
  destruct (is_digit c); cbn [String.length] in *; lia.
Qed.

Lemma skip_fraction_length (s : string) : (String.length (skip_fraction s) <= String.length s)%nat.
Proof.
  destruct s as [|c [|d r]]; cbn [skip_fraction]; try lia.
  destruct ((c =? ".")%char && is_digit d)%bool; [|lia].
  pose proof (skip_digits_length r). cbn [String.length]. lia.
Qed.

Lemma skip_exponent_length (s : string) : (String.length (skip_exponent s) <= String.length s)%nat.
Proof.
  destruct s as [|e [|c r]]; cbn [skip_exponent]; try lia.
  destruct ((e =? "e") || (e =? "E"))%char; [|lia].
  destruct (is_digit c).
  { pose proof (skip_digits_length r). cbn [String.length]. lia. }
  destruct ((c =? "+") || (c =? "-"))%char; [|lia].
  destruct r as [|d r']; [lia|].
  destruct (is_digit d); [|lia].
  pose proof (skip_digits_length r'). cbn [String.length]. lia.
Qed.

Lemma read_digits_length (s : string) :
  (String.length (snd (read_digits s)) <= String.length s)%nat /\
  (fst (read_digits s) <> Decimal.Nil ->
   (String.length (snd (read_digits s)) < String.length s)%nat).
Proof.
  induction s as [|c s [IH _]]; [split; [reflexivity | intros H; contradiction]|].
  cbn [read_digits]. destruct (digit_of c) as [d|];
    [|cbn [fst snd]; split; [lia | intros H; contradiction]].
  destruct (read_digits s) as [u r]. cbn [fst snd String.length] in *. split; intros; lia.
Qed.

Lemma parse_number_length (s : string) (n : Z) (r : string) :
  parse_number s = Some (n, r) -> (String.length r < String.length s)%nat.
Proof.
  unfold parse_number.
  assert (Hdigits : forall s1 u r1,
            read_digits s1 = (u, r1) -> Decimal.uint_beq (Decimal.unorm u) u = true ->
            (String.length r1 < String.length s1)%nat).
  { intros s1 u r1 Hread Hnorm. destruct (read_digits_length s1) as [_ Hlt].
    rewrite Hread in Hlt. cbn [fst snd] in Hlt. apply Hlt.
    intros ->. discriminate. }
  destruct s as [|c s'].
  - destruct (read_digits EmptyString) as [u r1] eqn:Hread.
    destruct (Decimal.uint_beq (Decimal.unorm u) u) eqn:Hnorm; [|discriminate].
    intros H. injection H as _ <-. exact (Hdigits _ _ _ Hread Hnorm).
  - destruct (c =? "-")%char.
    + destruct (read_digits s') as [u r1] eqn:Hread.
      destruct (Decimal.uint_beq (Decimal.unorm u) u) eqn:Hnorm; [|discriminate].
      intros H. injection H as _ <-. pose proof (Hdigits _ _ _ Hread Hnorm).
      cbn [String.length]. lia.
    + destruct (read_digits (String c s')) as [u r1] eqn:Hread.
      destruct (Decimal.uint_beq (Decimal.unorm u) u) eqn:Hnorm; [|discriminate].
      intros H. injection H as _ <-. exact (Hdigits _ _ _ Hread Hnorm).
Qed.

Lemma skip_number_length (s r : string) :
  skip_number s = Some r -> (String.length r < String.length s)%nat.
Proof.
  unfold skip_number. destruct (parse_number s) as [[n r0]|] eqn:Hn; [|discriminate].
  intros H. injection H as <-. apply parse_number_length in Hn.
  pose proof (skip_fraction_length r0). pose proof (skip_exponent_length (skip_fraction r0)). lia.
Qed.

Lemma skip_chars_length_bounded (n : nat) :
  forall s r, (String.length s <= n)%nat -> skip_chars s = Some r ->
              (String.length r < String.length s)%nat.
Proof.
  induction n as [|n IH]; intros s r Hlen H.
  - destruct s; [discriminate | cbn in Hlen; lia].
  - destruct s as [|c s]; [discriminate|]. cbn [skip_chars] in H. cbn [String.length] in *.
    destruct (c =? dquote)%char; [injection H as <-; lia|].
    destruct (c =? backslash)%char.
    + destruct s as [|e r1]; [discriminate|]. cbn [String.length] in *.
      match type of H with
      | (if ?b then _ else _) = _ => destruct b
      end.
      { apply IH in H; lia. }
      destruct (e =? "u")%char; [|discriminate].
      destruct r1 as [|h1 [|h2 [|h3 [|h4 r2]]]]; try discriminate.
      cbn [String.length] in *.
      match type of H with
      | (if ?b then _ else _) = _ => destruct b; [|discriminate]
      end.
      apply IH in H; lia.
    + destruct (N_of_ascii c <? 32)%N; [discriminate|]. apply IH in H; lia.
Qed.

Lemma skip_chars_length (s r : string) :
  skip_chars s = Some r -> (String.length r < String.length s)%nat.
Proof. apply (skip_chars_length_bounded (String.length s)). lia. Qed.

Lemma strip_prefix_length (p s r : string) :
  strip_prefix p s = Some r -> (String.length r <= String.length s)%nat.
Proof.
  revert s. induction p as [|a p IH]; intros s H; cbn [strip_prefix] in H.
  - injection H as <-. lia.
  - destruct s as [|b s]; [discriminate|]. destruct (a =? b)%char; [|discriminate].
    apply IH in H. cbn [String.length]. lia.
Qed.

(** A text that is accepted is accepted with any fuel that is at least the
    number of characters taken. *)
Lemma accept_adequate (fuel : nat) :
  (forall s r, accept_value fuel s = Some r ->
     (String.length r < String.length s)%nat /\
     forall fuel', (String.length s - String.length r <= fuel')%nat ->
                   accept_value fuel' s = Some r) /\
  (forall s r, accept_items fuel s = Some r ->
     (String.length r < String.length s)%nat /\
     forall fuel', (String.length s - String.length r <= fuel')%nat ->
                   accept_items fuel' s = Some r) /\
  (forall s r, accept_member fuel s = Some r ->
     (String.length r < String.length s)%nat /\
     forall fuel', (String.length s - String.length r <= fuel')%nat ->
                   accept_member fuel' s = Some r) /\
  (forall s r, accept_members fuel s = Some r ->
     (String.length r < String.length s)%nat /\
     forall fuel', (String.length s - String.length r <= fuel')%nat ->
                   accept_members fuel' s = Some r).
Proof.
  induction fuel as [|fuel (IHv & IHi & IHm & IHms)]; [repeat split; intros; discriminate|].
  split; [|split; [|split]].
  - intros s r H. cbn [accept_value] in H. pose proof (skip_space_length s) as Hspace.
    destruct (skip_number (skip_space s)) as [r0|] eqn:Hnum.
    { injection H as <-. apply skip_number_length in Hnum as Hlen.
      split; [lia|]. intros [|fuel'] Hf; [lia|]. cbn [accept_value]. rewrite Hnum. reflexivity. }
    destruct (skip_space s) as [|c r0] eqn:Hs; [discriminate|]. cbn [String.length] in Hspace.
    destruct (c =? dquote)%char eqn:Hq.
    { apply skip_chars_length in H as Hlen. split; [lia|].
      intros [|fuel'] Hf; [lia|]. cbn [accept_value]. rewrite Hs, Hnum, Hq. exact H. }
    destruct (c =? "[")%char eqn:Hb.
    { pose proof (skip_space_length r0) as Hspace'.
      destruct (skip_space r0) as [|c' r'] eqn:Hs'; [discriminate|].
      cbn [String.length] in Hspace'.
      destruct (c' =? "]")%char eqn:Hc'.
      - injection H as <-. split; [lia|].
        intros [|fuel'] Hf; [lia|]. cbn [accept_value]. rewrite Hs, Hnum, Hq, Hb, Hs', Hc'.
        reflexivity.
      - destruct (accept_value fuel r0) as [r1|] eqn:Hx; [|discriminate].
        apply IHv in Hx as [Lx Ax]. apply IHi in H as [Li Ai]. split; [lia|].
        intros [|fuel'] Hf; [lia|]. cbn [accept_value]. rewrite Hs, Hnum, Hq, Hb, Hs', Hc'.
        rewrite (Ax fuel') by lia. apply Ai. lia. }
    destruct (c =? "{")%char eqn:Ho.
    { pose proof (skip_space_length r0) as Hspace'.
      destruct (skip_space r0) as [|c' r'] eqn:Hs'; [discriminate|].
      cbn [String.length] in Hspace'.
      destruct (c' =? "}")%char eqn:Hc'.
      - injection H as <-. split; [lia|].
        intros [|fuel'] Hf; [lia|]. cbn [accept_value]. rewrite Hs, Hnum, Hq, Hb, Ho, Hs', Hc'.
        reflexivity.
      - destruct (accept_member fuel r0) as [r1|] eqn:Hx; [|discriminate].
        apply IHm in Hx as [Lx Ax]. apply IHms in H as [Li Ai]. split; [lia|].
        intros [|fuel'] Hf; [lia|]. cbn [accept_value]. rewrite Hs, Hnum, Hq, Hb, Ho, Hs', Hc'.
        rewrite (Ax fuel') by lia. apply Ai. lia. }
    assert (Hlit : forall p, strip_prefix p r0 = Some r ->
              (String.length r < String.length s)%nat)
      by (intros p Hp; apply strip_prefix_length in Hp; lia).
    destruct (c =? "t")%char eqn:Ht.
    { split; [exact (Hlit _ H)|]. specialize (Hlit _ H).
      intros [|fuel'] Hf; [lia|]. cbn [accept_value].
      rewrite Hs, Hnum, Hq, Hb, Ho, Ht. exact H. }
    destruct (c =? "f")%char eqn:Hf'.
    { split; [exact (Hlit _ H)|]. specialize (Hlit _ H).
      intros [|fuel'] Hf; [lia|]. cbn [accept_value].
      rewrite Hs, Hnum, Hq, Hb, Ho, Ht, Hf'. exact H. }
    destruct (c =? "n")%char eqn:Hn; [|discriminate].
    split; [exact (Hlit _ H)|]. specialize (Hlit _ H).
    intros [|fuel'] Hf; [lia|]. cbn [accept_value].
    rewrite Hs, Hnum, Hq, Hb, Ho, Ht, Hf', Hn. exact H.
  - intros s r H. cbn [accept_items] in H. pose proof (skip_space_length s) as Hspace.
    destruct (skip_space s) as [|c r0] eqn:Hs; [discriminate|]. cbn [String.length] in Hspace.
    destruct (c =? "]")%char eqn:Hc.
    { injection H as <-. split; [lia|].
      intros [|fuel'] Hf; [lia|]. cbn [accept_items]. rewrite Hs, Hc. reflexivity. }
    destruct (c =? ",")%char eqn:Hcomma; [|discriminate].
    destruct (accept_value fuel r0) as [r1|] eqn:Hx; [|discriminate].
    apply IHv in Hx as [Lx Ax]. apply IHi in H as [Li Ai]. split; [lia|].
    intros [|fuel'] Hf; [lia|]. cbn [accept_items]. rewrite Hs, Hc, Hcomma.
    rewrite (Ax fuel') by lia. apply Ai. lia.
  - intros s r H. cbn [accept_member] in H. pose proof (skip_space_length s) as Hspace.
    destruct (skip_space s) as [|c r0] eqn:Hs; [discriminate|]. cbn [String.length] in Hspace.
    destruct (c =? dquote)%char eqn:Hq; [|discriminate].
    destruct (skip_chars r0) as [r1|] eqn:Hkey; [|discriminate].
    apply skip_chars_length in Hkey as Lkey.
    pose proof (skip_space_length r1) as Hspace'.
    destruct (skip_space r1) as [|c' r2] eqn:Hs'; [discriminate|].
    cbn [String.length] in Hspace'.
    destruct (c' =? ":")%char eqn:Hcolon; [|discriminate].
    apply IHv in H as [Lx Ax]. split; [lia|].
    intros [|fuel'] Hf; [lia|]. cbn [accept_member]. rewrite Hs, Hq, Hkey, Hs', Hcolon.
    apply Ax. lia.
  - intros s r H. cbn [accept_members] in H. pose proof (skip_space_length s) as Hspace.
    destruct (skip_space s) as [|c r0] eqn:Hs; [discriminate|]. cbn [String.length] in Hspace.
    destruct (c =? "}")%char eqn:Hc.
    { injection H as <-. split; [lia|].
      intros [|fuel'] Hf; [lia|]. cbn [accept_members]. rewrite Hs, Hc. reflexivity. }
    destruct (c =? ",")%char eqn:Hcomma; [|discriminate].
    destruct (accept_member fuel r0) as [r1|] eqn:Hx; [|discriminate].
    apply IHm in Hx as [Lx Ax]. apply IHms in H as [Li Ai]. split; [lia|].
    intros [|fuel'] Hf; [lia|]. cbn [accept_members]. rewrite Hs, Hc, Hcomma.
    rewrite (Ax fuel') by lia. apply Ai. lia.
Qed.

(** [valid] does not depend on its fuel: a text is valid exactly when
    some fuel accepts it up to trailing white space. *)
Theorem valid_any_fuel (s : string) :
  valid s = true <->
  exists fuel rest, accept_value fuel s = Some rest /\ skip_space rest = EmptyString.
Proof.
  unfold valid. split.
  - destruct (accept_value (S (S (String.length s))) s) as [rest|] eqn:H; [|discriminate].
    destruct (skip_space rest) eqn:Hrest; [|discriminate]. intros _.
    exists (S (S (String.length s))), rest. split; assumption.
  - intros (fuel & rest & H & Hrest).
    destruct (proj1 (accept_adequate fuel) _ _ H) as [_ Hfuel].
    rewrite (Hfuel (S (S (String.length s)))) by lia. rewrite Hrest. reflexivity.
Qed.

End JSONTextFacts.

(** [JSON_parse] reads JSON only, and the text [JSON_stringify] writes is
    JSON. *)
Lemma JSON_parse_valid (text : string) (v : json) :
  JSON_parse text = Some v -> JSON_valid text = true.
Proof. apply JSONTextFacts.parse_valid. Qed.


(** A fraction, an exponent and an integer too large for a double mark the
    edge of the model: the first two are JSON that [JSON_parse] does not
    read, the third is read but not as the platform rounds it. *)
Lemma JSON_parse_reads_exact_integers_only :
  JSON_valid "[4.5]" = true /\ JSON_parse "[4.5]" = None /\
  JSON_valid "[1e3]" = true /\ JSON_parse "[1e3]" = None /\
  read_faithfully "[4.5]" = false /\ read_faithfully "[9007199254740993]" = false /\
  read_faithfully "[9007199254740992]" = true /\ read_faithfully "[4.5" = true.
Proof. vm_compute. repeat split; reflexivity. Qed.

(** ** The session cache, call by call *)

Ltac run_op :=
  unfold has_window, getItem, resolved_timeZone; unfold bind, ret, throw, try_catch, ask;
  cbn [fst snd].

Lemma prop_truthy (session : value) (key : string) (w : World) :
  truthy session = true -> prop session key w = (Normal (field session key), w).
Proof. destruct session as [[]|]; cbn; intros; (reflexivity || discriminate). Qed.

Lemma prop_parsed (session : json) (key : string) (w : World) :
  session <> JNull -> prop (Some session) key w = (Normal (field (Some session) key), w).
Proof. destruct session; cbn; intros; (reflexivity || congruence). Qed.

Lemma truthy_field_object (v : value) (key : string) :
  truthy (field v key) = true -> exists members, v = Some (JObj members).
Proof. destruct v as [[]|]; cbn; intros; (discriminate || eauto). Qed.

Lemma clearSession_run (w : World) :
  clearSession w =
  (Normal tt, if window_defined w then with_storage (without_cache (localStorage w)) w else w).
Proof. unfold clearSession. run_op. destruct (window_defined w); reflexivity. Qed.

Lemma clearSession_cleared (w : World) :
  window_defined w = true -> cache_cleared (snd (clearSession w)).
Proof.
  intros Hw. rewrite clearSession_run, Hw. unfold cache_cleared, without_cache. cbn.
  repeat split; by simplify_map_eq.
Qed.

Lemma saveSession_skip (session : value) (w : World) :
  window_defined w && truthy session = false -> saveSession session w = (Normal tt, w).
Proof. intros H. unfold saveSession. run_op. rewrite H. reflexivity. Qed.

Lemma saveSession_run (session : value) (w : World) :
  window_defined w = true -> truthy session = true ->
  saveSession session w =
  (Normal tt,
   with_storage
     (<["kodex-session-active" := "true"]>
        (<["kodex-auth-timestamp" := Z_toString (clock w (S (ticks w)))]>
           (<["kodex-session" := JSON_stringify (session_record session (clock w (ticks w)))]>
              (localStorage w))))
     (tick (tick w))).
Proof.
  intros Hw Hs. unfold saveSession. run_op. rewrite Hw, Hs. cbn [andb].
  rewrite !(prop_truthy session _ _ Hs). reflexivity.
Qed.

Lemma cleared_cache_cleared (w : World) : cache_cleared (cleared w).
Proof. unfold cache_cleared, cleared, without_cache. cbn. repeat split; by simplify_map_eq. Qed.

Lemma seconds_greater_run (now : Z) (v : value) (w : World) :
  seconds_greater now v w = (Normal (is_past (StringToNumber w) now v), w).
Proof. destruct v as [[| [] | | | | ]|]; reflexivity. Qed.

Lemma getStoredSession_no_window (w : World) :
  window_defined w = false -> getStoredSession w = (Normal null, w).
Proof. intros Hw. unfold getStoredSession. run_op. rewrite Hw. reflexivity. Qed.

Lemma getStoredSession_empty (w : World) :
  window_defined w = true ->
  truthy_item (localStorage w !! "kodex-session") = false ->
  getStoredSession w = (Normal null, w).
Proof.
  intros Hw Hitem. unfold getStoredSession. run_op. rewrite Hw. cbn [negb].
  destruct (localStorage w !! "kodex-session") as [[|c text]|]; (reflexivity || discriminate).
Qed.

Lemma getStoredSession_text (w : World) (text : string) :
  window_defined w = true ->
  localStorage w !! "kodex-session" = Some text -> text <> EmptyString ->
  getStoredSession w =
  match JSON_parse text with
  | Some session => checked session w
  | None => (Normal null, cleared w)
  end.
Proof.
  intros Hw Hitem Htext. unfold getStoredSession. run_op. rewrite Hw. cbn [negb]. cbv beta.
  rewrite Hitem.
  destruct text as [|c text]; [congruence|].
  unfold parse_json. destruct (JSON_parse (String c text)) as [session|]; run_op.
  - assert (session = JNull \/ session <> JNull) as [->|Hnull]
      by (destruct session; auto; right; discriminate).
    + cbn [prop throw]. rewrite clearSession_run, Hw. reflexivity.
    + unfold checked. rewrite !(prop_parsed session _ _ Hnull).
      destruct (truthy (field (Some session) "user")); cbn [negb andb].
      * rewrite !(prop_parsed session _ _ Hnull).
        destruct (truthy (field (Some session) "access_token")); cbn [negb].
        -- rewrite !(prop_parsed session _ _ Hnull).
           destruct (truthy (field (Some session) "expires_at")).
           ++ unfold Date_now. rewrite seconds_greater_run. cbn [StringToNumber tick].
              destruct (is_past _ _ _); [rewrite clearSession_run|]; cbn; try rewrite Hw; reflexivity.
           ++ reflexivity.
        -- rewrite clearSession_run, Hw. reflexivity.
      * rewrite clearSession_run, Hw. reflexivity.
  - rewrite clearSession_run, Hw. reflexivity.
Qed.

Lemma saveSession_never_throws (session : value) (w : World) :
  fst (saveSession session w) = Normal tt.
Proof.
  destruct (window_defined w && truthy session) eqn:H.
  - apply andb_true_iff in H as [Hw Hs]. rewrite saveSession_run by assumption. reflexivity.
  - rewrite saveSession_skip by assumption. reflexivity.
Qed.

(** The fields of the record [saveSession] writes. *)
Lemma session_record_fields (session : value) (saved_at : Z) :
  let record := Some (session_record session saved_at) in
  field record "user" = field session "user" /\
  field record "access_token" = field session "access_token" /\
  field record "refresh_token" = field session "refresh_token" /\
  field record "expires_at" = field session "expires_at" /\
  field record "expires_in" = field session "expires_in" /\
  field record "token_type" = field session "token_type" /\
  field record "saved_at" = Some (JNum saved_at).
Proof.
  unfold session_record.
  destruct (field session "user"), (field session "access_token"),
    (field session "refresh_token"), (field session "expires_at"),
    (field session "expires_in"), (field session "token_type");
    cbn; repeat split; reflexivity.
Qed.

(** ** The claims *)




(** C2. In a browser, for a session with a truthy [user] and a truthy
    [access_token] whose [expires_at] is absent (falsy) or a number of
    seconds not before the clock reading the load takes, [saveSession]
    followed by [getStoredSession] returns a record with the session's
    [user], [access_token], [refresh_token], [expires_at], [expires_in] and
    [token_type], and with [saved_at] the clock reading the save took. *)
Theorem save_then_load_round_trip (w : World) (session : value) :
  window_defined w = true ->
  truthy (field session "user") = true ->
  truthy (field session "access_token") = true ->
  (truthy (field session "expires_at") = false \/
   exists n, field session "expires_at" = Some (JNum n) /\
             clock w (2 + ticks w)%nat <= 1000 * n) ->
  exists record : json,
    fst (getStoredSession (snd (saveSession session w))) = Normal (Some record) /\
    field (Some record) "user" = field session "user" /\
    field (Some record) "access_token" = field session "access_token" /\
    field (Some record) "refresh_token" = field session "refresh_token" /\
    field (Some record) "expires_at" = field session "expires_at" /\
    field (Some record) "expires_in" = field session "expires_in" /\
    field (Some record) "token_type" = field session "token_type" /\
    field (Some record) "saved_at" = Some (JNum (clock w (ticks w))).
Proof.
  intros Hw Huser Htoken Hexpiry.
  destruct (truthy_field_object _ _ Huser) as [members ->].
  set (session := Some (JObj members)) in *.
  set (record := session_record session (clock w (ticks w))).
  exists record. split; [|apply session_record_fields].
  rewrite (saveSession_run session w Hw eq_refl). cbn [snd].
  rewrite (getStoredSession_text _ (JSON_stringify record)); cycle 1.
  - exact Hw.
  - cbn [localStorage with_storage]. by simplify_map_eq.
  - apply JSONTextFacts.stringify_nonempty.
  - unfold JSON_parse, JSON_stringify. rewrite JSONTextFacts.parse_stringify.
    destruct (session_record_fields session (clock w (ticks w)))
      as (Hu & Ht & _ & He & _).
    fold record in Hu, Ht, He.
    unfold checked. rewrite Hu, Ht, He, Huser, Htoken. cbn [andb].
    destruct Hexpiry as [-> | (n & Hn & Hle)]; [reflexivity|].
    rewrite Hn. cbn [is_past with_storage tick StringToNumber clock ticks].
    destruct (truthy (Some (JNum n))); [|reflexivity].
    replace (1000 * n <? clock w (S (S (ticks w)))) with false; [reflexivity|].
    symmetry. apply Z.ltb_ge. exact Hle.
Qed.

Lemma save_then_load_round_trip_witness :
  exists record : json,
    fst (getStoredSession (snd (saveSession example_session (browser offline))))
    = Normal (Some record) /\
    field (Some record) "user" = field example_session "user" /\
    field (Some record) "access_token" = field example_session "access_token" /\
    field (Some record) "refresh_token" = field example_session "refresh_token" /\
    field (Some record) "expires_at" = field example_session "expires_at" /\
    field (Some record) "expires_in" = field example_session "expires_in" /\
    field (Some record) "token_type" = field example_session "token_type" /\
    field (Some record) "saved_at" = Some (JNum (clock (browser offline) (ticks (browser offline)))).
Proof.
  apply save_then_load_round_trip; [reflexivity | reflexivity | reflexivity |].
  right. exists 1800000000. split; [reflexivity | vm_compute; discriminate].
Defined.

(** [getStoredSession] never throws; a session it returns is an object
    that passed the checks, and returning it does not touch the storage. *)
Lemma getStoredSession_returns (w : World) :
  fst (getStoredSession w) = Normal null \/
  exists members text,
    fst (getStoredSession w) = Normal (Some (JObj members)) /\
    truthy (obj_lookup "user" members) = true /\
    truthy (obj_lookup "access_token" members) = true /\
    window_defined w = true /\
    localStorage w !! "kodex-session" = Some text /\
    JSON_parse text = Some (JObj members) /\
    localStorage (snd (getStoredSession w)) = localStorage w.
Proof.
  destruct (window_defined w) eqn:Hw;
    [|left; rewrite getStoredSession_no_window by assumption; reflexivity].
  destruct (truthy_item (localStorage w !! "kodex-session")) eqn:Hitem;
    [|left; rewrite getStoredSession_empty by assumption; reflexivity].
  destruct (localStorage w !! "kodex-session") as [text|] eqn:Hslot; [|discriminate].
  assert (Htext : text <> EmptyString) by (destruct text; [discriminate | congruence]).
  rewrite (getStoredSession_text w text Hw Hslot Htext).
  destruct (JSON_parse text) as [session|] eqn:Hparse; [|left; reflexivity].
  unfold checked.
  destruct (truthy (field (Some session) "user")) eqn:Hu; [|left; reflexivity].
  destruct (truthy (field (Some session) "access_token")) eqn:Ht; [|left; reflexivity].
  destruct (truthy_field_object _ _ Hu) as [members Hsession].
  injection Hsession as ->. cbn [field] in Hu, Ht.
  cbn [andb].
  destruct (truthy (field (Some (JObj members)) "expires_at"));
    [destruct (is_past _ _ _); [left; reflexivity|]|];
    right; exists members, text; repeat split; assumption.
Qed.

Lemma getStoredSession_world (w : World) :
  snd (getStoredSession w) = w \/ snd (getStoredSession w) = cleared w \/
  snd (getStoredSession w) = tick w \/ snd (getStoredSession w) = cleared (tick w).
Proof.
  destruct (window_defined w) eqn:Hw;
    [|left; rewrite getStoredSession_no_window by assumption; reflexivity].
  destruct (truthy_item (localStorage w !! "kodex-session")) eqn:Hitem;
    [|left; rewrite getStoredSession_empty by assumption; reflexivity].
  destruct (localStorage w !! "kodex-session") as [text|] eqn:Hslot; [|discriminate].
  assert (Htext : text <> EmptyString) by (destruct text; [discriminate | congruence]).
  rewrite (getStoredSession_text w text Hw Hslot Htext).
  destruct (JSON_parse text) as [session|]; [|right; left; reflexivity].
  unfold checked. repeat case_match; cbn [snd]; auto.
Qed.

(** [getStoredSession] leaves the service, the platform and the list of
    issued calls as they were. *)
Lemma getStoredSession_frame (w : World) :
  auth (snd (getStoredSession w)) = auth w /\
  window_defined (snd (getStoredSession w)) = window_defined w /\
  clock (snd (getStoredSession w)) = clock w /\
  issued (snd (getStoredSession w)) = issued w.
Proof.
  destruct (getStoredSession_world w) as [-> | [-> | [-> | ->]]]; repeat split; reflexivity.
Qed.

(** C3. Suppose the read of the external session resolves without error
    and without a session, and the cache then holds a valid session with a
    truthy [refresh_token].  If the refresh resolves without error with a
    session, that session is saved to the cache (session slot and active
    flag written) and returned.  If the refresh resolves with an error, the
    cache is cleared and [null] is returned.  If the refresh rejects, the
    cached session is returned as it was read and the storage is as
    before. *)
Theorem initializeSession_refresh (w : World) (found : AuthData)
    (members : list (string * json)) :
  auth w GetSession = Resolved found None ->
  truthy (data_session found) = false ->
  fst (getStoredSession (record_call GetSession w)) = Normal (Some (JObj members)) ->
  truthy (obj_lookup "refresh_token" members) = true ->
  let refresh := RefreshSession (obj_lookup "refresh_token" members) in
  let w2 := record_call refresh (snd (getStoredSession (record_call GetSession w))) in
  (forall refreshed : AuthData,
     auth w refresh = Resolved refreshed None ->
     truthy (data_session refreshed) = true ->
     initializeSession w =
       (Normal (data_session refreshed), snd (saveSession (data_session refreshed) w2)) /\
     localStorage (snd (initializeSession w)) !! "kodex-session" =
       Some (JSON_stringify (session_record (data_session refreshed) (clock w (ticks w2)))) /\
     localStorage (snd (initializeSession w)) !! "kodex-session-active" = Some "true") /\
  (forall (refreshed : AuthData) (e : AuthError),
     auth w refresh = Resolved refreshed (Some e) ->
     fst (initializeSession w) = Normal null /\
     cache_cleared (snd (initializeSession w))) /\
  (forall reason : string,
     auth w refresh = Rejected reason ->
     fst (initializeSession w) = Normal (Some (JObj members)) /\
     localStorage (snd (initializeSession w)) = localStorage w).
Proof.
  intros Hget Hnone Hload Htoken refresh w2.
  destruct (getStoredSession_frame (record_call GetSession w)) as (Hauth & Hwin & Hclock & _).
  destruct (getStoredSession_returns (record_call GetSession w))
    as [Hnull | (members' & text & Hsome & _ & _ & Hw & _ & _ & Hsame)];
    [rewrite Hload in Hnull; discriminate|].
  cbn [record_call window_defined auth clock localStorage] in Hauth, Hwin, Hclock, Hw, Hsame.
  assert (Hinit : initializeSession w =
            match auth w refresh with
            | Resolved refreshed None =>
                if truthy (data_session refreshed)
                then (Normal (data_session refreshed), snd (saveSession (data_session refreshed) w2))
                else (Normal null, w2)
            | Resolved _ (Some _) => (Normal null, snd (clearSession w2))
            | Rejected _ => (Normal (Some (JObj members)), w2)
            end).
  { unfold initializeSession, await. run_op. rewrite Hget, Hnone.
    destruct (getStoredSession (record_call GetSession w)) as [r w1] eqn:Hrun.
    cbn [fst snd] in *. subst r. cbn [truthy prop andb ret]. rewrite Htoken.
    fold refresh. rewrite Hauth. subst w2. cbn [snd].
    destruct (auth w refresh) as [refreshed [e|] | reason]; try reflexivity.
    - rewrite clearSession_run. reflexivity.
    - destruct (truthy (data_session refreshed)); [|reflexivity].
      pose proof (saveSession_never_throws (data_session refreshed) (record_call refresh w1)) as Hs.
      destruct (saveSession (data_session refreshed) (record_call refresh w1)) as [c w3].
      cbn [fst] in Hs. subst c. reflexivity. }
  assert (Hw2 : window_defined w2 = true)
    by (subst w2; cbn [window_defined record_call]; rewrite Hwin; exact Hw).
  split; [|split].
  - intros refreshed Hr Ht. rewrite Hinit, Hr, Ht. split; [reflexivity|].
    rewrite (saveSession_run _ w2 Hw2 Ht). cbn [snd localStorage with_storage].
    split; [|by simplify_map_eq].
    simplify_map_eq. subst w2. cbn [clock record_call]. rewrite Hclock. reflexivity.
  - intros refreshed e Hr. rewrite Hinit, Hr.
    split; [reflexivity | apply clearSession_cleared; exact Hw2].
  - intros reason Hr. rewrite Hinit, Hr. split; [reflexivity|].
    cbn [snd]. subst w2. cbn [localStorage record_call]. exact Hsame.
Qed.

Lemma initializeSession_refresh_witness :
  fst (initializeSession (snd (saveSession example_session (browser refreshing))))
  = Normal refreshed_session.
Proof.
  pose proof (initializeSession_refresh
                (snd (saveSession example_session (browser refreshing)))
                no_session
                (object_literal
                   [("user", Some example_user);
                    ("access_token", Some (JStr "access-1"));
                    ("refresh_token", Some (JStr "refresh-1"));
                    ("expires_at", Some (JNum 1800000000));
                    ("expires_in", Some (JNum 3600));
                    ("token_type", Some (JStr "bearer"));
                    ("saved_at", Some (JNum 1700000000000))])
                eq_refl eq_refl
                ltac:(vm_compute; reflexivity) eq_refl) as [Hrefreshed _].
  destruct (Hrefreshed {| data_user := Some example_user; data_session := refreshed_session |}
              eq_refl eq_refl) as [Hresult _].
  rewrite Hresult. reflexivity.
Defined.

(** C4. [signOut] never throws, whatever the service does, and in a
    browser no slot of the cache is left afterwards. *)
Theorem signOut_always_clears (w : World) :
  fst (signOut w) = Normal tt /\
  (window_defined w = true -> cache_cleared (snd (signOut w))).
Proof.
  assert (Hrun : signOut w = clearSession (record_call SignOut w)).
  { unfold signOut, await. run_op.
    destruct (auth w SignOut) as [data error | reason]; [|reflexivity].
    rewrite clearSession_run. reflexivity. }
  rewrite Hrun. split.
  - rewrite clearSession_run. reflexivity.
  - intros Hw. apply clearSession_cleared. exact Hw.
Qed.

Lemma signOut_always_clears_witness :
  fst (signOut (snd (saveSession example_session (browser offline)))) = Normal tt /\
  cache_cleared (snd (signOut (snd (saveSession example_session (browser offline))))).
Proof.
  split.
  - exact (proj1 (signOut_always_clears (snd (saveSession example_session (browser offline))))).
  - exact (proj2 (signOut_always_clears (snd (saveSession example_session (browser offline))))
             eq_refl).
Defined.

(** C5. [getCurrentUser] never throws.  When the call resolves without
    error it returns the user of the envelope.  When the call resolves with
    an error or rejects, it returns the [user] of the session
    [getStoredSession] finds at that moment, and [null] when it finds
    none. *)
Theorem getCurrentUser_falls_back (w : World) :
  (exists user, fst (getCurrentUser w) = Normal user) /\
  (forall data, auth w GetUser = Resolved data None ->
     fst (getCurrentUser w) = Normal (data_user data)) /\
  ((exists data e, auth w GetUser = Resolved data (Some e)) \/
   (exists reason, auth w GetUser = Rejected reason) ->
   (forall members,
      fst (getStoredSession (record_call GetUser w)) = Normal (Some (JObj members)) ->
      fst (getCurrentUser w) = Normal (obj_lookup "user" members) /\
      truthy (obj_lookup "user" members) = true) /\
   (fst (getStoredSession (record_call GetUser w)) = Normal null ->
    fst (getCurrentUser w) = Normal null)).
Proof.
  set (fallback :=
         match fst (getStoredSession (record_call GetUser w)) with
         | Normal (Some (JObj members)) => obj_lookup "user" members
         | _ => null
         end).
  assert (Hfail : (exists data e, auth w GetUser = Resolved data (Some e)) \/
                  (exists reason, auth w GetUser = Rejected reason) ->
                  fst (getCurrentUser w) = Normal fallback).
  { intros Hcall. subst fallback. unfold getCurrentUser, await. run_op.
    destruct (getStoredSession_returns (record_call GetUser w))
      as [Hnull | (members & text & Hsome & Hu & _)];
      destruct Hcall as [(data & e & ->) | (reason & ->)];
      destruct (getStoredSession (record_call GetUser w)) as [r w1];
      cbn [fst] in *; subst r; cbn [truthy prop ret]; try rewrite Hu; reflexivity. }
  split; [|split].
  - destruct (auth w GetUser) as [data [e|] | reason] eqn:Hcall.
    + eexists. apply Hfail. eauto.
    + exists (data_user data). unfold getCurrentUser, await. run_op. rewrite Hcall. reflexivity.
    + eexists. apply Hfail. eauto.
  - intros data Hcall. unfold getCurrentUser, await. run_op. rewrite Hcall. reflexivity.
  - intros Hcall. rewrite (Hfail Hcall). subst fallback. split.
    + intros members Hload. rewrite Hload. split; [reflexivity|].
      destruct (getStoredSession_returns (record_call GetUser w))
        as [Hnull | (members' & text & Hsome & Hu & _)]; unfold null in *; congruence.
    + intros ->. reflexivity.
Qed.

Lemma getCurrentUser_falls_back_witness :
  fst (getCurrentUser (snd (saveSession example_session (browser offline))))
  = Normal (Some example_user).
Proof.
  destruct (proj2 (proj2 (getCurrentUser_falls_back
                            (snd (saveSession example_session (browser offline)))))
              (or_intror (ex_intro _ "Failed to fetch" eq_refl))) as [Hcached _].
  destruct (Hcached
              (object_literal
                 [("user", Some example_user);
                  ("access_token", Some (JStr "access-1"));
                  ("refresh_token", Some (JStr "refresh-1"));
                  ("expires_at", Some (JNum 1800000000));
                  ("expires_in", Some (JNum 3600));
                  ("token_type", Some (JStr "bearer"));
                  ("saved_at", Some (JNum 1700000000000))])
              ltac:(vm_compute; reflexivity)) as [Hresult _].
  rewrite Hresult. reflexivity.
Defined.

(** ** Updates of the user *)

Lemma merge_user_run (data : AuthData) (w : World) :
  merge_user data w =
  (Normal data,
   if truthy (data_user data) then
     match fst (getStoredSession w) with
     | Normal (Some (JObj members)) =>
         snd (saveSession (Some (JObj (assign_member "user" (data_user data) members)))
                (snd (getStoredSession w)))
     | _ => snd (getStoredSession w)
     end
   else w).
Proof.
  unfold merge_user. run_op. destruct (truthy (data_user data)); [|reflexivity].
  destruct (getStoredSession_returns w) as [Hnull | (members & text & Hsome & _)];
    destruct (getStoredSession w) as [r w1]; cbn [fst snd] in *; subst r; cbn [truthy];
    [reflexivity|].
  cbn [with_user].
  pose proof (saveSession_never_throws
                (Some (JObj (assign_member "user" (data_user data) members))) w1) as Hs.
  destruct (saveSession _ w1) as [c w2]. cbn [fst] in Hs. subst c. reflexivity.
Qed.

(** [try { body } catch (error) { throw error }] is [body]. *)
Lemma try_catch_rethrow {A : Type} (body : Op A) (w : World) :
  try_catch body (fun error => throw error) w = body w.
Proof. unfold try_catch, throw. destruct (body w) as [[a|e] w']; reflexivity. Qed.

Lemma updatePassword_run (newPassword : string) (w : World) :
  updatePassword newPassword w =
  match auth w (UpdateUser (password_update newPassword)) with
  | Resolved data None => merge_user data (record_call (UpdateUser (password_update newPassword)) w)
  | Resolved data (Some e) =>
      (Throws (ServiceError e), record_call (UpdateUser (password_update newPassword)) w)
  | Rejected reason =>
      (Throws (Rejection reason), record_call (UpdateUser (password_update newPassword)) w)
  end.
Proof.
  unfold updatePassword. rewrite try_catch_rethrow. unfold await, bind at 1.
  cbn [object_literal]. fold (password_update newPassword).
  destruct (auth w (UpdateUser (password_update newPassword))) as [data [e|] | reason];
    reflexivity.
Qed.

Lemma field_object_truthy (updates : value) (key : string) (v : json) :
  field updates key = Some v -> truthy updates = true.
Proof. destruct updates as [[]|]; cbn; unfold undefined; congruence. Qed.

Lemma updateProfile_password_branch_run (updates : value) (password : string) (w : World) :
  field updates "password" = Some (JStr password) ->
  updateProfile_password_branch updates w =
  match auth w (UpdateUser (password_update password)) with
  | Resolved data None => merge_user data (record_call (UpdateUser (password_update password)) w)
  | Resolved data (Some e) =>
      (Throws (ServiceError e), record_call (UpdateUser (password_update password)) w)
  | Rejected reason =>
      (Throws (Rejection reason), record_call (UpdateUser (password_update password)) w)
  end.
Proof.
  intros Hfield. pose proof (field_object_truthy _ _ _ Hfield) as Htruthy.
  unfold updateProfile_password_branch. unfold bind at 1.
  rewrite (prop_truthy updates "password" w Htruthy), Hfield.
  unfold await, bind at 1. cbn [object_literal]. fold (password_update password).
  destruct (auth w (UpdateUser (password_update password))) as [data [e|] | reason];
    reflexivity.
Qed.

Lemma updateProfile_takes_password_branch (updates : value) (password : string) (w : World) :
  field updates "password" = Some (JStr password) -> password <> EmptyString ->
  updateProfile updates w = updateProfile_password_branch updates w.
Proof.
  intros Hfield Hpassword. pose proof (field_object_truthy _ _ _ Hfield) as Htruthy.
  unfold updateProfile. rewrite try_catch_rethrow. unfold bind at 1.
  rewrite (prop_truthy updates "password" w Htruthy), Hfield.
  destruct password as [|c rest]; [congruence | reflexivity].
Qed.

Lemma updateProfile_password_run (updates : value) (password : string) (w : World) :
  field updates "password" = Some (JStr password) -> password <> EmptyString ->
  updateProfile updates w =
  match auth w (UpdateUser (password_update password)) with
  | Resolved data None => merge_user data (record_call (UpdateUser (password_update password)) w)
  | Resolved data (Some e) =>
      (Throws (ServiceError e), record_call (UpdateUser (password_update password)) w)
  | Rejected reason =>
      (Throws (Rejection reason), record_call (UpdateUser (password_update password)) w)
  end.
Proof.
  intros Hfield Hpassword.
  rewrite (updateProfile_takes_password_branch updates password w Hfield Hpassword).
  apply updateProfile_password_branch_run. exact Hfield.
Qed.

Lemma updateProfile_metadata_run (updates : value) (w : World) :
  truthy updates = true -> truthy (field updates "password") = false ->
  updateProfile updates w =
  let attributes := metadata_update updates (toISOString w (clock w (ticks w))) in
  match auth w (UpdateUser attributes) with
  | Resolved data None => merge_user data (record_call (UpdateUser attributes) (tick w))
  | Resolved data (Some e) => (Throws (ServiceError e), record_call (UpdateUser attributes) (tick w))
  | Rejected reason => (Throws (Rejection reason), record_call (UpdateUser attributes) (tick w))
  end.
Proof.
  intros Htruthy Hpassword.
  unfold updateProfile. rewrite try_catch_rethrow. unfold bind at 1.
  rewrite (prop_truthy updates "password" w Htruthy), Hpassword.
  unfold updateProfile_metadata_branch. unfold bind at 1.
  rewrite (prop_truthy updates "data" w Htruthy).
  unfold new_Date_toISOString, Date_now, await. run_op.
  cbn [toISOString auth tick]. unfold metadata_update.
  destruct (auth w _) as [data [e|] | reason]; reflexivity.
Qed.

Lemma saveSession_issued (session : value) (w : World) :
  issued (snd (saveSession session w)) = issued w.
Proof.
  destruct (window_defined w && truthy session) eqn:H.
  - apply andb_true_iff in H as [Hw Hs]. rewrite saveSession_run by assumption. reflexivity.
  - rewrite saveSession_skip by assumption. reflexivity.
Qed.

Lemma merge_user_issued (data : AuthData) (w : World) :
  issued (snd (merge_user data w)) = issued w.
Proof.
  rewrite merge_user_run. cbn [snd].
  destruct (getStoredSession_frame w) as (_ & _ & _ & Hissued).
  repeat case_match; try rewrite saveSession_issued; auto.
Qed.

(** C6. For every password and every behaviour of the service,
    [updatePassword] of the password does what the password branch of
    [updateProfile] does on updates that carry it: the same result and the
    same world after, so the same call issued, the same merge into the
    cache, the same data returned and the same error thrown.  Both issue
    one call, the update of the password alone; both return the data of an
    envelope without error, throw the error of an envelope that has one,
    and throw the reason of a rejection.  [updateProfile] takes that branch
    exactly when the password is not empty. *)
Theorem updatePassword_same_as_password_branch (updates : value) (newPassword : string)
    (w : World) :
  field updates "password" = Some (JStr newPassword) ->
  updateProfile_password_branch updates w = updatePassword newPassword w /\
  (newPassword <> EmptyString -> updateProfile updates w = updatePassword newPassword w) /\
  issued (snd (updatePassword newPassword w))
    = (issued w ++ [UpdateUser [("password", JStr newPassword)]])%list /\
  (forall data,
     auth w (UpdateUser [("password", JStr newPassword)]) = Resolved data None ->
     fst (updatePassword newPassword w) = Normal data) /\
  (forall data e,
     auth w (UpdateUser [("password", JStr newPassword)]) = Resolved data (Some e) ->
     fst (updatePassword newPassword w) = Throws (ServiceError e)) /\
  (forall reason,
     auth w (UpdateUser [("password", JStr newPassword)]) = Rejected reason ->
     fst (updatePassword newPassword w) = Throws (Rejection reason)).
Proof.
  intros Hfield.
  split; [|split].
  - rewrite (updateProfile_password_branch_run updates newPassword w Hfield).
    rewrite updatePassword_run. reflexivity.
  - intros Hpassword.
    rewrite (updateProfile_password_run updates newPassword w Hfield Hpassword).
    rewrite updatePassword_run. reflexivity.
  - rewrite updatePassword_run. unfold password_update.
    split; [|split; [|split]].
    + destruct (auth w _) as [data [e|] | reason]; try reflexivity.
      rewrite merge_user_issued. reflexivity.
    + intros data ->. rewrite merge_user_run. reflexivity.
    + intros data e ->. reflexivity.
    + intros reason ->. reflexivity.
Qed.

Lemma updatePassword_same_as_password_branch_witness :
  updateProfile_password_branch (Some (JObj [("password", JStr "correct horse")]))
    (snd (saveSession example_session (browser updating)))
  = updatePassword "correct horse" (snd (saveSession example_session (browser updating))) /\
  updateProfile (Some (JObj [("password", JStr "correct horse")]))
    (snd (saveSession example_session (browser updating)))
  = updatePassword "correct horse" (snd (saveSession example_session (browser updating))).
Proof.
  split.
  - exact (proj1 (updatePassword_same_as_password_branch
                    (Some (JObj [("password", JStr "correct horse")])) "correct horse"
                    (snd (saveSession example_session (browser updating))) eq_refl)).
  - exact (proj1 (proj2 (updatePassword_same_as_password_branch
                           (Some (JObj [("password", JStr "correct horse")])) "correct horse"
                           (snd (saveSession example_session (browser updating))) eq_refl))
             ltac:(discriminate)).
Defined.

(** With the empty password [updateProfile] does not take its password
    branch: it sends the password as metadata, where [updatePassword] sends
    a password update. *)
Example updateProfile_empty_password :
  issued (snd (updateProfile (Some (JObj [("password", JStr EmptyString)])) (browser updating)))
  = [UpdateUser [("data", JObj [("password", JStr EmptyString);
                                ("updated_at", JStr "2023-11-14T22:13:20.000Z")])]] /\
  issued (snd (updatePassword EmptyString (browser updating)))
  = [UpdateUser [("password", JStr EmptyString)]].
Proof. vm_compute. split; reflexivity. Qed.

Lemma merge_user_without_session (data : AuthData) (w0 w : World) :
  localStorage w = localStorage w0 ->
  fst (getStoredSession w) = Normal null ->
  returns_without_write w0 (merge_user data w) data.
Proof.
  intros Hsame Hnull. rewrite merge_user_run. unfold returns_without_write. cbn [fst snd].
  split; [reflexivity|].
  rewrite Hnull. cbn [null].
  destruct (truthy (data_user data)); [|rewrite Hsame; auto].
  split.
  - destruct (getStoredSession_world w) as [-> | [-> | [-> | ->]]];
      cbn [cleared localStorage with_storage tick]; rewrite Hsame; auto.
  - intros Hitem. rewrite <- Hsame in Hitem.
    destruct (window_defined w) eqn:Hw.
    + rewrite getStoredSession_empty by assumption. exact Hsame.
    + rewrite getStoredSession_no_window by assumption. exact Hsame.
Qed.

(** C9, as the code has it.  When an update through [updatePassword] or
    either branch of [updateProfile] resolves without error while
    [getStoredSession] finds no valid session at that moment, the operation
    returns the data of the envelope and writes no session: the storage is
    as before or has lost the four slots of the cache, and it is as before
    whenever the session slot was absent or empty. *)
Theorem update_without_cached_session (w : World) (data : AuthData) :
  (forall newPassword : string,
     auth w (UpdateUser (password_update newPassword)) = Resolved data None ->
     fst (getStoredSession (record_call (UpdateUser (password_update newPassword)) w))
       = Normal null ->
     returns_without_write w (updatePassword newPassword w) data) /\
  (forall (updates : value) (password : string),
     field updates "password" = Some (JStr password) -> password <> EmptyString ->
     auth w (UpdateUser (password_update password)) = Resolved data None ->
     fst (getStoredSession (record_call (UpdateUser (password_update password)) w))
       = Normal null ->
     returns_without_write w (updateProfile updates w) data) /\
  (forall updates : value,
     truthy updates = true -> truthy (field updates "password") = false ->
     auth w (UpdateUser (metadata_update updates (toISOString w (clock w (ticks w)))))
       = Resolved data None ->
     fst (getStoredSession
            (record_call
               (UpdateUser (metadata_update updates (toISOString w (clock w (ticks w)))))
               (tick w)))
       = Normal null ->
     returns_without_write w (updateProfile updates w) data).
Proof.
  split; [|split].
  - intros newPassword Hcall Hnull. rewrite updatePassword_run, Hcall.
    apply merge_user_without_session; [reflexivity | exact Hnull].
  - intros updates password Hfield Hpassword Hcall Hnull.
    rewrite (updateProfile_password_run updates password w Hfield Hpassword), Hcall.
    apply merge_user_without_session; [reflexivity | exact Hnull].
  - intros updates Htruthy Hpassword Hcall Hnull.
    rewrite (updateProfile_metadata_run updates w Htruthy Hpassword). cbv zeta.
    rewrite Hcall.
    apply merge_user_without_session; [reflexivity | exact Hnull].
Qed.

(** C9 fails as stated.  The cache holds an expired record, so no valid
    session; the update of the password succeeds and returns the data of the
    envelope; yet the session slot and the active flag, present before, are
    gone after. *)
Lemma updatePassword_clears_invalid_cache :
  fst (getStoredSession
         (record_call (UpdateUser (password_update "correct horse"))
            (with_storage {["kodex-session" := JSON_stringify expired_record;
                            "kodex-session-active" := "true"]} (browser updating))))
  = Normal null /\
  fst (updatePassword "correct horse"
         (with_storage {["kodex-session" := JSON_stringify expired_record;
                         "kodex-session-active" := "true"]} (browser updating)))
  = Normal {| data_user := Some updated_user; data_session := undefined |} /\
  localStorage
    (with_storage {["kodex-session" := JSON_stringify expired_record;
                    "kodex-session-active" := "true"]} (browser updating))
    !! "kodex-session-active" = Some "true" /\
  localStorage
    (snd (updatePassword "correct horse"
            (with_storage {["kodex-session" := JSON_stringify expired_record;
                            "kodex-session-active" := "true"]} (browser updating))))
    !! "kodex-session-active" = None /\
  localStorage
    (snd (updatePassword "correct horse"
            (with_storage {["kodex-session" := JSON_stringify expired_record;
                            "kodex-session-active" := "true"]} (browser updating))))
    !! "kodex-session" = None.
Proof. vm_compute. repeat split; reflexivity. Qed.

Lemma update_without_cached_session_witness :
  returns_without_write (browser updating) (updatePassword "correct horse" (browser updating))
    {| data_user := Some updated_user; data_session := undefined |}.
Proof.
  exact (proj1 (update_without_cached_session (browser updating)
                  {| data_user := Some updated_user; data_session := undefined |})
           "correct horse" eq_refl eq_refl).
Defined.

(** ** The session-active flag *)

Lemma isFreshSession_run (w : World) :
  isFreshSession w =
  (Normal (window_defined w && negb (truthy_item (localStorage w !! "kodex-session-active"))), w).
Proof. unfold isFreshSession. run_op. destruct (window_defined w); reflexivity. Qed.

Lemma markSessionActive_run (w : World) :
  markSessionActive w =
  (Normal tt,
   if window_defined w
   then with_storage (<["kodex-session-active" := "true"]> (localStorage w)) w
   else w).
Proof. unfold markSessionActive. run_op. destruct (window_defined w); reflexivity. Qed.

Lemma after_call_window (w : World) (c : cache_call) :
  window_defined (after_call w c) = window_defined w.
Proof.
  destruct c as [session | | | |]; cbn [after_call].
  - destruct (window_defined w && truthy session) eqn:H.
    + apply andb_true_iff in H as [Hw Hs]. rewrite saveSession_run by assumption. reflexivity.
    + rewrite saveSession_skip by assumption. reflexivity.
  - apply getStoredSession_frame.
  - rewrite clearSession_run.
    destruct (window_defined w) eqn:E; cbn [snd with_storage window_defined]; congruence.
  - rewrite isFreshSession_run. reflexivity.
  - rewrite markSessionActive_run.
    destruct (window_defined w) eqn:E; cbn [snd with_storage window_defined]; congruence.
Qed.

Lemma after_call_flag (w : World) (c : cache_call) :
  window_defined w = true ->
  localStorage (after_call w c) !! "kodex-session-active" =
    (if marks_active c then Some "true" else localStorage w !! "kodex-session-active")
  \/ localStorage (after_call w c) !! "kodex-session-active" = None /\ marks_active c = false.
Proof.
  intros Hw. destruct c as [session | | | |]; cbn [after_call marks_active].
  - left. destruct (truthy session) eqn:Hs.
    + rewrite saveSession_run by assumption. cbn. by simplify_map_eq.
    + rewrite saveSession_skip by (rewrite Hs; apply andb_false_r). reflexivity.
  - destruct (getStoredSession_world w) as [-> | [-> | [-> | ->]]];
      [left; reflexivity | right | left; reflexivity | right];
      (split; [apply cleared_cache_cleared | reflexivity]).
  - right. split; [apply clearSession_cleared; exact Hw | reflexivity].
  - left. rewrite isFreshSession_run. reflexivity.
  - left. rewrite markSessionActive_run, Hw. cbn. by simplify_map_eq.
Qed.

Lemma after_calls_window (calls : list cache_call) (w : World) :
  window_defined (after_calls w calls) = window_defined w.
Proof.
  revert w. induction calls as [|c calls IH]; intros w; [reflexivity|].
  cbn [after_calls fold_left]. fold (after_calls (after_call w c) calls).
  rewrite IH. apply after_call_window.
Qed.

Lemma after_calls_flag (calls : list cache_call) (w : World) :
  window_defined w = true -> flag_written_by_code w ->
  flag_written_by_code (after_calls w calls).
Proof.
  revert w. induction calls as [|c calls IH]; intros w Hw Hflag; [exact Hflag|].
  cbn [after_calls fold_left]. fold (after_calls (after_call w c) calls).
  apply IH; [rewrite after_call_window; exact Hw|].
  unfold flag_written_by_code in *.
  destruct (after_call_flag w c Hw) as [-> | [-> _]]; [|auto].
  destruct (marks_active c); auto.
Qed.

Lemma after_calls_unmarked (calls : list cache_call) (w : World) :
  window_defined w = true ->
  localStorage w !! "kodex-session-active" = None ->
  forallb (fun c => negb (marks_active c)) calls = true ->
  localStorage (after_calls w calls) !! "kodex-session-active" = None.
Proof.
  revert w. induction calls as [|c calls IH]; intros w Hw Hflag Hcalls; [exact Hflag|].
  cbn [forallb] in Hcalls. apply andb_true_iff in Hcalls as [Hc Hcalls].
  apply negb_true_iff in Hc.
  cbn [after_calls fold_left]. fold (after_calls (after_call w c) calls).
  apply IH; [rewrite after_call_window; exact Hw | | exact Hcalls].
  destruct (after_call_flag w c Hw) as [-> | [-> _]]; [|reflexivity].
  rewrite Hc. exact Hflag.
Qed.

(** C7. Take a browser whose storage starts without the session-active
    flag and any sequence of calls of the session cache.  After them,
    [isFreshSession] returns true exactly when the flag is absent; it
    returns true when none of the calls was a [saveSession] of a session or
    a [markSessionActive]; and it returns false right after one more
    [saveSession] of a session and right after one more
    [markSessionActive]. *)
Theorem isFreshSession_iff_flag_absent (w0 : World) (calls : list cache_call) :
  window_defined w0 = true ->
  localStorage w0 !! "kodex-session-active" = None ->
  (fst (isFreshSession (after_calls w0 calls)) = Normal true <->
   localStorage (after_calls w0 calls) !! "kodex-session-active" = None) /\
  (forallb (fun c => negb (marks_active c)) calls = true ->
   fst (isFreshSession (after_calls w0 calls)) = Normal true) /\
  (forall session, truthy session = true ->
     fst (isFreshSession (after_call (after_calls w0 calls) (Save session))) = Normal false) /\
  fst (isFreshSession (after_call (after_calls w0 calls) MarkActive)) = Normal false.
Proof.
  intros Hw Hflag.
  assert (Hw' : window_defined (after_calls w0 calls) = true)
    by (rewrite after_calls_window; exact Hw).
  assert (Hinv : flag_written_by_code (after_calls w0 calls))
    by (apply after_calls_flag; [exact Hw | left; exact Hflag]).
  set (w := after_calls w0 calls) in *.
  split; [|split; [|split]].
  - rewrite isFreshSession_run, Hw'. cbn [fst andb].
    destruct Hinv as [-> | ->]; cbn; split; intros; (reflexivity || discriminate).
  - intros Hcalls. rewrite isFreshSession_run, Hw'. cbn [fst andb].
    subst w. rewrite (after_calls_unmarked calls w0 Hw Hflag Hcalls). reflexivity.
  - intros session Hs. rewrite isFreshSession_run, after_call_window, Hw'. cbn [fst andb].
    destruct (after_call_flag w (Save session) Hw') as [-> | [_ Hno]];
      cbn [marks_active] in *; [rewrite Hs; reflexivity | congruence].
  - rewrite isFreshSession_run, after_call_window, Hw'. cbn [fst andb].
    destruct (after_call_flag w MarkActive Hw') as [-> | [_ Hno]];
      cbn [marks_active] in *; [reflexivity | discriminate].
Qed.

(** Outside such a lifetime: a flag slot holding the empty string, which
    the code never writes, reads as fresh; and without a window nothing is
    fresh. *)
Example isFreshSession_outside_a_lifetime :
  fst (isFreshSession (with_storage {["kodex-session-active" := EmptyString]} (browser offline)))
  = Normal true /\
  fst (isFreshSession
         {| window_defined := false; localStorage := ∅; clock := clock (browser offline);
            ticks := 0; timeZone := "UTC"; StringToNumber := fun _ => None;
            toISOString := toISOString (browser offline); auth := offline; issued := [] |})
  = Normal false.
Proof. split; reflexivity. Qed.

Lemma isFreshSession_iff_flag_absent_witness :
  fst (isFreshSession (after_calls (browser offline) [Load; Clear; IsFresh])) = Normal true /\
  fst (isFreshSession
         (after_call (after_calls (browser offline) [Load; Clear; IsFresh]) (Save example_session)))
  = Normal false.
Proof.
  split.
  - exact (proj1 (proj2 (isFreshSession_iff_flag_absent (browser offline) [Load; Clear; IsFresh]
                           eq_refl eq_refl))
             eq_refl).
  - exact (proj1 (proj2 (proj2 (isFreshSession_iff_flag_absent (browser offline)
                                  [Load; Clear; IsFresh] eq_refl eq_refl)))
             example_session eq_refl).
Defined.

(** ** Sign-up *)

(** [before_at] is the part of an address before its first [@]. *)
Lemma before_at_local_part (local domain : string) :
  before_at local = local ->
  before_at (local +:+ String "@" domain) = local.
Proof.
  induction local as [|c local IH]; intros H; [reflexivity|].
  change (before_at (String c (local +:+ String "@" domain)) = String c local).
  cbn [before_at] in H |- *.
  destruct (c =? "@")%char; [discriminate|].
  injection H as H. rewrite IH by exact H. reflexivity.
Qed.

Lemma signUp_issued (email password : string) (fullName : option string) (w : World) :
  issued (snd (signUp email password fullName w)) =
  (issued w ++
   [SignUp email password
      (signUp_metadata email fullName (timeZone w) (toISOString w (clock w (ticks w))))])%list.
Proof.
  unfold signUp. rewrite try_catch_rethrow.
  unfold resolved_timeZone, new_Date_toISOString, Date_now, await. run_op.
  cbn [timeZone toISOString auth tick clock ticks].
  destruct (auth w _) as [data [e|] | reason]; try reflexivity.
  destruct (truthy (data_session data)); [|reflexivity].
  pose proof (saveSession_issued (data_session data)
                (record_call (SignUp email password
                   (signUp_metadata email fullName (timeZone w) (toISOString w (clock w (ticks w)))))
                   (tick w))) as Hissued.
  pose proof (saveSession_never_throws (data_session data)
                (record_call (SignUp email password
                   (signUp_metadata email fullName (timeZone w) (toISOString w (clock w (ticks w)))))
                   (tick w))) as Hok.
  destruct (saveSession _ _) as [c w1]. cbn [fst snd] in *. subst c. exact Hissued.
Qed.

(** C8, as the code has it.  For every email, password and optional
    display name, [signUp] issues exactly one call, a sign-up with these
    credentials and a metadata payload in which: [full_name] is the display
    name when a non-empty one is given and otherwise (none, or the empty
    string) the part of the email before its first [@], the whole email when
    it has none; [avatar_url] is the avatar address generated from that name;
    [language], [timezone], [date_format] and [theme] carry the defaults (the
    time zone is the one the platform resolves); and the four preference
    flags carry their defaults. *)
Theorem signUp_sends_defaulted_metadata (email password : string) (fullName : option string)
    (w : World) :
  exists metadata : list (string * json),
    issued (snd (signUp email password fullName w))
      = (issued w ++ [SignUp email password metadata])%list /\
    (forall given, fullName = Some given -> given <> EmptyString ->
       obj_lookup "full_name" metadata = Some (JStr given) /\
       obj_lookup "avatar_url" metadata =
         Some (JStr ("https://ui-avatars.com/api/?name=" +:+ encodeURIComponent given
                     +:+ "&size=200&background=random"))) /\
    (fullName = None \/ fullName = Some EmptyString ->
       obj_lookup "full_name" metadata = Some (JStr (before_at email)) /\
       obj_lookup "avatar_url" metadata =
         Some (JStr ("https://ui-avatars.com/api/?name=" +:+ encodeURIComponent (before_at email)
                     +:+ "&size=200&background=random"))) /\
    obj_lookup "language" metadata = Some (JStr "en") /\
    obj_lookup "timezone" metadata = Some (JStr (timeZone w)) /\
    obj_lookup "date_format" metadata = Some (JStr "MM/DD/YYYY") /\
    obj_lookup "theme" metadata = Some (JStr "system") /\
    obj_lookup "email_notifications" metadata = Some (JBool true) /\
    obj_lookup "marketing_emails" metadata = Some (JBool false) /\
    obj_lookup "security_alerts" metadata = Some (JBool true) /\
    obj_lookup "two_factor_enabled" metadata = Some (JBool false).
Proof.
  exists (signUp_metadata email fullName (timeZone w) (toISOString w (clock w (ticks w)))).
  split; [apply signUp_issued|].
  split; [|split].
  - intros given -> Hgiven. destruct given as [|c rest]; [congruence|]. split; reflexivity.
  - intros [-> | ->]; split; reflexivity.
  - repeat split; reflexivity.
Qed.

Lemma signUp_sends_defaulted_metadata_witness :
  exists metadata : list (string * json),
    issued (snd (signUp "alice@example.com" "correct horse" None (browser offline)))
      = [SignUp "alice@example.com" "correct horse" metadata] /\
    obj_lookup "full_name" metadata = Some (JStr "alice").
Proof.
  destruct (signUp_sends_defaulted_metadata "alice@example.com" "correct horse" None
              (browser offline)) as (metadata & Hissued & _ & Hdefault & _).
  exists metadata. split; [exact Hissued|].
  exact (proj1 (Hdefault (or_introl eq_refl))).
Defined.

(** C8 fails as stated.  The empty string given as display name is not
    what the payload carries: [full_name] falls back to the part of the
    email before [@]. *)
Lemma signUp_empty_name_falls_back :
  exists metadata : list (string * json),
    issued (snd (signUp "alice@example.com" "correct horse" (Some EmptyString) (browser offline)))
      = [SignUp "alice@example.com" "correct horse" metadata] /\
    obj_lookup "full_name" metadata = Some (JStr "alice").
Proof.
  exists (signUp_metadata "alice@example.com" (Some EmptyString) "Europe/Paris"
            "2023-11-14T22:13:20.000Z").
  vm_compute. split; reflexivity.
Qed.

(** ** Saving nothing *)

(** C10. [saveSession] called with [null] or [undefined] returns normally
    and leaves the world as it was: no slot of the storage is written, no
    clock reading is taken, no call is issued. *)
Theorem saveSession_null_is_noop (w : World) :
  saveSession null w = (Normal tt, w) /\ saveSession undefined w = (Normal tt, w).
Proof.
  split; apply saveSession_skip; cbn; apply andb_false_r.
Qed.

(** * Further properties of the module *)

(** ** What the cache operations touch *)

Lemma saveSession_world (session : value) (w : World) :
  snd (saveSession session w) =
  if window_defined w && truthy session then
    with_storage
      (<["kodex-session-active" := "true"]>
         (<["kodex-auth-timestamp" := Z_toString (clock w (S (ticks w)))]>
            (<["kodex-session" := JSON_stringify (session_record session (clock w (ticks w)))]>
               (localStorage w))))
      (tick (tick w))
  else w.
Proof.
  destruct (window_defined w && truthy session) eqn:H.
  - apply andb_true_iff in H as [Hw Hs]. rewrite saveSession_run by assumption. reflexivity.
  - rewrite saveSession_skip by assumption. reflexivity.
Qed.

(** X1. [saveSession] writes to no key but the session record, the auth
    timestamp and the active flag: every other key of the storage, the
    client library's own [kodex-auth] among them, keeps its value, whatever
    the session and whether or not there is a window. *)
Theorem saveSession_writes_three_slots (session : value) (w : World) (key : string) :
  key <> "kodex-session" -> key <> "kodex-auth-timestamp" -> key <> "kodex-session-active" ->
  localStorage (snd (saveSession session w)) !! key = localStorage w !! key.
Proof.
  intros H1 H2 H3. rewrite saveSession_world.
  destruct (window_defined w && truthy session); [|reflexivity].
  cbn [localStorage with_storage]. by simplify_map_eq.
Qed.

Lemma saveSession_writes_three_slots_witness :
  localStorage
    (snd (saveSession example_session
            (with_storage {["kodex-auth" := "library state"]} (browser offline))))
    !! "kodex-auth" = Some "library state".
Proof.
  rewrite (saveSession_writes_three_slots example_session
             (with_storage {["kodex-auth" := "library state"]} (browser offline)) "kodex-auth")
    by discriminate.
  reflexivity.
Defined.

Lemma without_cache_lookup (st : gmap string string) (key : string) :
  without_cache st !! key =
  if decide (key = "kodex-session" \/ key = "kodex-auth" \/
             key = "kodex-auth-timestamp" \/ key = "kodex-session-active")
  then None else st !! key.
Proof.
  unfold without_cache. case_decide as H.
  - destruct H as [-> | [-> | [-> | ->]]]; by simplify_map_eq.
  - rewrite !lookup_delete_ne by (intros <-; tauto). reflexivity.
Qed.

Lemma without_cache_idempotent (st : gmap string string) :
  without_cache (without_cache st) = without_cache st.
Proof.
  apply map_eq. intros key. rewrite !without_cache_lookup. case_decide; reflexivity.
Qed.

(** X2. [clearSession] never throws, removes the four keys of the cache
    and no other, and clearing twice is clearing once. *)
Theorem clearSession_removes_only_the_cache (w : World) :
  fst (clearSession w) = Normal tt /\
  (window_defined w = true -> cache_cleared (snd (clearSession w))) /\
  (forall key : string,
     key <> "kodex-session" -> key <> "kodex-auth" ->
     key <> "kodex-auth-timestamp" -> key <> "kodex-session-active" ->
     localStorage (snd (clearSession w)) !! key = localStorage w !! key) /\
  snd (clearSession (snd (clearSession w))) = snd (clearSession w).
Proof.
  rewrite !clearSession_run. cbn [fst snd].
  split; [reflexivity|]. split; [|split].
  - intros ->. apply cleared_cache_cleared.
  - intros key H1 H2 H3 H4. destruct (window_defined w); [|reflexivity].
    cbn [localStorage with_storage]. rewrite without_cache_lookup.
    case_decide as H; [tauto | reflexivity].
  - destruct (window_defined w) eqn:Hw; cbn [window_defined with_storage]; rewrite Hw;
      [|reflexivity].
    unfold with_storage. cbn [localStorage]. rewrite without_cache_idempotent. reflexivity.
Qed.

Lemma clearSession_removes_only_the_cache_witness :
  cache_cleared
    (snd (clearSession
            (with_storage {["kodex-session" := "x"; "theme" := "dark"]} (browser offline)))) /\
  localStorage
    (snd (clearSession
            (with_storage {["kodex-session" := "x"; "theme" := "dark"]} (browser offline))))
    !! "theme" = Some "dark".
Proof.
  split.
  - exact (proj1 (proj2 (clearSession_removes_only_the_cache
                           (with_storage {["kodex-session" := "x"; "theme" := "dark"]}
                              (browser offline)))) eq_refl).
  - rewrite (proj1 (proj2 (proj2 (clearSession_removes_only_the_cache
                                    (with_storage {["kodex-session" := "x"; "theme" := "dark"]}
                                       (browser offline)))))
               "theme") by discriminate.
    reflexivity.
Defined.

(** ** What a load can return *)

Lemma parse_nonempty (text : string) (v : json) :
  JSON_parse text = Some v -> text <> EmptyString.
Proof. intros H ->. unfold JSON_parse in H. rewrite JSONTextFacts.parse_empty in H. discriminate. Qed.

Lemma getStoredSession_parsed (w : World) (text : string) (session : json) :
  window_defined w = true ->
  localStorage w !! "kodex-session" = Some text -> JSON_parse text = Some session ->
  getStoredSession w = checked session w.
Proof.
  intros Hw Hslot Hparse.
  rewrite (getStoredSession_text w text Hw Hslot (parse_nonempty _ _ Hparse)), Hparse.
  reflexivity.
Qed.

(** X3. Whatever the session slot holds that the model reads as the
    platform does (no text, a text that is not JSON, or JSON of exact
    integers), [getStoredSession] returns [null] or an object that is the
    parse of the stored text, has a truthy [user] and a truthy
    [access_token], and whose [expires_at], when it is a number other than
    0, is not before the clock reading; and when it returns a session it has
    not touched the storage. *)
Theorem getStoredSession_exposes_only_valid (w : World) :
  cache_read_faithfully w = true ->
  fst (getStoredSession w) = Normal null \/
  exists (members : list (string * json)) (text : string),
    fst (getStoredSession w) = Normal (Some (JObj members)) /\
    localStorage w !! "kodex-session" = Some text /\
    JSON_valid text = true /\
    JSON_parse text = Some (JObj members) /\
    exact_integers (JObj members) = true /\
    truthy (obj_lookup "user" members) = true /\
    truthy (obj_lookup "access_token" members) = true /\
    (forall n, obj_lookup "expires_at" members = Some (JNum n) -> n <> 0 ->
               clock w (ticks w) <= 1000 * n) /\
    localStorage (snd (getStoredSession w)) = localStorage w.
Proof.
  intros Hfaithful.
  destruct (getStoredSession_returns w)
    as [Hnull | (members & text & Hsome & Hu & Ht & Hw & Hslot & Hparse & Hsame)];
    [left; exact Hnull | right].
  exists members, text.
  split; [exact Hsome|]. split; [exact Hslot|].
  split; [exact (JSON_parse_valid _ _ Hparse)|]. split; [exact Hparse|].
  split.
  { unfold cache_read_faithfully in Hfaithful. rewrite Hslot in Hfaithful.
    unfold read_faithfully in Hfaithful.
    rewrite (JSON_parse_valid _ _ Hparse), Hparse in Hfaithful. exact Hfaithful. }
  split; [exact Hu|]. split; [exact Ht|]. split; [|exact Hsame].
  intros n Hn Hnz.
  rewrite (getStoredSession_parsed w text _ Hw Hslot Hparse) in Hsome.
  unfold checked in Hsome. cbn [field] in Hsome. rewrite Hu, Ht, Hn in Hsome.
  cbn [andb truthy is_past] in Hsome.
  destruct (Z.eqb_spec n 0) as [|_]; [contradiction|]. cbn [negb] in Hsome.
  destruct (Z.ltb_spec (1000 * n) (clock w (ticks w))) as [Hlt | Hge];
    [discriminate | exact Hge].
Qed.

Lemma getStoredSession_exposes_only_valid_witness :
  cache_read_faithfully
    (with_storage {["kodex-session" := JSON_stringify boundary_record]} (browser offline))
  = true /\
  (fst (getStoredSession
          (with_storage {["kodex-session" := JSON_stringify boundary_record]} (browser offline)))
   = Normal null \/
   exists (members : list (string * json)) (text : string),
     fst (getStoredSession
            (with_storage {["kodex-session" := JSON_stringify boundary_record]}
               (browser offline)))
     = Normal (Some (JObj members)) /\
     localStorage
       (with_storage {["kodex-session" := JSON_stringify boundary_record]} (browser offline))
       !! "kodex-session" = Some text /\
     JSON_valid text = true /\
     JSON_parse text = Some (JObj members) /\
     exact_integers (JObj members) = true /\
     truthy (obj_lookup "user" members) = true /\
     truthy (obj_lookup "access_token" members) = true /\
     (forall n, obj_lookup "expires_at" members = Some (JNum n) -> n <> 0 ->
                clock (with_storage {["kodex-session" := JSON_stringify boundary_record]}
                         (browser offline))
                  (ticks (with_storage {["kodex-session" := JSON_stringify boundary_record]}
                            (browser offline)))
                <= 1000 * n) /\
     localStorage
       (snd (getStoredSession
               (with_storage {["kodex-session" := JSON_stringify boundary_record]}
                  (browser offline))))
     = localStorage
         (with_storage {["kodex-session" := JSON_stringify boundary_record]} (browser offline))).
Proof.
  split; [vm_compute; reflexivity|].
  apply getStoredSession_exposes_only_valid. vm_compute. reflexivity.
Defined.

(** X4. The expiry test is strict.  For a stored record that parses to
    an object with a truthy [user] and [access_token] and whose
    [expires_at] is a number [n] other than 0, [getStoredSession] returns
    the record exactly when the clock reading, in milliseconds, is at most
    [1000 * n]; one millisecond later it returns [null] and clears the
    cache. *)
Theorem getStoredSession_expiry_boundary (w : World) (text : string)
    (members : list (string * json)) (n : Z) :
  window_defined w = true ->
  localStorage w !! "kodex-session" = Some text ->
  JSON_parse text = Some (JObj members) ->
  truthy (obj_lookup "user" members) = true ->
  truthy (obj_lookup "access_token" members) = true ->
  obj_lookup "expires_at" members = Some (JNum n) -> n <> 0 ->
  (fst (getStoredSession w) = Normal (Some (JObj members)) <-> clock w (ticks w) <= 1000 * n) /\
  (1000 * n < clock w (ticks w) ->
   fst (getStoredSession w) = Normal null /\ cache_cleared (snd (getStoredSession w))).
Proof.
  intros Hw Hslot Hparse Hu Ht Hn Hnz.
  rewrite (getStoredSession_parsed w text _ Hw Hslot Hparse).
  unfold checked. cbn [field]. rewrite Hu, Ht, Hn. cbn [andb truthy is_past].
  destruct (Z.eqb_spec n 0) as [|_]; [contradiction|]. cbn [negb].
  destruct (Z.ltb_spec (1000 * n) (clock w (ticks w))) as [Hlt | Hge]; cbn [fst snd].
  - split; [split; [discriminate | lia]|].
    intros _. split; [reflexivity | apply cleared_cache_cleared].
  - split; [split; [intros _; exact Hge | reflexivity] | lia].
Qed.

Lemma getStoredSession_expiry_boundary_witness :
  fst (getStoredSession
         (with_storage {["kodex-session" := JSON_stringify boundary_record]} (browser offline)))
  = Normal (Some boundary_record).
Proof.
  destruct (getStoredSession_expiry_boundary
              (with_storage {["kodex-session" := JSON_stringify boundary_record]}
                 (browser offline))
              (JSON_stringify boundary_record)
              [("user", example_user); ("access_token", JStr "access-1");
               ("expires_at", JNum 1700000000)]
              1700000000) as [[_ Hback] _];
    [reflexivity | vm_compute; reflexivity | vm_compute; reflexivity
    | reflexivity | reflexivity | reflexivity | discriminate |].
  apply Hback. vm_compute. discriminate.
Defined.

(** ** Start-up *)

(** [initializeSession], path by path. *)
Lemma initializeSession_run (w : World) :
  initializeSession w =
  match auth w GetSession with
  | Rejected _ =>
      match fst (getStoredSession (record_call GetSession w)) with
      | Normal (Some (JObj members)) =>
          (Normal (Some (JObj members)), snd (getStoredSession (record_call GetSession w)))
      | _ => (Normal null, snd (clearSession (snd (getStoredSession (record_call GetSession w)))))
      end
  | Resolved _ (Some _) =>
      match fst (getStoredSession (record_call GetSession w)) with
      | Normal (Some (JObj members)) =>
          (Normal (Some (JObj members)), snd (getStoredSession (record_call GetSession w)))
      | _ => (Normal null, snd (getStoredSession (record_call GetSession w)))
      end
  | Resolved found None =>
      if truthy (data_session found) then
        (Normal (data_session found),
         snd (saveSession (data_session found) (record_call GetSession w)))
      else
        match fst (getStoredSession (record_call GetSession w)) with
        | Normal (Some (JObj members)) =>
            if truthy (obj_lookup "refresh_token" members) then
              match auth w (RefreshSession (obj_lookup "refresh_token" members)) with
              | Resolved refreshed None =>
                  if truthy (data_session refreshed) then
                    (Normal (data_session refreshed),
                     snd (saveSession (data_session refreshed)
                            (record_call (RefreshSession (obj_lookup "refresh_token" members))
                               (snd (getStoredSession (record_call GetSession w))))))
                  else
                    (Normal null,
                     record_call (RefreshSession (obj_lookup "refresh_token" members))
                       (snd (getStoredSession (record_call GetSession w))))
              | Resolved _ (Some _) =>
                  (Normal null,
                   snd (clearSession
                          (record_call (RefreshSession (obj_lookup "refresh_token" members))
                             (snd (getStoredSession (record_call GetSession w))))))
              | Rejected _ =>
                  (Normal (Some (JObj members)),
                   record_call (RefreshSession (obj_lookup "refresh_token" members))
                     (snd (getStoredSession (record_call GetSession w))))
              end
            else (Normal null, snd (getStoredSession (record_call GetSession w)))
        | _ => (Normal null, snd (getStoredSession (record_call GetSession w)))
        end
  end.
Proof.
  destruct (getStoredSession_frame (record_call GetSession w)) as (Hauth & _).
  cbn [auth record_call] in Hauth.
  unfold initializeSession, await. run_op.
  destruct (auth w GetSession) as [found [e|] | reason].
  - destruct (getStoredSession_returns (record_call GetSession w))
      as [Hnull | (members & text & Hsome & _)];
      destruct (getStoredSession (record_call GetSession w)) as [r w1];
      cbn [fst snd] in *; subst r; reflexivity.
  - destruct (truthy (data_session found)).
    + pose proof (saveSession_never_throws (data_session found) (record_call GetSession w)) as Hs.
      destruct (saveSession (data_session found) (record_call GetSession w)) as [c w1].
      cbn [fst] in Hs. subst c. reflexivity.
    + destruct (getStoredSession_returns (record_call GetSession w))
        as [Hnull | (members & text & Hsome & _)];
        destruct (getStoredSession (record_call GetSession w)) as [r w1];
        cbn [fst snd] in *; subst r; [reflexivity|].
      cbn [truthy prop andb ret].
      destruct (truthy (obj_lookup "refresh_token" members)); [|reflexivity].
      rewrite Hauth.
      destruct (auth w (RefreshSession (obj_lookup "refresh_token" members)))
        as [refreshed [e|] | reason]; try reflexivity.
      * rewrite clearSession_run. reflexivity.
      * destruct (truthy (data_session refreshed)); [|reflexivity].
        pose proof (saveSession_never_throws (data_session refreshed)
                      (record_call (RefreshSession (obj_lookup "refresh_token" members)) w1)) as Hs.
        destruct (saveSession (data_session refreshed) _) as [c w2].
        cbn [fst] in Hs. subst c. reflexivity.
  - destruct (getStoredSession_returns (record_call GetSession w))
      as [Hnull | (members & text & Hsome & _)];
      destruct (getStoredSession (record_call GetSession w)) as [r w1];
      cbn [fst snd] in *; subst r; cbn [truthy null]; [|reflexivity].
    rewrite clearSession_run. reflexivity.
Qed.

(** A well-formed session that was just saved loads back, at any later
    clock reading at which it has not expired. *)
Lemma saved_session_loads (w : World) (session : value) :
  window_defined w = true -> well_formed session ->
  unexpired_at (clock w (2 + ticks w)%nat) session ->
  loads_back (snd (saveSession session w)) session.
Proof.
  intros Hw [Huser Htoken] Hexpiry.
  destruct (truthy_field_object _ _ Huser) as [members ->].
  set (session := Some (JObj members)) in *.
  set (record := session_record session (clock w (ticks w))).
  destruct (session_record_fields session (clock w (ticks w)))
    as (Hu & Ht & Hr & He & Hi & Hty & _).
  fold record in Hu, Ht, Hr, He, Hi, Hty.
  exists record. split; [|repeat split; assumption].
  rewrite (saveSession_run session w Hw eq_refl). cbn [snd].
  rewrite (getStoredSession_parsed _ (JSON_stringify record) record); cycle 1.
  - exact Hw.
  - cbn [localStorage with_storage]. by simplify_map_eq.
  - unfold JSON_parse, JSON_stringify. apply JSONTextFacts.parse_stringify.
  - unfold checked. rewrite Hu, Ht, He, Huser, Htoken. cbn [andb].
    destruct Hexpiry as [-> | (n & Hn & Hle)]; [reflexivity|].
    rewrite Hn. cbn [is_past with_storage tick StringToNumber clock ticks].
    destruct (truthy (Some (JNum n))); [|reflexivity].
    replace (1000 * n <? clock w (S (S (ticks w)))) with false; [reflexivity|].
    symmetry. apply Z.ltb_ge. exact Hle.
Qed.

Lemma clearSession_issued (w : World) : issued (snd (clearSession w)) = issued w.
Proof. rewrite clearSession_run. destruct (window_defined w); reflexivity. Qed.

Lemma getStoredSession_issued (w : World) : issued (snd (getStoredSession w)) = issued w.
Proof. apply getStoredSession_frame. Qed.

(** X5. [initializeSession] never throws, whatever the service does and
    whatever the storage holds, and it issues the read of the session and
    at most one refresh after it. *)
Theorem initializeSession_never_throws (w : World) :
  (exists v : value, fst (initializeSession w) = Normal v) /\
  (issued (snd (initializeSession w)) = (issued w ++ [GetSession])%list \/
   exists token : value,
     issued (snd (initializeSession w)) = (issued w ++ [GetSession; RefreshSession token])%list).
Proof.
  rewrite initializeSession_run.
  pose proof (getStoredSession_issued (record_call GetSession w)) as Hload.
  cbn [issued record_call] in Hload.
  destruct (auth w GetSession) as [found [e|] | reason].
  - repeat case_match; cbn [fst snd]; (split; [eauto|]); left; exact Hload.
  - destruct (truthy (data_session found)); cbn [fst snd].
    { split; [eauto|]. left. rewrite saveSession_issued. reflexivity. }
    destruct (fst (getStoredSession (record_call GetSession w))) as [[[| | | | |members]|]|];
      cbn [fst snd]; try (split; [eauto | left; exact Hload]).
    destruct (truthy (obj_lookup "refresh_token" members));
      [|split; [eauto | left; exact Hload]].
    assert (Hcalls : forall c,
               issued (record_call c (snd (getStoredSession (record_call GetSession w))))
               = (issued w ++ [GetSession; c])%list).
    { intros c. cbn [issued record_call]. rewrite Hload, <- app_assoc. reflexivity. }
    destruct (auth w (RefreshSession (obj_lookup "refresh_token" members)))
      as [refreshed [e|] | reason]; cbn [fst snd].
    + split; [eauto|]. right. eexists. rewrite clearSession_issued. apply Hcalls.
    + destruct (truthy (data_session refreshed)); cbn [fst snd]; (split; [eauto|]);
        right; eexists; [rewrite saveSession_issued|]; apply Hcalls.
    + split; [eauto|]. right. eexists. apply Hcalls.
  - repeat case_match; cbn [fst snd]; (split; [eauto|]); left;
      try rewrite clearSession_issued; exact Hload.
Qed.

(** X6. When the service holds a session, [initializeSession] returns it
    after the one call that read it and writes it through without looking
    at what the cache held: if the session is well formed and not expired,
    the next load returns its fields. *)
Theorem initializeSession_writes_through (w : World) (found : AuthData) :
  window_defined w = true ->
  auth w GetSession = Resolved found None ->
  well_formed (data_session found) ->
  unexpired_at (clock w (2 + ticks w)%nat) (data_session found) ->
  fst (initializeSession w) = Normal (data_session found) /\
  issued (snd (initializeSession w)) = (issued w ++ [GetSession])%list /\
  loads_back (snd (initializeSession w)) (data_session found).
Proof.
  intros Hw Hcall Hwf Hexpiry.
  assert (Htruthy : truthy (data_session found) = true).
  { destruct Hwf as [Hu _]. destruct (truthy_field_object _ _ Hu) as [members ->]. reflexivity. }
  rewrite initializeSession_run, Hcall, Htruthy. cbn [fst snd].
  split; [reflexivity|]. split; [rewrite saveSession_issued; reflexivity|].
  apply saved_session_loads; assumption.
Qed.

Lemma initializeSession_writes_through_witness :
  fst (initializeSession (browser signed_in)) = Normal example_session /\
  loads_back (snd (initializeSession (browser signed_in))) example_session.
Proof.
  destruct (initializeSession_writes_through (browser signed_in)
              {| data_user := Some example_user; data_session := example_session |})
    as (Hresult & _ & Hloads);
    [reflexivity | reflexivity | split; reflexivity
    | right; exists 1800000000; split; [reflexivity | vm_compute; discriminate] |].
  split; assumption.
Defined.

(** X7. When the read of the session resolves with an error or rejects,
    [initializeSession] returns what [getStoredSession] finds at that
    moment, a valid cached session or [null], and attempts no refresh. *)
Theorem initializeSession_falls_back_to_cache (w : World) :
  (exists found e, auth w GetSession = Resolved found (Some e)) \/
  (exists reason, auth w GetSession = Rejected reason) ->
  fst (initializeSession w) = fst (getStoredSession (record_call GetSession w)) /\
  issued (snd (initializeSession w)) = (issued w ++ [GetSession])%list.
Proof.
  intros Hcall. rewrite initializeSession_run.
  pose proof (getStoredSession_issued (record_call GetSession w)) as Hload.
  cbn [issued record_call] in Hload.
  destruct (getStoredSession_returns (record_call GetSession w))
    as [Hnull | (members & text & Hsome & _)];
    destruct Hcall as [(found & e & ->) | (reason & ->)];
    rewrite ?Hnull, ?Hsome; cbn [null fst snd];
    (split; [reflexivity|]); try rewrite clearSession_issued; exact Hload.
Qed.

Lemma initializeSession_falls_back_to_cache_witness :
  exists record : json,
    fst (initializeSession (snd (saveSession example_session (browser failing))))
    = Normal (Some record) /\
    field (Some record) "access_token" = Some (JStr "access-1").
Proof.
  destruct (initializeSession_falls_back_to_cache
              (snd (saveSession example_session (browser failing)))) as [Hresult _].
  - left. exists no_session, (MkAuthError "Service unavailable"). reflexivity.
  - rewrite Hresult. eexists. split; vm_compute; reflexivity.
Defined.

(** X8. A valid cached session without a truthy [refresh_token] is not
    returned when the service has no session: [initializeSession] returns
    [null] after the one call, and the cache stays as it was.  The same
    holds when the refresh resolves with neither an error nor a session. *)
Theorem initializeSession_null_keeps_cache (w : World) (found : AuthData)
    (members : list (string * json)) :
  auth w GetSession = Resolved found None ->
  truthy (data_session found) = false ->
  fst (getStoredSession (record_call GetSession w)) = Normal (Some (JObj members)) ->
  truthy (obj_lookup "refresh_token" members) = false \/
  (exists refreshed,
     auth w (RefreshSession (obj_lookup "refresh_token" members)) = Resolved refreshed None /\
     truthy (data_session refreshed) = false) ->
  fst (initializeSession w) = Normal null /\
  localStorage (snd (initializeSession w)) = localStorage w.
Proof.
  intros Hcall Hnone Hload Hrefresh.
  destruct (getStoredSession_returns (record_call GetSession w))
    as [Hnull | (members' & text & Hsome & _ & _ & _ & _ & _ & Hsame)];
    [rewrite Hload in Hnull; discriminate|].
  cbn [localStorage record_call] in Hsame.
  rewrite initializeSession_run, Hcall, Hnone, Hload.
  destruct Hrefresh as [-> | (refreshed & Hr & Hs)]; [split; [reflexivity | exact Hsame]|].
  destruct (truthy (obj_lookup "refresh_token" members)); [|split; [reflexivity | exact Hsame]].
  rewrite Hr, Hs. split; [reflexivity | exact Hsame].
Qed.

Lemma initializeSession_null_keeps_cache_witness :
  fst (initializeSession (snd (saveSession unrefreshable_session (browser refreshing))))
  = Normal null /\
  localStorage (snd (initializeSession (snd (saveSession unrefreshable_session (browser refreshing)))))
  = localStorage (snd (saveSession unrefreshable_session (browser refreshing))).
Proof.
  apply (initializeSession_null_keeps_cache
           (snd (saveSession unrefreshable_session (browser refreshing)))
           no_session
           (object_literal
              [("user", Some example_user);
               ("access_token", Some (JStr "access-1"));
               ("saved_at", Some (JNum 1700000000000))])).
  - reflexivity.
  - reflexivity.
  - vm_compute. reflexivity.
  - left. reflexivity.
Defined.

(** ** Signing up and signing out *)

Lemma signUp_run (email password : string) (fullName : option string) (w : World) :
  signUp email password fullName w =
  match auth w (signUp_call email password fullName w) with
  | Resolved data None =>
      (Normal data,
       if truthy (data_session data)
       then snd (saveSession (data_session data)
                   (record_call (signUp_call email password fullName w) (tick w)))
       else record_call (signUp_call email password fullName w) (tick w))
  | Resolved _ (Some e) =>
      (Throws (ServiceError e), record_call (signUp_call email password fullName w) (tick w))
  | Rejected reason =>
      (Throws (Rejection reason), record_call (signUp_call email password fullName w) (tick w))
  end.
Proof.
  unfold signUp. rewrite try_catch_rethrow.
  unfold resolved_timeZone, new_Date_toISOString, Date_now, await. run_op.
  cbn [timeZone toISOString auth tick clock ticks]. fold (signUp_call email password fullName w).
  destruct (auth w (signUp_call email password fullName w)) as [data [e|] | reason];
    try reflexivity.
  destruct (truthy (data_session data)); [|reflexivity].
  pose proof (saveSession_never_throws (data_session data)
                (record_call (signUp_call email password fullName w) (tick w))) as Hok.
  destruct (saveSession _ _) as [c w1]. cbn [fst] in Hok. subst c. reflexivity.
Qed.

(** X9. A sign-up that fails leaves the cache alone: [signUp] throws the
    error of the envelope, or the reason of the rejection, and the storage
    is as before.  It throws in no other case. *)
Theorem signUp_failure_leaves_cache (email password : string) (fullName : option string)
    (w : World) :
  (forall data e,
     auth w (signUp_call email password fullName w) = Resolved data (Some e) ->
     fst (signUp email password fullName w) = Throws (ServiceError e)) /\
  (forall reason,
     auth w (signUp_call email password fullName w) = Rejected reason ->
     fst (signUp email password fullName w) = Throws (Rejection reason)) /\
  (forall data,
     auth w (signUp_call email password fullName w) = Resolved data None ->
     fst (signUp email password fullName w) = Normal data) /\
  (forall e,
     fst (signUp email password fullName w) = Throws e ->
     localStorage (snd (signUp email password fullName w)) = localStorage w).
Proof.
  rewrite signUp_run.
  destruct (auth w (signUp_call email password fullName w)) as [data [e|] | reason];
    repeat split; intros; simplify_eq; try reflexivity; discriminate.
Qed.

(** X10. A sign-up that resolves with a well-formed, unexpired session
    writes it through: the data is returned and the next load returns the
    fields of the session.  A sign-up that resolves without a session (the
    address is still to be confirmed) returns the data and leaves the
    storage as it was. *)
Theorem signUp_writes_session_through (email password : string) (fullName : option string)
    (w : World) (data : AuthData) :
  window_defined w = true ->
  auth w (signUp_call email password fullName w) = Resolved data None ->
  fst (signUp email password fullName w) = Normal data /\
  (well_formed (data_session data) ->
   unexpired_at (clock w (3 + ticks w)%nat) (data_session data) ->
   loads_back (snd (signUp email password fullName w)) (data_session data)) /\
  (truthy (data_session data) = false ->
   localStorage (snd (signUp email password fullName w)) = localStorage w).
Proof.
  intros Hw Hcall. rewrite signUp_run, Hcall. cbn [fst snd].
  split; [reflexivity|]. split.
  - intros Hwf Hexpiry.
    assert (Htruthy : truthy (data_session data) = true).
    { destruct Hwf as [Hu _]. destruct (truthy_field_object _ _ Hu) as [members ->]. reflexivity. }
    rewrite Htruthy. apply saved_session_loads; [exact Hw | exact Hwf | exact Hexpiry].
  - intros ->. reflexivity.
Qed.

Lemma signUp_writes_session_through_witness :
  loads_back (snd (signUp "alice@example.com" "correct horse" None (browser registering)))
    example_session.
Proof.
  destruct (signUp_writes_session_through "alice@example.com" "correct horse" None
              (browser registering)
              {| data_user := Some example_user; data_session := example_session |}
              eq_refl eq_refl) as (_ & Hloads & _).
  apply Hloads.
  - split; reflexivity.
  - right. exists 1800000000. split; [reflexivity | vm_compute; discriminate].
Defined.

Lemma signOut_run (w : World) : signOut w = clearSession (record_call SignOut w).
Proof.
  unfold signOut, await. run_op.
  destruct (auth w SignOut) as [data error | reason]; [|reflexivity].
  rewrite clearSession_run. reflexivity.
Qed.

(** X11. After [signOut] in a browser, whatever the service answered and
    whatever the cache held, a load finds no session and the storage is
    fresh again, while every key outside the cache keeps its value. *)
Theorem signOut_then_no_session (w : World) :
  window_defined w = true ->
  getStoredSession (snd (signOut w)) = (Normal null, snd (signOut w)) /\
  fst (isFreshSession (snd (signOut w))) = Normal true /\
  (forall key : string,
     key <> "kodex-session" -> key <> "kodex-auth" ->
     key <> "kodex-auth-timestamp" -> key <> "kodex-session-active" ->
     localStorage (snd (signOut w)) !! key = localStorage w !! key).
Proof.
  intros Hw. rewrite signOut_run, clearSession_run.
  cbn [window_defined record_call]. rewrite Hw. cbn [snd].
  pose proof (cleared_cache_cleared (record_call SignOut w)) as (Hs & _ & _ & Hf).
  split; [|split].
  - apply getStoredSession_empty; [exact Hw|].
    fold (cleared (record_call SignOut w)). rewrite Hs. reflexivity.
  - rewrite isFreshSession_run. fold (cleared (record_call SignOut w)). rewrite Hf.
    cbn [window_defined with_storage record_call cleared]. rewrite Hw. reflexivity.
  - intros key H1 H2 H3 H4. cbn [localStorage with_storage record_call].
    rewrite without_cache_lookup. case_decide as H; [tauto | reflexivity].
Qed.

Lemma signOut_then_no_session_witness :
  fst (isFreshSession (snd (signOut (snd (saveSession example_session (browser offline))))))
  = Normal true.
Proof.
  exact (proj1 (proj2 (signOut_then_no_session
                         (snd (saveSession example_session (browser offline))) eq_refl))).
Defined.

(** ** Updates of the user, further *)

Lemma obj_lookup_app_last (key k : string) (v : json) (members : list (string * json)) :
  obj_lookup k (members ++ [(key, v)]) = if String.eqb key k then Some v else obj_lookup k members.
Proof.
  induction members as [|[k' old] rest IH]; cbn [app obj_lookup].
  - destruct (String.eqb key k); reflexivity.
  - rewrite IH. destruct (String.eqb key k); [reflexivity|].
    destruct (obj_lookup k rest); reflexivity.
Qed.

Lemma obj_lookup_replace (key k : string) (v : json) (members : list (string * json)) :
  obj_lookup k (replace_member key v members) =
  if String.eqb key k
  then match obj_lookup key members with Some _ => Some v | None => None end
  else obj_lookup k members.
Proof.
  induction members as [|[k' old] rest IH]; cbn [replace_member obj_lookup].
  - destruct (String.eqb key k); reflexivity.
  - rewrite IH. destruct (String.eqb_spec key k) as [<- | Hne].
    + destruct (obj_lookup key rest); [reflexivity|].
      destruct (String.eqb_spec k' key) as [-> | Hk']; reflexivity.
    + destruct (obj_lookup k rest); [reflexivity|].
      destruct (String.eqb_spec k' k) as [-> | Hk']; [|reflexivity].
      destruct (String.eqb_spec k key) as [-> | _]; [congruence | reflexivity].
Qed.

(** Reading a member after [obj.key = v]. *)
Lemma obj_lookup_assign (key k : string) (v : json) (members : list (string * json)) :
  obj_lookup k (assign_member key (Some v) members) =
  if String.eqb key k then Some v else obj_lookup k members.
Proof.
  unfold assign_member. destruct (obj_lookup key members) eqn:Hold.
  - rewrite obj_lookup_replace, Hold. reflexivity.
  - apply obj_lookup_app_last.
Qed.

Lemma prop_defined (v : value) (key : string) (w : World) :
  nullish v = false -> prop v key w = (Normal (field v key), w).
Proof. destruct v as [[]|]; cbn; intros; (reflexivity || discriminate). Qed.

Lemma prop_nullish (v : value) (key : string) (w : World) :
  nullish v = true -> prop v key w = (Throws TypeError, w).
Proof. destruct v as [[]|]; cbn; intros; (reflexivity || discriminate). Qed.

(** [updateProfile], path by path. *)
Lemma updateProfile_run (updates : value) (w : World) :
  updateProfile updates w =
  if nullish updates then (Throws TypeError, w)
  else if truthy (field updates "password") then
    match auth w (UpdateUser (object_literal [("password", field updates "password")])) with
    | Resolved data None =>
        merge_user data
          (record_call (UpdateUser (object_literal [("password", field updates "password")])) w)
    | Resolved _ (Some e) =>
        (Throws (ServiceError e),
         record_call (UpdateUser (object_literal [("password", field updates "password")])) w)
    | Rejected reason =>
        (Throws (Rejection reason),
         record_call (UpdateUser (object_literal [("password", field updates "password")])) w)
    end
  else
    match auth w (UpdateUser (metadata_update updates (toISOString w (clock w (ticks w))))) with
    | Resolved data None =>
        merge_user data
          (record_call (UpdateUser (metadata_update updates (toISOString w (clock w (ticks w)))))
             (tick w))
    | Resolved _ (Some e) =>
        (Throws (ServiceError e),
         record_call (UpdateUser (metadata_update updates (toISOString w (clock w (ticks w)))))
           (tick w))
    | Rejected reason =>
        (Throws (Rejection reason),
         record_call (UpdateUser (metadata_update updates (toISOString w (clock w (ticks w)))))
           (tick w))
    end.
Proof.
  unfold updateProfile. rewrite try_catch_rethrow. unfold bind at 1.
  destruct (nullish updates) eqn:Hnull; [rewrite prop_nullish by exact Hnull; reflexivity|].
  rewrite (prop_defined updates "password" w Hnull).
  destruct (truthy (field updates "password")) eqn:Hpassword.
  - unfold updateProfile_password_branch. unfold bind at 1.
    rewrite (prop_defined updates "password" w Hnull).
    unfold await, bind at 1.
    destruct (auth w _) as [data [e|] | reason]; reflexivity.
  - unfold updateProfile_metadata_branch. unfold bind at 1.
    rewrite (prop_defined updates "data" w Hnull).
    unfold new_Date_toISOString, Date_now, await. run_op.
    cbn [toISOString auth tick]. unfold metadata_update.
    destruct (auth w _) as [data [e|] | reason]; reflexivity.
Qed.

Lemma merge_user_normal (data : AuthData) (w : World) : fst (merge_user data w) = Normal data.
Proof. rewrite merge_user_run. reflexivity. Qed.

(** X12. An update that fails never touches the cache.  Whenever
    [updatePassword] or [updateProfile] throws, the storage is as before;
    what is thrown is the error of the envelope, the reason of the
    rejection, or, for [updateProfile] called with [null] or [undefined], a
    [TypeError] raised before any call is issued. *)
Theorem update_failure_leaves_cache (w : World) :
  (forall (newPassword : string) (e : thrown),
     fst (updatePassword newPassword w) = Throws e ->
     localStorage (snd (updatePassword newPassword w)) = localStorage w /\
     ((exists err, e = ServiceError err) \/ (exists reason, e = Rejection reason))) /\
  (forall (updates : value) (e : thrown),
     fst (updateProfile updates w) = Throws e ->
     localStorage (snd (updateProfile updates w)) = localStorage w /\
     ((exists err, e = ServiceError err) \/ (exists reason, e = Rejection reason) \/
      (e = TypeError /\ nullish updates = true /\
       issued (snd (updateProfile updates w)) = issued w))) /\
  (forall updates : value,
     nullish updates = true -> updateProfile updates w = (Throws TypeError, w)).
Proof.
  split; [|split].
  - intros newPassword e. rewrite updatePassword_run.
    destruct (auth w _) as [data [err|] | reason]; cbn [fst snd].
    + intros [= <-]. split; [reflexivity | eauto].
    + rewrite merge_user_normal. discriminate.
    + intros [= <-]. split; [reflexivity | eauto].
  - intros updates e. rewrite updateProfile_run.
    destruct (nullish updates); [intros [= <-]; split; [reflexivity | auto]|].
    destruct (truthy (field updates "password"));
      (destruct (auth w _) as [data [err|] | reason]; cbn [fst snd];
       [intros [= <-]; split; [reflexivity | eauto]
       | rewrite merge_user_normal; discriminate
       | intros [= <-]; split; [reflexivity | eauto]]).
  - intros updates Hnull. rewrite updateProfile_run, Hnull. reflexivity.
Qed.

Lemma merge_user_merges (data : AuthData) (user : json) (members : list (string * json))
    (w : World) :
  data_user data = Some user -> truthy (Some user) = true ->
  fst (getStoredSession w) = Normal (Some (JObj members)) ->
  fst (merge_user data w) = Normal data /\ merged (snd (merge_user data w)) user members.
Proof.
  intros Huser Htruthy Hload. rewrite merge_user_run. cbn [fst snd].
  split; [reflexivity|].
  rewrite Huser, Htruthy, Hload.
  destruct (getStoredSession_returns w) as [Hnull | (members' & text & Hsome & _ & _ & Hw & _)];
    [rewrite Hload in Hnull; discriminate|].
  assert (Hw' : window_defined (snd (getStoredSession w)) = true)
    by (rewrite (proj1 (proj2 (getStoredSession_frame w))); exact Hw).
  set (session := Some (JObj (assign_member "user" (Some user) members))).
  rewrite (saveSession_run session _ Hw' eq_refl). cbn [snd].
  set (t := clock (snd (getStoredSession w)) (ticks (snd (getStoredSession w)))).
  exists (session_record session t).
  destruct (session_record_fields session t) as (Hu & Ht & Hr & He & Hi & Hty & _).
  split; [cbn [localStorage with_storage]; by simplify_map_eq|].
  rewrite Hu, Ht, Hr, He, Hi, Hty. subst session. cbn [field].
  rewrite !obj_lookup_assign. repeat split; reflexivity.
Qed.

Lemma updateProfile_run_call (updates : value) (w : World) :
  nullish updates = false ->
  updateProfile updates w =
  match auth w (updateProfile_call updates w) with
  | Resolved data None => merge_user data (updateProfile_moment updates w)
  | Resolved _ (Some e) => (Throws (ServiceError e), updateProfile_moment updates w)
  | Rejected reason => (Throws (Rejection reason), updateProfile_moment updates w)
  end.
Proof.
  intros Hnull. rewrite updateProfile_run, Hnull.
  unfold updateProfile_moment, updateProfile_call.
  destruct (truthy (field updates "password")); reflexivity.
Qed.

(** X13. A successful update with a valid session in the cache replaces
    the user of the cached session by the user the service returned and
    keeps its tokens and expiry: after [updatePassword], and after
    [updateProfile] on either branch, the session slot holds a record with
    the returned user and the cached [access_token], [refresh_token],
    [expires_at], [expires_in] and [token_type]. *)
Theorem update_merges_user_keeps_tokens (w : World) (data : AuthData) (user : json)
    (members : list (string * json)) :
  data_user data = Some user -> truthy (Some user) = true ->
  (forall newPassword : string,
     auth w (UpdateUser (password_update newPassword)) = Resolved data None ->
     fst (getStoredSession (record_call (UpdateUser (password_update newPassword)) w))
       = Normal (Some (JObj members)) ->
     fst (updatePassword newPassword w) = Normal data /\
     merged (snd (updatePassword newPassword w)) user members) /\
  (forall updates : value,
     nullish updates = false ->
     auth w (updateProfile_call updates w) = Resolved data None ->
     fst (getStoredSession (updateProfile_moment updates w)) = Normal (Some (JObj members)) ->
     fst (updateProfile updates w) = Normal data /\
     merged (snd (updateProfile updates w)) user members).
Proof.
  intros Huser Htruthy. split.
  - intros newPassword Hcall Hload. rewrite updatePassword_run, Hcall.
    apply merge_user_merges; assumption.
  - intros updates Hnull Hcall Hload. rewrite (updateProfile_run_call updates w Hnull), Hcall.
    apply merge_user_merges; assumption.
Qed.

Lemma update_merges_user_keeps_tokens_witness :
  merged (snd (updateProfile (Some (JObj [("full_name", JStr "Alice")]))
                 (snd (saveSession example_session (browser updating)))))
    updated_user
    (object_literal
       [("user", Some example_user);
        ("access_token", Some (JStr "access-1"));
        ("refresh_token", Some (JStr "refresh-1"));
        ("expires_at", Some (JNum 1800000000));
        ("expires_in", Some (JNum 3600));
        ("token_type", Some (JStr "bearer"));
        ("saved_at", Some (JNum 1700000000000))]).
Proof.
  destruct (update_merges_user_keeps_tokens
              (snd (saveSession example_session (browser updating)))
              {| data_user := Some updated_user; data_session := undefined |}
              updated_user
              (object_literal
                 [("user", Some example_user);
                  ("access_token", Some (JStr "access-1"));
                  ("refresh_token", Some (JStr "refresh-1"));
                  ("expires_at", Some (JNum 1800000000));
                  ("expires_in", Some (JNum 3600));
                  ("token_type", Some (JStr "bearer"));
                  ("saved_at", Some (JNum 1700000000000))])
              eq_refl eq_refl) as [_ Hprofile].
  apply (Hprofile (Some (JObj [("full_name", JStr "Alice")])));
    [reflexivity | reflexivity | vm_compute; reflexivity].
Defined.

(** X14. On its metadata branch [updateProfile] sends the caller's
    fields under [data] with a fresh [updated_at]: the payload's
    [updated_at] is the time of the call, every other member reads as in the
    updates (in their nested [data] object when that is truthy), and an
    [updated_at] the caller supplied is overridden. *)
Theorem updateProfile_stamps_metadata (updates : value) (w : World) :
  nullish updates = false -> truthy (field updates "password") = false ->
  exists payload : list (string * json),
    issued (snd (updateProfile updates w)) = (issued w ++ [UpdateUser [("data", JObj payload)]])%list /\
    obj_lookup "updated_at" payload = Some (JStr (toISOString w (clock w (ticks w)))) /\
    (forall key : string,
       key <> "updated_at" ->
       obj_lookup key payload =
       obj_lookup key (spread (if truthy (field updates "data")
                               then field updates "data" else updates))).
Proof.
  intros Hnull Hpassword.
  exists (assign_member "updated_at" (Some (JStr (toISOString w (clock w (ticks w)))))
            (spread (if truthy (field updates "data") then field updates "data" else updates))).
  split; [|split].
  - rewrite updateProfile_run, Hnull, Hpassword. unfold metadata_update.
    destruct (auth w _) as [data [e|] | reason]; try reflexivity.
    rewrite merge_user_issued. reflexivity.
  - rewrite obj_lookup_assign. reflexivity.
  - intros key Hkey. rewrite obj_lookup_assign.
    destruct (String.eqb_spec "updated_at" key) as [<- | _]; [congruence | reflexivity].
Qed.

Lemma updateProfile_stamps_metadata_witness :
  exists payload : list (string * json),
    issued (snd (updateProfile
                   (Some (JObj [("bio", JStr "hello"); ("updated_at", JStr "long ago")]))
                   (browser updating)))
    = [UpdateUser [("data", JObj payload)]] /\
    obj_lookup "updated_at" payload = Some (JStr "2023-11-14T22:13:20.000Z") /\
    obj_lookup "bio" payload = Some (JStr "hello").
Proof.
  destruct (updateProfile_stamps_metadata
              (Some (JObj [("bio", JStr "hello"); ("updated_at", JStr "long ago")]))
              (browser updating) eq_refl eq_refl) as (payload & Hissued & Hstamp & Hrest).
  exists payload. split; [exact Hissued|]. split; [exact Hstamp|].
  rewrite (Hrest "bio") by discriminate. reflexivity.
Defined.

(** ** [isAuthenticated], [testConnection] and the listener *)

Lemma optional_prop_run (v : value) (key : string) (w : World) :
  optional_prop v key w = (Normal (field v key), w).
Proof. destruct v as [[]|]; reflexivity. Qed.

(** [isAuthenticated], path by path. *)
Lemma isAuthenticated_run (w : World) :
  isAuthenticated w =
  match auth w GetSession with
  | Resolved _ (Some _) => (Normal false, record_call GetSession w)
  | Resolved data None =>
      (Normal (truthy (field (data_session data) "user")), record_call GetSession w)
  | Rejected _ =>
      (Normal match fst (getStoredSession (record_call GetSession w)) with
              | Normal (Some (JObj _)) => true
              | _ => false
              end,
       snd (getStoredSession (record_call GetSession w)))
  end.
Proof.
  unfold isAuthenticated, await. run_op.
  destruct (auth w GetSession) as [data [e|] | reason]; [reflexivity | |].
  - rewrite optional_prop_run. reflexivity.
  - destruct (getStoredSession_returns (record_call GetSession w))
      as [Hnull | (members & text & Hsome & Huser & _)];
      destruct (getStoredSession (record_call GetSession w)) as [r w1];
      cbn [fst snd] in *; subst r; rewrite optional_prop_run; [reflexivity|].
    cbn [field]. rewrite Huser. reflexivity.
Qed.

(** X15. [isAuthenticated] never throws and issues exactly one read of
    the session.  When the read resolves with an error the answer is
    [false]; when it resolves without one the answer is whether the session
    of the service has a truthy [user], and the cache is neither read nor
    changed, also when the service has no session; when the read rejects the
    answer is whether the cache yields a session. *)
Theorem isAuthenticated_answer (w : World) :
  (exists answer : bool, fst (isAuthenticated w) = Normal answer) /\
  issued (snd (isAuthenticated w)) = (issued w ++ [GetSession])%list /\
  (forall data e,
     auth w GetSession = Resolved data (Some e) ->
     isAuthenticated w = (Normal false, record_call GetSession w)) /\
  (forall data,
     auth w GetSession = Resolved data None ->
     isAuthenticated w =
     (Normal (truthy (field (data_session data) "user")), record_call GetSession w)) /\
  (forall reason,
     auth w GetSession = Rejected reason ->
     snd (isAuthenticated w) = snd (getStoredSession (record_call GetSession w)) /\
     (fst (isAuthenticated w) = Normal true <->
      exists members,
        fst (getStoredSession (record_call GetSession w)) = Normal (Some (JObj members))) /\
     (fst (isAuthenticated w) = Normal false <->
      fst (getStoredSession (record_call GetSession w)) = Normal null)).
Proof.
  rewrite isAuthenticated_run. split; [|split; [|split; [|split]]].
  - destruct (auth w GetSession) as [data [e|] | reason]; eexists; reflexivity.
  - destruct (auth w GetSession) as [data [e|] | reason]; try reflexivity.
    cbn [snd]. rewrite getStoredSession_issued. reflexivity.
  - intros data e ->. reflexivity.
  - intros data ->. reflexivity.
  - intros reason ->. cbn [fst snd]. split; [reflexivity|].
    destruct (getStoredSession_returns (record_call GetSession w))
      as [Hnull | (members & text & Hsome & _)].
    + rewrite Hnull. unfold null. split; split; try discriminate; try reflexivity.
      intros [members H]. discriminate.
    + rewrite Hsome. unfold null. split; split; try discriminate; try reflexivity.
      intros _. exists members. reflexivity.
Qed.

(** [testConnection], path by path. *)
Lemma testConnection_run (w : World) :
  testConnection w =
  (Normal (JObj match auth w GetSession with
                | Resolved _ (Some (MkAuthError message)) =>
                    [("success", JBool false); ("error", JStr message)]
                | Resolved data None =>
                    object_literal [("success", Some (JBool true));
                                    ("session", data_session data)]
                | Rejected _ => [("success", JBool false); ("error", JStr "Network error")]
                end),
   record_call GetSession w).
Proof.
  unfold testConnection, await. run_op.
  destruct (auth w GetSession) as [data [[message]|] | reason]; reflexivity.
Qed.

(** X16. [testConnection] never throws, issues exactly one read of the
    session and changes nothing else: it returns an object whose [success]
    is [true] exactly when the read resolved without error, with the
    session of the service under [session] in that case, the message of the
    error under [error] when the read resolved with one, and the text
    [Network error] there when the read rejected. *)
Theorem testConnection_reports (w : World) :
  exists result : json,
    testConnection w = (Normal result, record_call GetSession w) /\
    (field (Some result) "success" = Some (JBool true) \/
     field (Some result) "success" = Some (JBool false)) /\
    (field (Some result) "success" = Some (JBool true) <->
     exists data, auth w GetSession = Resolved data None) /\
    (forall data,
       auth w GetSession = Resolved data None ->
       field (Some result) "session" = data_session data /\
       field (Some result) "error" = undefined) /\
    (forall data message,
       auth w GetSession = Resolved data (Some (MkAuthError message)) ->
       field (Some result) "error" = Some (JStr message) /\
       field (Some result) "session" = undefined) /\
    (forall reason,
       auth w GetSession = Rejected reason ->
       field (Some result) "error" = Some (JStr "Network error") /\
       field (Some result) "session" = undefined).
Proof.
  rewrite testConnection_run. eexists. split; [reflexivity|].
  destruct (auth w GetSession) as [data [[message]|] | reason].
  - split; [right; reflexivity|]. split; [|split; [|split]].
    + split; [discriminate | intros [? H]; discriminate].
    + intros ? H. discriminate.
    + intros ? ? H. injection H as _ <-. split; reflexivity.
    + intros ? H. discriminate.
  - assert (Hsuccess : field (Some (JObj (object_literal
                                 [("success", Some (JBool true));
                                  ("session", data_session data)]))) "success"
                       = Some (JBool true))
      by (destruct (data_session data); reflexivity).
    split; [left; exact Hsuccess|]. split; [|split; [|split]].
    + split; [intros _; exists data; reflexivity | intros _; exact Hsuccess].
    + intros ? H. injection H as <-. destruct (data_session data); split; reflexivity.
    + intros ? ? H. discriminate.
    + intros ? H. discriminate.
  - split; [right; reflexivity|]. split; [|split; [|split]].
    + split; [discriminate | intros [? H]; discriminate].
    + intros ? H. discriminate.
    + intros ? ? H. discriminate.
    + intros ? _. split; reflexivity.
Qed.

(** The listener, event by event. *)
Lemma authStateListener_run (event : string) (session : value) (w : World) :
  authStateListener event session w =
  if String.eqb event "SIGNED_OUT" then clearSession w
  else if (String.eqb event "SIGNED_IN" || String.eqb event "TOKEN_REFRESHED"
           || String.eqb event "USER_UPDATED") && truthy session
       then saveSession session w
       else (Normal tt, w).
Proof.
  unfold authStateListener, try_catch.
  destruct (String.eqb_spec event "SIGNED_IN") as [-> | _].
  - cbn [andb orb]. change ("SIGNED_IN" =? "SIGNED_OUT")%string with false.
    destruct (truthy session).
    + pose proof (saveSession_never_throws session w) as H.
      destruct (saveSession session w) as [c w1]. cbn [fst] in H. subst c. reflexivity.
    + reflexivity.
  - cbn [andb orb].
    destruct (String.eqb_spec event "SIGNED_OUT") as [-> | _].
    + rewrite clearSession_run. reflexivity.
    + destruct (String.eqb event "TOKEN_REFRESHED"); cbn [andb orb].
      * destruct (truthy session); [|destruct (String.eqb event "USER_UPDATED"); reflexivity].
        pose proof (saveSession_never_throws session w) as H.
        destruct (saveSession session w) as [c w1]. cbn [fst] in H. subst c. reflexivity.
      * destruct (String.eqb event "USER_UPDATED"); cbn [andb]; [|reflexivity].
        destruct (truthy session); [|reflexivity].
        pose proof (saveSession_never_throws session w) as H.
        destruct (saveSession session w) as [c w1]. cbn [fst] in H. subst c. reflexivity.
Qed.

(** X17. The listener of the changes of the authentication state never
    throws and issues no call.  On [SIGNED_OUT] it clears the cache, whatever
    session comes with the event.  On [SIGNED_IN], [TOKEN_REFRESHED] and
    [USER_UPDATED] with a truthy session it saves that session, so that in a
    browser a well-formed, unexpired session loads back from the cache.  On
    these three events with a falsy session, and on every other event, it
    leaves the world as it was. *)
Theorem authStateListener_mirrors_events (event : string) (session : value) (w : World) :
  fst (authStateListener event session w) = Normal tt /\
  issued (snd (authStateListener event session w)) = issued w /\
  (event = "SIGNED_OUT" ->
   authStateListener event session w = clearSession w /\
   (window_defined w = true -> cache_cleared (snd (authStateListener event session w)))) /\
  (event = "SIGNED_IN" \/ event = "TOKEN_REFRESHED" \/ event = "USER_UPDATED" ->
   truthy session = true ->
   authStateListener event session w = saveSession session w /\
   (window_defined w = true -> well_formed session ->
    unexpired_at (clock w (2 + ticks w)%nat) session ->
    loads_back (snd (authStateListener event session w)) session)) /\
  (event <> "SIGNED_OUT" ->
   truthy session = false \/
   (event <> "SIGNED_IN" /\ event <> "TOKEN_REFRESHED" /\ event <> "USER_UPDATED") ->
   authStateListener event session w = (Normal tt, w)).
Proof.
  rewrite authStateListener_run. split; [|split; [|split; [|split]]].
  - destruct (String.eqb event "SIGNED_OUT"); [rewrite clearSession_run; reflexivity|].
    destruct (_ && truthy session); [apply saveSession_never_throws | reflexivity].
  - destruct (String.eqb event "SIGNED_OUT"); [apply clearSession_issued|].
    destruct (_ && truthy session); [apply saveSession_issued | reflexivity].
  - intros ->. cbn. split; [reflexivity | apply clearSession_cleared].
  - intros Hevent Htruthy. rewrite Htruthy.
    assert (Hsave : (if String.eqb event "SIGNED_OUT" then clearSession w
                     else if (String.eqb event "SIGNED_IN" || String.eqb event "TOKEN_REFRESHED"
                              || String.eqb event "USER_UPDATED") && true
                          then saveSession session w else (Normal tt, w))
                    = saveSession session w)
      by (destruct Hevent as [-> | [-> | ->]]; reflexivity).
    rewrite Hsave. split; [reflexivity|]. apply saved_session_loads.
  - intros Hout Hignored.
    destruct (String.eqb_spec event "SIGNED_OUT") as [? | _]; [contradiction|].
    destruct Hignored as [-> | (Hin & Hrefreshed & Hupdated)];
      [rewrite andb_false_r; reflexivity|].
    destruct (String.eqb_spec event "SIGNED_IN"); [contradiction|].
    destruct (String.eqb_spec event "TOKEN_REFRESHED"); [contradiction|].
    destruct (String.eqb_spec event "USER_UPDATED"); [contradiction|].
    reflexivity.
Qed.
